(** * Postage generation pipeline: a shallow embedding of
      [scripts/generate_postage.py] and the properties of its stages.

    The script talks to a carrier (EasyPost), to the file system, to a PDF
    canvas and to the [pdfjam] tool.  The embedding threads an explicit
    [World] (shipment objects, files, standard output and the trace of
    external calls) through a state-and-exception monad; what the outside
    answers is read from an [Env] of oracles, so every theorem holds for
    every behaviour of the collaborators. *)

From Stdlib Require Import String Ascii List NArith DecimalString Decimal Lia.
From stdpp Require Import gmap strings list sorting.

#[local] Set Warnings "-clear-no-such-hyp".

Open Scope string_scope.
Open Scope list_scope.

(** ** Strings *)

Module Str.

(** Text is held as its UTF-8 encoding.  A character of the Python [str] (a
    code point) is a lead byte followed by its continuation bytes;
    concatenation, equality and the byte-wise order of the encodings are
    those of the text.  ASCII text has one byte per character. *)

Definition is_continuation (c : ascii) : bool :=
  let n := nat_of_ascii c in Nat.leb 128 n && Nat.ltb n 192.

(** The number of bytes of the character whose lead byte is [c]. *)
Definition width (c : ascii) : nat :=
  let n := nat_of_ascii c in
  if Nat.ltb n 192 then 1
  else if Nat.ltb n 224 then 2
  else if Nat.ltb n 240 then 3
  else if Nat.ltb n 248 then 4
  else 1.

(** The characters of [cur] followed by [s], where [cur] holds the bytes read
    so far of a character that has at most [pending] bytes to come. *)
Fixpoint chars_from (pending : nat) (cur s : string) : list string :=
  match s with
  | EmptyString => [cur]
  | String b rest =>
      match pending with
      | S pending' =>
          if is_continuation b
          then chars_from pending' (cur +:+ String b EmptyString) rest
          else cur :: chars_from (width b - 1) (String b EmptyString) rest
      | O => cur :: chars_from (width b - 1) (String b EmptyString) rest
      end
  end.

(** The characters of a text, each as its bytes. *)
Definition chars (s : string) : list string :=
  match s with
  | EmptyString => []
  | String b rest => chars_from (width b - 1) (String b EmptyString) rest
  end.

Definition join (parts : list string) : string :=
  fold_right String.append EmptyString parts.

(** The slice [s[:n]]: the first [n] characters. *)
Definition slice_to (n : nat) (s : string) : string := join (take n (chars s)).

(** The UTF-8 encoding of a code point. *)
Definition utf8 (cp : N) : string :=
  (if cp <? 0x80 then String (ascii_of_N cp) EmptyString
   else if cp <? 0x800 then
     String (ascii_of_N (0xC0 + cp / 0x40))
       (String (ascii_of_N (0x80 + cp mod 0x40)) EmptyString)
   else if cp <? 0x10000 then
     String (ascii_of_N (0xE0 + cp / 0x1000))
       (String (ascii_of_N (0x80 + (cp / 0x40) mod 0x40))
          (String (ascii_of_N (0x80 + cp mod 0x40)) EmptyString))
   else
     String (ascii_of_N (0xF0 + cp / 0x40000))
       (String (ascii_of_N (0x80 + (cp / 0x1000) mod 0x40))
          (String (ascii_of_N (0x80 + (cp / 0x40) mod 0x40))
             (String (ascii_of_N (0x80 + cp mod 0x40)) EmptyString))))%N.

(** [str.upper()] on ASCII: [a]..[z] are shifted to [A]..[Z], every other
    byte is kept. *)
Definition upper_ascii (c : ascii) : ascii :=
  let n := nat_of_ascii c in
  if Nat.leb 97 n && Nat.leb n 122 then ascii_of_nat (n - 32) else c.

(** The full uppercase mapping of the characters beyond ASCII, by code point
    (Unicode Character Database 14.0: the simple mappings of [UnicodeData.txt]
    and the unconditional ones of [SpecialCasing.txt], which give up to three
    code points for one).  A code point that is not listed is its own
    uppercase.  An interpreter with an earlier version of the database knows
    fewer of the code points listed and leaves the others as they are. *)
Definition upper_map : list (N * list N) :=
  ([
   (0xb5, [0x39c]); (0xdf, [0x53; 0x53]); (0xe0, [0xc0]); (0xe1, [0xc1]); (0xe2, [0xc2]);
   (0xe3, [0xc3]); (0xe4, [0xc4]); (0xe5, [0xc5]); (0xe6, [0xc6]); (0xe7, [0xc7]); (0xe8, [0xc8]);
   (0xe9, [0xc9]); (0xea, [0xca]); (0xeb, [0xcb]); (0xec, [0xcc]); (0xed, [0xcd]); (0xee, [0xce]);
   (0xef, [0xcf]); (0xf0, [0xd0]); (0xf1, [0xd1]); (0xf2, [0xd2]); (0xf3, [0xd3]); (0xf4, [0xd4]);
   (0xf5, [0xd5]); (0xf6, [0xd6]); (0xf8, [0xd8]); (0xf9, [0xd9]); (0xfa, [0xda]); (0xfb, [0xdb]);
   (0xfc, [0xdc]); (0xfd, [0xdd]); (0xfe, [0xde]); (0xff, [0x178]); (0x101, [0x100]);
   (0x103, [0x102]); (0x105, [0x104]); (0x107, [0x106]); (0x109, [0x108]); (0x10b, [0x10a]);
   (0x10d, [0x10c]); (0x10f, [0x10e]); (0x111, [0x110]); (0x113, [0x112]); (0x115, [0x114]);
   (0x117, [0x116]); (0x119, [0x118]); (0x11b, [0x11a]); (0x11d, [0x11c]); (0x11f, [0x11e]);
   (0x121, [0x120]); (0x123, [0x122]); (0x125, [0x124]); (0x127, [0x126]); (0x129, [0x128]);
   (0x12b, [0x12a]); (0x12d, [0x12c]); (0x12f, [0x12e]); (0x131, [0x49]); (0x133, [0x132]);
   (0x135, [0x134]); (0x137, [0x136]); (0x13a, [0x139]); (0x13c, [0x13b]); (0x13e, [0x13d]);
   (0x140, [0x13f]); (0x142, [0x141]); (0x144, [0x143]); (0x146, [0x145]); (0x148, [0x147]);
   (0x149, [0x2bc; 0x4e]); (0x14b, [0x14a]); (0x14d, [0x14c]); (0x14f, [0x14e]); (0x151, [0x150]);
   (0x153, [0x152]); (0x155, [0x154]); (0x157, [0x156]); (0x159, [0x158]); (0x15b, [0x15a]);
   (0x15d, [0x15c]); (0x15f, [0x15e]); (0x161, [0x160]); (0x163, [0x162]); (0x165, [0x164]);
   (0x167, [0x166]); (0x169, [0x168]); (0x16b, [0x16a]); (0x16d, [0x16c]); (0x16f, [0x16e]);
   (0x171, [0x170]); (0x173, [0x172]); (0x175, [0x174]); (0x177, [0x176]); (0x17a, [0x179]);
   (0x17c, [0x17b]); (0x17e, [0x17d]); (0x17f, [0x53]); (0x180, [0x243]); (0x183, [0x182]);
   (0x185, [0x184]); (0x188, [0x187]); (0x18c, [0x18b]); (0x192, [0x191]); (0x195, [0x1f6]);
   (0x199, [0x198]); (0x19a, [0x23d]); (0x19e, [0x220]); (0x1a1, [0x1a0]); (0x1a3, [0x1a2]);
   (0x1a5, [0x1a4]); (0x1a8, [0x1a7]); (0x1ad, [0x1ac]); (0x1b0, [0x1af]); (0x1b4, [0x1b3]);
   (0x1b6, [0x1b5]); (0x1b9, [0x1b8]); (0x1bd, [0x1bc]); (0x1bf, [0x1f7]); (0x1c5, [0x1c4]);
   (0x1c6, [0x1c4]); (0x1c8, [0x1c7]); (0x1c9, [0x1c7]); (0x1cb, [0x1ca]); (0x1cc, [0x1ca]);
   (0x1ce, [0x1cd]); (0x1d0, [0x1cf]); (0x1d2, [0x1d1]); (0x1d4, [0x1d3]); (0x1d6, [0x1d5]);
   (0x1d8, [0x1d7]); (0x1da, [0x1d9]); (0x1dc, [0x1db]); (0x1dd, [0x18e]); (0x1df, [0x1de]);
   (0x1e1, [0x1e0]); (0x1e3, [0x1e2]); (0x1e5, [0x1e4]); (0x1e7, [0x1e6]); (0x1e9, [0x1e8]);
   (0x1eb, [0x1ea]); (0x1ed, [0x1ec]); (0x1ef, [0x1ee]); (0x1f0, [0x4a; 0x30c]); (0x1f2, [0x1f1]);
   (0x1f3, [0x1f1]); (0x1f5, [0x1f4]); (0x1f9, [0x1f8]); (0x1fb, [0x1fa]); (0x1fd, [0x1fc]);
   (0x1ff, [0x1fe]); (0x201, [0x200]); (0x203, [0x202]); (0x205, [0x204]); (0x207, [0x206]);
   (0x209, [0x208]); (0x20b, [0x20a]); (0x20d, [0x20c]); (0x20f, [0x20e]); (0x211, [0x210]);
   (0x213, [0x212]); (0x215, [0x214]); (0x217, [0x216]); (0x219, [0x218]); (0x21b, [0x21a]);
   (0x21d, [0x21c]); (0x21f, [0x21e]); (0x223, [0x222]); (0x225, [0x224]); (0x227, [0x226]);
   (0x229, [0x228]); (0x22b, [0x22a]); (0x22d, [0x22c]); (0x22f, [0x22e]); (0x231, [0x230]);
   (0x233, [0x232]); (0x23c, [0x23b]); (0x23f, [0x2c7e]); (0x240, [0x2c7f]); (0x242, [0x241]);
   (0x247, [0x246]); (0x249, [0x248]); (0x24b, [0x24a]); (0x24d, [0x24c]); (0x24f, [0x24e]);
   (0x250, [0x2c6f]); (0x251, [0x2c6d]); (0x252, [0x2c70]); (0x253, [0x181]); (0x254, [0x186]);
   (0x256, [0x189]); (0x257, [0x18a]); (0x259, [0x18f]); (0x25b, [0x190]); (0x25c, [0xa7ab]);
   (0x260, [0x193]); (0x261, [0xa7ac]); (0x263, [0x194]); (0x265, [0xa78d]); (0x266, [0xa7aa]);
   (0x268, [0x197]); (0x269, [0x196]); (0x26a, [0xa7ae]); (0x26b, [0x2c62]); (0x26c, [0xa7ad]);
   (0x26f, [0x19c]); (0x271, [0x2c6e]); (0x272, [0x19d]); (0x275, [0x19f]); (0x27d, [0x2c64]);
   (0x280, [0x1a6]); (0x282, [0xa7c5]); (0x283, [0x1a9]); (0x287, [0xa7b1]); (0x288, [0x1ae]);
   (0x289, [0x244]); (0x28a, [0x1b1]); (0x28b, [0x1b2]); (0x28c, [0x245]); (0x292, [0x1b7]);
   (0x29d, [0xa7b2]); (0x29e, [0xa7b0]); (0x345, [0x399]); (0x371, [0x370]); (0x373, [0x372]);
   (0x377, [0x376]); (0x37b, [0x3fd]); (0x37c, [0x3fe]); (0x37d, [0x3ff]);
   (0x390, [0x399; 0x308; 0x301]); (0x3ac, [0x386]); (0x3ad, [0x388]); (0x3ae, [0x389]);
   (0x3af, [0x38a]); (0x3b0, [0x3a5; 0x308; 0x301]); (0x3b1, [0x391]); (0x3b2, [0x392]);
   (0x3b3, [0x393]); (0x3b4, [0x394]); (0x3b5, [0x395]); (0x3b6, [0x396]); (0x3b7, [0x397]);
   (0x3b8, [0x398]); (0x3b9, [0x399]); (0x3ba, [0x39a]); (0x3bb, [0x39b]); (0x3bc, [0x39c]);
   (0x3bd, [0x39d]); (0x3be, [0x39e]); (0x3bf, [0x39f]); (0x3c0, [0x3a0]); (0x3c1, [0x3a1]);
   (0x3c2, [0x3a3]); (0x3c3, [0x3a3]); (0x3c4, [0x3a4]); (0x3c5, [0x3a5]); (0x3c6, [0x3a6]);
   (0x3c7, [0x3a7]); (0x3c8, [0x3a8]); (0x3c9, [0x3a9]); (0x3ca, [0x3aa]); (0x3cb, [0x3ab]);
   (0x3cc, [0x38c]); (0x3cd, [0x38e]); (0x3ce, [0x38f]); (0x3d0, [0x392]); (0x3d1, [0x398]);
   (0x3d5, [0x3a6]); (0x3d6, [0x3a0]); (0x3d7, [0x3cf]); (0x3d9, [0x3d8]); (0x3db, [0x3da]);
   (0x3dd, [0x3dc]); (0x3df, [0x3de]); (0x3e1, [0x3e0]); (0x3e3, [0x3e2]); (0x3e5, [0x3e4]);
   (0x3e7, [0x3e6]); (0x3e9, [0x3e8]); (0x3eb, [0x3ea]); (0x3ed, [0x3ec]); (0x3ef, [0x3ee]);
   (0x3f0, [0x39a]); (0x3f1, [0x3a1]); (0x3f2, [0x3f9]); (0x3f3, [0x37f]); (0x3f5, [0x395]);
   (0x3f8, [0x3f7]); (0x3fb, [0x3fa]); (0x430, [0x410]); (0x431, [0x411]); (0x432, [0x412]);
   (0x433, [0x413]); (0x434, [0x414]); (0x435, [0x415]); (0x436, [0x416]); (0x437, [0x417]);
   (0x438, [0x418]); (0x439, [0x419]); (0x43a, [0x41a]); (0x43b, [0x41b]); (0x43c, [0x41c]);
   (0x43d, [0x41d]); (0x43e, [0x41e]); (0x43f, [0x41f]); (0x440, [0x420]); (0x441, [0x421]);
   (0x442, [0x422]); (0x443, [0x423]); (0x444, [0x424]); (0x445, [0x425]); (0x446, [0x426]);
   (0x447, [0x427]); (0x448, [0x428]); (0x449, [0x429]); (0x44a, [0x42a]); (0x44b, [0x42b]);
   (0x44c, [0x42c]); (0x44d, [0x42d]); (0x44e, [0x42e]); (0x44f, [0x42f]); (0x450, [0x400]);
   (0x451, [0x401]); (0x452, [0x402]); (0x453, [0x403]); (0x454, [0x404]); (0x455, [0x405]);
   (0x456, [0x406]); (0x457, [0x407]); (0x458, [0x408]); (0x459, [0x409]); (0x45a, [0x40a]);
   (0x45b, [0x40b]); (0x45c, [0x40c]); (0x45d, [0x40d]); (0x45e, [0x40e]); (0x45f, [0x40f]);
   (0x461, [0x460]); (0x463, [0x462]); (0x465, [0x464]); (0x467, [0x466]); (0x469, [0x468]);
   (0x46b, [0x46a]); (0x46d, [0x46c]); (0x46f, [0x46e]); (0x471, [0x470]); (0x473, [0x472]);
   (0x475, [0x474]); (0x477, [0x476]); (0x479, [0x478]); (0x47b, [0x47a]); (0x47d, [0x47c]);
   (0x47f, [0x47e]); (0x481, [0x480]); (0x48b, [0x48a]); (0x48d, [0x48c]); (0x48f, [0x48e]);
   (0x491, [0x490]); (0x493, [0x492]); (0x495, [0x494]); (0x497, [0x496]); (0x499, [0x498]);
   (0x49b, [0x49a]); (0x49d, [0x49c]); (0x49f, [0x49e]); (0x4a1, [0x4a0]); (0x4a3, [0x4a2]);
   (0x4a5, [0x4a4]); (0x4a7, [0x4a6]); (0x4a9, [0x4a8]); (0x4ab, [0x4aa]); (0x4ad, [0x4ac]);
   (0x4af, [0x4ae]); (0x4b1, [0x4b0]); (0x4b3, [0x4b2]); (0x4b5, [0x4b4]); (0x4b7, [0x4b6]);
   (0x4b9, [0x4b8]); (0x4bb, [0x4ba]); (0x4bd, [0x4bc]); (0x4bf, [0x4be]); (0x4c2, [0x4c1]);
   (0x4c4, [0x4c3]); (0x4c6, [0x4c5]); (0x4c8, [0x4c7]); (0x4ca, [0x4c9]); (0x4cc, [0x4cb]);
   (0x4ce, [0x4cd]); (0x4cf, [0x4c0]); (0x4d1, [0x4d0]); (0x4d3, [0x4d2]); (0x4d5, [0x4d4]);
   (0x4d7, [0x4d6]); (0x4d9, [0x4d8]); (0x4db, [0x4da]); (0x4dd, [0x4dc]); (0x4df, [0x4de]);
   (0x4e1, [0x4e0]); (0x4e3, [0x4e2]); (0x4e5, [0x4e4]); (0x4e7, [0x4e6]); (0x4e9, [0x4e8]);
   (0x4eb, [0x4ea]); (0x4ed, [0x4ec]); (0x4ef, [0x4ee]); (0x4f1, [0x4f0]); (0x4f3, [0x4f2]);
   (0x4f5, [0x4f4]); (0x4f7, [0x4f6]); (0x4f9, [0x4f8]); (0x4fb, [0x4fa]); (0x4fd, [0x4fc]);
   (0x4ff, [0x4fe]); (0x501, [0x500]); (0x503, [0x502]); (0x505, [0x504]); (0x507, [0x506]);
   (0x509, [0x508]); (0x50b, [0x50a]); (0x50d, [0x50c]); (0x50f, [0x50e]); (0x511, [0x510]);
   (0x513, [0x512]); (0x515, [0x514]); (0x517, [0x516]); (0x519, [0x518]); (0x51b, [0x51a]);
   (0x51d, [0x51c]); (0x51f, [0x51e]); (0x521, [0x520]); (0x523, [0x522]); (0x525, [0x524]);
   (0x527, [0x526]); (0x529, [0x528]); (0x52b, [0x52a]); (0x52d, [0x52c]); (0x52f, [0x52e]);
   (0x561, [0x531]); (0x562, [0x532]); (0x563, [0x533]); (0x564, [0x534]); (0x565, [0x535]);
   (0x566, [0x536]); (0x567, [0x537]); (0x568, [0x538]); (0x569, [0x539]); (0x56a, [0x53a]);
   (0x56b, [0x53b]); (0x56c, [0x53c]); (0x56d, [0x53d]); (0x56e, [0x53e]); (0x56f, [0x53f]);
   (0x570, [0x540]); (0x571, [0x541]); (0x572, [0x542]); (0x573, [0x543]); (0x574, [0x544]);
   (0x575, [0x545]); (0x576, [0x546]); (0x577, [0x547]); (0x578, [0x548]); (0x579, [0x549]);
   (0x57a, [0x54a]); (0x57b, [0x54b]); (0x57c, [0x54c]); (0x57d, [0x54d]); (0x57e, [0x54e]);
   (0x57f, [0x54f]); (0x580, [0x550]); (0x581, [0x551]); (0x582, [0x552]); (0x583, [0x553]);
   (0x584, [0x554]); (0x585, [0x555]); (0x586, [0x556]); (0x587, [0x535; 0x552]);
   (0x10d0, [0x1c90]); (0x10d1, [0x1c91]); (0x10d2, [0x1c92]); (0x10d3, [0x1c93]);
   (0x10d4, [0x1c94]); (0x10d5, [0x1c95]); (0x10d6, [0x1c96]); (0x10d7, [0x1c97]);
   (0x10d8, [0x1c98]); (0x10d9, [0x1c99]); (0x10da, [0x1c9a]); (0x10db, [0x1c9b]);
   (0x10dc, [0x1c9c]); (0x10dd, [0x1c9d]); (0x10de, [0x1c9e]); (0x10df, [0x1c9f]);
   (0x10e0, [0x1ca0]); (0x10e1, [0x1ca1]); (0x10e2, [0x1ca2]); (0x10e3, [0x1ca3]);
   (0x10e4, [0x1ca4]); (0x10e5, [0x1ca5]); (0x10e6, [0x1ca6]); (0x10e7, [0x1ca7]);
   (0x10e8, [0x1ca8]); (0x10e9, [0x1ca9]); (0x10ea, [0x1caa]); (0x10eb, [0x1cab]);
   (0x10ec, [0x1cac]); (0x10ed, [0x1cad]); (0x10ee, [0x1cae]); (0x10ef, [0x1caf]);
   (0x10f0, [0x1cb0]); (0x10f1, [0x1cb1]); (0x10f2, [0x1cb2]); (0x10f3, [0x1cb3]);
   (0x10f4, [0x1cb4]); (0x10f5, [0x1cb5]); (0x10f6, [0x1cb6]); (0x10f7, [0x1cb7]);
   (0x10f8, [0x1cb8]); (0x10f9, [0x1cb9]); (0x10fa, [0x1cba]); (0x10fd, [0x1cbd]);
   (0x10fe, [0x1cbe]); (0x10ff, [0x1cbf]); (0x13f8, [0x13f0]); (0x13f9, [0x13f1]);
   (0x13fa, [0x13f2]); (0x13fb, [0x13f3]); (0x13fc, [0x13f4]); (0x13fd, [0x13f5]);
   (0x1c80, [0x412]); (0x1c81, [0x414]); (0x1c82, [0x41e]); (0x1c83, [0x421]); (0x1c84, [0x422]);
   (0x1c85, [0x422]); (0x1c86, [0x42a]); (0x1c87, [0x462]); (0x1c88, [0xa64a]);
   (0x1d79, [0xa77d]); (0x1d7d, [0x2c63]); (0x1d8e, [0xa7c6]); (0x1e01, [0x1e00]);
   (0x1e03, [0x1e02]); (0x1e05, [0x1e04]); (0x1e07, [0x1e06]); (0x1e09, [0x1e08]);
   (0x1e0b, [0x1e0a]); (0x1e0d, [0x1e0c]); (0x1e0f, [0x1e0e]); (0x1e11, [0x1e10]);
   (0x1e13, [0x1e12]); (0x1e15, [0x1e14]); (0x1e17, [0x1e16]); (0x1e19, [0x1e18]);
   (0x1e1b, [0x1e1a]); (0x1e1d, [0x1e1c]); (0x1e1f, [0x1e1e]); (0x1e21, [0x1e20]);
   (0x1e23, [0x1e22]); (0x1e25, [0x1e24]); (0x1e27, [0x1e26]); (0x1e29, [0x1e28]);
   (0x1e2b, [0x1e2a]); (0x1e2d, [0x1e2c]); (0x1e2f, [0x1e2e]); (0x1e31, [0x1e30]);
   (0x1e33, [0x1e32]); (0x1e35, [0x1e34]); (0x1e37, [0x1e36]); (0x1e39, [0x1e38]);
   (0x1e3b, [0x1e3a]); (0x1e3d, [0x1e3c]); (0x1e3f, [0x1e3e]); (0x1e41, [0x1e40]);
   (0x1e43, [0x1e42]); (0x1e45, [0x1e44]); (0x1e47, [0x1e46]); (0x1e49, [0x1e48]);
   (0x1e4b, [0x1e4a]); (0x1e4d, [0x1e4c]); (0x1e4f, [0x1e4e]); (0x1e51, [0x1e50]);
   (0x1e53, [0x1e52]); (0x1e55, [0x1e54]); (0x1e57, [0x1e56]); (0x1e59, [0x1e58]);
   (0x1e5b, [0x1e5a]); (0x1e5d, [0x1e5c]); (0x1e5f, [0x1e5e]); (0x1e61, [0x1e60]);
   (0x1e63, [0x1e62]); (0x1e65, [0x1e64]); (0x1e67, [0x1e66]); (0x1e69, [0x1e68]);
   (0x1e6b, [0x1e6a]); (0x1e6d, [0x1e6c]); (0x1e6f, [0x1e6e]); (0x1e71, [0x1e70]);
   (0x1e73, [0x1e72]); (0x1e75, [0x1e74]); (0x1e77, [0x1e76]); (0x1e79, [0x1e78]);
   (0x1e7b, [0x1e7a]); (0x1e7d, [0x1e7c]); (0x1e7f, [0x1e7e]); (0x1e81, [0x1e80]);
   (0x1e83, [0x1e82]); (0x1e85, [0x1e84]); (0x1e87, [0x1e86]); (0x1e89, [0x1e88]);
   (0x1e8b, [0x1e8a]); (0x1e8d, [0x1e8c]); (0x1e8f, [0x1e8e]); (0x1e91, [0x1e90]);
   (0x1e93, [0x1e92]); (0x1e95, [0x1e94]); (0x1e96, [0x48; 0x331]); (0x1e97, [0x54; 0x308]);
   (0x1e98, [0x57; 0x30a]); (0x1e99, [0x59; 0x30a]); (0x1e9a, [0x41; 0x2be]); (0x1e9b, [0x1e60]);
   (0x1ea1, [0x1ea0]); (0x1ea3, [0x1ea2]); (0x1ea5, [0x1ea4]); (0x1ea7, [0x1ea6]);
   (0x1ea9, [0x1ea8]); (0x1eab, [0x1eaa]); (0x1ead, [0x1eac]); (0x1eaf, [0x1eae]);
   (0x1eb1, [0x1eb0]); (0x1eb3, [0x1eb2]); (0x1eb5, [0x1eb4]); (0x1eb7, [0x1eb6]);
   (0x1eb9, [0x1eb8]); (0x1ebb, [0x1eba]); (0x1ebd, [0x1ebc]); (0x1ebf, [0x1ebe]);
   (0x1ec1, [0x1ec0]); (0x1ec3, [0x1ec2]); (0x1ec5, [0x1ec4]); (0x1ec7, [0x1ec6]);
   (0x1ec9, [0x1ec8]); (0x1ecb, [0x1eca]); (0x1ecd, [0x1ecc]); (0x1ecf, [0x1ece]);
   (0x1ed1, [0x1ed0]); (0x1ed3, [0x1ed2]); (0x1ed5, [0x1ed4]); (0x1ed7, [0x1ed6]);
   (0x1ed9, [0x1ed8]); (0x1edb, [0x1eda]); (0x1edd, [0x1edc]); (0x1edf, [0x1ede]);
   (0x1ee1, [0x1ee0]); (0x1ee3, [0x1ee2]); (0x1ee5, [0x1ee4]); (0x1ee7, [0x1ee6]);
   (0x1ee9, [0x1ee8]); (0x1eeb, [0x1eea]); (0x1eed, [0x1eec]); (0x1eef, [0x1eee]);
   (0x1ef1, [0x1ef0]); (0x1ef3, [0x1ef2]); (0x1ef5, [0x1ef4]); (0x1ef7, [0x1ef6]);
   (0x1ef9, [0x1ef8]); (0x1efb, [0x1efa]); (0x1efd, [0x1efc]); (0x1eff, [0x1efe]);
   (0x1f00, [0x1f08]); (0x1f01, [0x1f09]); (0x1f02, [0x1f0a]); (0x1f03, [0x1f0b]);
   (0x1f04, [0x1f0c]); (0x1f05, [0x1f0d]); (0x1f06, [0x1f0e]); (0x1f07, [0x1f0f]);
   (0x1f10, [0x1f18]); (0x1f11, [0x1f19]); (0x1f12, [0x1f1a]); (0x1f13, [0x1f1b]);
   (0x1f14, [0x1f1c]); (0x1f15, [0x1f1d]); (0x1f20, [0x1f28]); (0x1f21, [0x1f29]);
   (0x1f22, [0x1f2a]); (0x1f23, [0x1f2b]); (0x1f24, [0x1f2c]); (0x1f25, [0x1f2d]);
   (0x1f26, [0x1f2e]); (0x1f27, [0x1f2f]); (0x1f30, [0x1f38]); (0x1f31, [0x1f39]);
   (0x1f32, [0x1f3a]); (0x1f33, [0x1f3b]); (0x1f34, [0x1f3c]); (0x1f35, [0x1f3d]);
   (0x1f36, [0x1f3e]); (0x1f37, [0x1f3f]); (0x1f40, [0x1f48]); (0x1f41, [0x1f49]);
   (0x1f42, [0x1f4a]); (0x1f43, [0x1f4b]); (0x1f44, [0x1f4c]); (0x1f45, [0x1f4d]);
   (0x1f50, [0x3a5; 0x313]); (0x1f51, [0x1f59]); (0x1f52, [0x3a5; 0x313; 0x300]);
   (0x1f53, [0x1f5b]); (0x1f54, [0x3a5; 0x313; 0x301]); (0x1f55, [0x1f5d]);
   (0x1f56, [0x3a5; 0x313; 0x342]); (0x1f57, [0x1f5f]); (0x1f60, [0x1f68]); (0x1f61, [0x1f69]);
   (0x1f62, [0x1f6a]); (0x1f63, [0x1f6b]); (0x1f64, [0x1f6c]); (0x1f65, [0x1f6d]);
   (0x1f66, [0x1f6e]); (0x1f67, [0x1f6f]); (0x1f70, [0x1fba]); (0x1f71, [0x1fbb]);
   (0x1f72, [0x1fc8]); (0x1f73, [0x1fc9]); (0x1f74, [0x1fca]); (0x1f75, [0x1fcb]);
   (0x1f76, [0x1fda]); (0x1f77, [0x1fdb]); (0x1f78, [0x1ff8]); (0x1f79, [0x1ff9]);
   (0x1f7a, [0x1fea]); (0x1f7b, [0x1feb]); (0x1f7c, [0x1ffa]); (0x1f7d, [0x1ffb]);
   (0x1f80, [0x1f08; 0x399]); (0x1f81, [0x1f09; 0x399]); (0x1f82, [0x1f0a; 0x399]);
   (0x1f83, [0x1f0b; 0x399]); (0x1f84, [0x1f0c; 0x399]); (0x1f85, [0x1f0d; 0x399]);
   (0x1f86, [0x1f0e; 0x399]); (0x1f87, [0x1f0f; 0x399]); (0x1f88, [0x1f08; 0x399]);
   (0x1f89, [0x1f09; 0x399]); (0x1f8a, [0x1f0a; 0x399]); (0x1f8b, [0x1f0b; 0x399]);
   (0x1f8c, [0x1f0c; 0x399]); (0x1f8d, [0x1f0d; 0x399]); (0x1f8e, [0x1f0e; 0x399]);
   (0x1f8f, [0x1f0f; 0x399]); (0x1f90, [0x1f28; 0x399]); (0x1f91, [0x1f29; 0x399]);
   (0x1f92, [0x1f2a; 0x399]); (0x1f93, [0x1f2b; 0x399]); (0x1f94, [0x1f2c; 0x399]);
   (0x1f95, [0x1f2d; 0x399]); (0x1f96, [0x1f2e; 0x399]); (0x1f97, [0x1f2f; 0x399]);
   (0x1f98, [0x1f28; 0x399]); (0x1f99, [0x1f29; 0x399]); (0x1f9a, [0x1f2a; 0x399]);
   (0x1f9b, [0x1f2b; 0x399]); (0x1f9c, [0x1f2c; 0x399]); (0x1f9d, [0x1f2d; 0x399]);
   (0x1f9e, [0x1f2e; 0x399]); (0x1f9f, [0x1f2f; 0x399]); (0x1fa0, [0x1f68; 0x399]);
   (0x1fa1, [0x1f69; 0x399]); (0x1fa2, [0x1f6a; 0x399]); (0x1fa3, [0x1f6b; 0x399]);
   (0x1fa4, [0x1f6c; 0x399]); (0x1fa5, [0x1f6d; 0x399]); (0x1fa6, [0x1f6e; 0x399]);
   (0x1fa7, [0x1f6f; 0x399]); (0x1fa8, [0x1f68; 0x399]); (0x1fa9, [0x1f69; 0x399]);
   (0x1faa, [0x1f6a; 0x399]); (0x1fab, [0x1f6b; 0x399]); (0x1fac, [0x1f6c; 0x399]);
   (0x1fad, [0x1f6d; 0x399]); (0x1fae, [0x1f6e; 0x399]); (0x1faf, [0x1f6f; 0x399]);
   (0x1fb0, [0x1fb8]); (0x1fb1, [0x1fb9]); (0x1fb2, [0x1fba; 0x399]); (0x1fb3, [0x391; 0x399]);
   (0x1fb4, [0x386; 0x399]); (0x1fb6, [0x391; 0x342]); (0x1fb7, [0x391; 0x342; 0x399]);
   (0x1fbc, [0x391; 0x399]); (0x1fbe, [0x399]); (0x1fc2, [0x1fca; 0x399]);
   (0x1fc3, [0x397; 0x399]); (0x1fc4, [0x389; 0x399]); (0x1fc6, [0x397; 0x342]);
   (0x1fc7, [0x397; 0x342; 0x399]); (0x1fcc, [0x397; 0x399]); (0x1fd0, [0x1fd8]);
   (0x1fd1, [0x1fd9]); (0x1fd2, [0x399; 0x308; 0x300]); (0x1fd3, [0x399; 0x308; 0x301]);
   (0x1fd6, [0x399; 0x342]); (0x1fd7, [0x399; 0x308; 0x342]); (0x1fe0, [0x1fe8]);
   (0x1fe1, [0x1fe9]); (0x1fe2, [0x3a5; 0x308; 0x300]); (0x1fe3, [0x3a5; 0x308; 0x301]);
   (0x1fe4, [0x3a1; 0x313]); (0x1fe5, [0x1fec]); (0x1fe6, [0x3a5; 0x342]);
   (0x1fe7, [0x3a5; 0x308; 0x342]); (0x1ff2, [0x1ffa; 0x399]); (0x1ff3, [0x3a9; 0x399]);
   (0x1ff4, [0x38f; 0x399]); (0x1ff6, [0x3a9; 0x342]); (0x1ff7, [0x3a9; 0x342; 0x399]);
   (0x1ffc, [0x3a9; 0x399]); (0x214e, [0x2132]); (0x2170, [0x2160]); (0x2171, [0x2161]);
   (0x2172, [0x2162]); (0x2173, [0x2163]); (0x2174, [0x2164]); (0x2175, [0x2165]);
   (0x2176, [0x2166]); (0x2177, [0x2167]); (0x2178, [0x2168]); (0x2179, [0x2169]);
   (0x217a, [0x216a]); (0x217b, [0x216b]); (0x217c, [0x216c]); (0x217d, [0x216d]);
   (0x217e, [0x216e]); (0x217f, [0x216f]); (0x2184, [0x2183]); (0x24d0, [0x24b6]);
   (0x24d1, [0x24b7]); (0x24d2, [0x24b8]); (0x24d3, [0x24b9]); (0x24d4, [0x24ba]);
   (0x24d5, [0x24bb]); (0x24d6, [0x24bc]); (0x24d7, [0x24bd]); (0x24d8, [0x24be]);
   (0x24d9, [0x24bf]); (0x24da, [0x24c0]); (0x24db, [0x24c1]); (0x24dc, [0x24c2]);
   (0x24dd, [0x24c3]); (0x24de, [0x24c4]); (0x24df, [0x24c5]); (0x24e0, [0x24c6]);
   (0x24e1, [0x24c7]); (0x24e2, [0x24c8]); (0x24e3, [0x24c9]); (0x24e4, [0x24ca]);
   (0x24e5, [0x24cb]); (0x24e6, [0x24cc]); (0x24e7, [0x24cd]); (0x24e8, [0x24ce]);
   (0x24e9, [0x24cf]); (0x2c30, [0x2c00]); (0x2c31, [0x2c01]); (0x2c32, [0x2c02]);
   (0x2c33, [0x2c03]); (0x2c34, [0x2c04]); (0x2c35, [0x2c05]); (0x2c36, [0x2c06]);
   (0x2c37, [0x2c07]); (0x2c38, [0x2c08]); (0x2c39, [0x2c09]); (0x2c3a, [0x2c0a]);
   (0x2c3b, [0x2c0b]); (0x2c3c, [0x2c0c]); (0x2c3d, [0x2c0d]); (0x2c3e, [0x2c0e]);
   (0x2c3f, [0x2c0f]); (0x2c40, [0x2c10]); (0x2c41, [0x2c11]); (0x2c42, [0x2c12]);
   (0x2c43, [0x2c13]); (0x2c44, [0x2c14]); (0x2c45, [0x2c15]); (0x2c46, [0x2c16]);
   (0x2c47, [0x2c17]); (0x2c48, [0x2c18]); (0x2c49, [0x2c19]); (0x2c4a, [0x2c1a]);
   (0x2c4b, [0x2c1b]); (0x2c4c, [0x2c1c]); (0x2c4d, [0x2c1d]); (0x2c4e, [0x2c1e]);
   (0x2c4f, [0x2c1f]); (0x2c50, [0x2c20]); (0x2c51, [0x2c21]); (0x2c52, [0x2c22]);
   (0x2c53, [0x2c23]); (0x2c54, [0x2c24]); (0x2c55, [0x2c25]); (0x2c56, [0x2c26]);
   (0x2c57, [0x2c27]); (0x2c58, [0x2c28]); (0x2c59, [0x2c29]); (0x2c5a, [0x2c2a]);
   (0x2c5b, [0x2c2b]); (0x2c5c, [0x2c2c]); (0x2c5d, [0x2c2d]); (0x2c5e, [0x2c2e]);
   (0x2c5f, [0x2c2f]); (0x2c61, [0x2c60]); (0x2c65, [0x23a]); (0x2c66, [0x23e]);
   (0x2c68, [0x2c67]); (0x2c6a, [0x2c69]); (0x2c6c, [0x2c6b]); (0x2c73, [0x2c72]);
   (0x2c76, [0x2c75]); (0x2c81, [0x2c80]); (0x2c83, [0x2c82]); (0x2c85, [0x2c84]);
   (0x2c87, [0x2c86]); (0x2c89, [0x2c88]); (0x2c8b, [0x2c8a]); (0x2c8d, [0x2c8c]);
   (0x2c8f, [0x2c8e]); (0x2c91, [0x2c90]); (0x2c93, [0x2c92]); (0x2c95, [0x2c94]);
   (0x2c97, [0x2c96]); (0x2c99, [0x2c98]); (0x2c9b, [0x2c9a]); (0x2c9d, [0x2c9c]);
   (0x2c9f, [0x2c9e]); (0x2ca1, [0x2ca0]); (0x2ca3, [0x2ca2]); (0x2ca5, [0x2ca4]);
   (0x2ca7, [0x2ca6]); (0x2ca9, [0x2ca8]); (0x2cab, [0x2caa]); (0x2cad, [0x2cac]);
   (0x2caf, [0x2cae]); (0x2cb1, [0x2cb0]); (0x2cb3, [0x2cb2]); (0x2cb5, [0x2cb4]);
   (0x2cb7, [0x2cb6]); (0x2cb9, [0x2cb8]); (0x2cbb, [0x2cba]); (0x2cbd, [0x2cbc]);
   (0x2cbf, [0x2cbe]); (0x2cc1, [0x2cc0]); (0x2cc3, [0x2cc2]); (0x2cc5, [0x2cc4]);
   (0x2cc7, [0x2cc6]); (0x2cc9, [0x2cc8]); (0x2ccb, [0x2cca]); (0x2ccd, [0x2ccc]);
   (0x2ccf, [0x2cce]); (0x2cd1, [0x2cd0]); (0x2cd3, [0x2cd2]); (0x2cd5, [0x2cd4]);
   (0x2cd7, [0x2cd6]); (0x2cd9, [0x2cd8]); (0x2cdb, [0x2cda]); (0x2cdd, [0x2cdc]);
   (0x2cdf, [0x2cde]); (0x2ce1, [0x2ce0]); (0x2ce3, [0x2ce2]); (0x2cec, [0x2ceb]);
   (0x2cee, [0x2ced]); (0x2cf3, [0x2cf2]); (0x2d00, [0x10a0]); (0x2d01, [0x10a1]);
   (0x2d02, [0x10a2]); (0x2d03, [0x10a3]); (0x2d04, [0x10a4]); (0x2d05, [0x10a5]);
   (0x2d06, [0x10a6]); (0x2d07, [0x10a7]); (0x2d08, [0x10a8]); (0x2d09, [0x10a9]);
   (0x2d0a, [0x10aa]); (0x2d0b, [0x10ab]); (0x2d0c, [0x10ac]); (0x2d0d, [0x10ad]);
   (0x2d0e, [0x10ae]); (0x2d0f, [0x10af]); (0x2d10, [0x10b0]); (0x2d11, [0x10b1]);
   (0x2d12, [0x10b2]); (0x2d13, [0x10b3]); (0x2d14, [0x10b4]); (0x2d15, [0x10b5]);
   (0x2d16, [0x10b6]); (0x2d17, [0x10b7]); (0x2d18, [0x10b8]); (0x2d19, [0x10b9]);
   (0x2d1a, [0x10ba]); (0x2d1b, [0x10bb]); (0x2d1c, [0x10bc]); (0x2d1d, [0x10bd]);
   (0x2d1e, [0x10be]); (0x2d1f, [0x10bf]); (0x2d20, [0x10c0]); (0x2d21, [0x10c1]);
   (0x2d22, [0x10c2]); (0x2d23, [0x10c3]); (0x2d24, [0x10c4]); (0x2d25, [0x10c5]);
   (0x2d27, [0x10c7]); (0x2d2d, [0x10cd]); (0xa641, [0xa640]); (0xa643, [0xa642]);
   (0xa645, [0xa644]); (0xa647, [0xa646]); (0xa649, [0xa648]); (0xa64b, [0xa64a]);
   (0xa64d, [0xa64c]); (0xa64f, [0xa64e]); (0xa651, [0xa650]); (0xa653, [0xa652]);
   (0xa655, [0xa654]); (0xa657, [0xa656]); (0xa659, [0xa658]); (0xa65b, [0xa65a]);
   (0xa65d, [0xa65c]); (0xa65f, [0xa65e]); (0xa661, [0xa660]); (0xa663, [0xa662]);
   (0xa665, [0xa664]); (0xa667, [0xa666]); (0xa669, [0xa668]); (0xa66b, [0xa66a]);
   (0xa66d, [0xa66c]); (0xa681, [0xa680]); (0xa683, [0xa682]); (0xa685, [0xa684]);
   (0xa687, [0xa686]); (0xa689, [0xa688]); (0xa68b, [0xa68a]); (0xa68d, [0xa68c]);
   (0xa68f, [0xa68e]); (0xa691, [0xa690]); (0xa693, [0xa692]); (0xa695, [0xa694]);
   (0xa697, [0xa696]); (0xa699, [0xa698]); (0xa69b, [0xa69a]); (0xa723, [0xa722]);
   (0xa725, [0xa724]); (0xa727, [0xa726]); (0xa729, [0xa728]); (0xa72b, [0xa72a]);
   (0xa72d, [0xa72c]); (0xa72f, [0xa72e]); (0xa733, [0xa732]); (0xa735, [0xa734]);
   (0xa737, [0xa736]); (0xa739, [0xa738]); (0xa73b, [0xa73a]); (0xa73d, [0xa73c]);
   (0xa73f, [0xa73e]); (0xa741, [0xa740]); (0xa743, [0xa742]); (0xa745, [0xa744]);
   (0xa747, [0xa746]); (0xa749, [0xa748]); (0xa74b, [0xa74a]); (0xa74d, [0xa74c]);
   (0xa74f, [0xa74e]); (0xa751, [0xa750]); (0xa753, [0xa752]); (0xa755, [0xa754]);
   (0xa757, [0xa756]); (0xa759, [0xa758]); (0xa75b, [0xa75a]); (0xa75d, [0xa75c]);
   (0xa75f, [0xa75e]); (0xa761, [0xa760]); (0xa763, [0xa762]); (0xa765, [0xa764]);
   (0xa767, [0xa766]); (0xa769, [0xa768]); (0xa76b, [0xa76a]); (0xa76d, [0xa76c]);
   (0xa76f, [0xa76e]); (0xa77a, [0xa779]); (0xa77c, [0xa77b]); (0xa77f, [0xa77e]);
   (0xa781, [0xa780]); (0xa783, [0xa782]); (0xa785, [0xa784]); (0xa787, [0xa786]);
   (0xa78c, [0xa78b]); (0xa791, [0xa790]); (0xa793, [0xa792]); (0xa794, [0xa7c4]);
   (0xa797, [0xa796]); (0xa799, [0xa798]); (0xa79b, [0xa79a]); (0xa79d, [0xa79c]);
   (0xa79f, [0xa79e]); (0xa7a1, [0xa7a0]); (0xa7a3, [0xa7a2]); (0xa7a5, [0xa7a4]);
   (0xa7a7, [0xa7a6]); (0xa7a9, [0xa7a8]); (0xa7b5, [0xa7b4]); (0xa7b7, [0xa7b6]);
   (0xa7b9, [0xa7b8]); (0xa7bb, [0xa7ba]); (0xa7bd, [0xa7bc]); (0xa7bf, [0xa7be]);
   (0xa7c1, [0xa7c0]); (0xa7c3, [0xa7c2]); (0xa7c8, [0xa7c7]); (0xa7ca, [0xa7c9]);
   (0xa7d1, [0xa7d0]); (0xa7d7, [0xa7d6]); (0xa7d9, [0xa7d8]); (0xa7f6, [0xa7f5]);
   (0xab53, [0xa7b3]); (0xab70, [0x13a0]); (0xab71, [0x13a1]); (0xab72, [0x13a2]);
   (0xab73, [0x13a3]); (0xab74, [0x13a4]); (0xab75, [0x13a5]); (0xab76, [0x13a6]);
   (0xab77, [0x13a7]); (0xab78, [0x13a8]); (0xab79, [0x13a9]); (0xab7a, [0x13aa]);
   (0xab7b, [0x13ab]); (0xab7c, [0x13ac]); (0xab7d, [0x13ad]); (0xab7e, [0x13ae]);
   (0xab7f, [0x13af]); (0xab80, [0x13b0]); (0xab81, [0x13b1]); (0xab82, [0x13b2]);
   (0xab83, [0x13b3]); (0xab84, [0x13b4]); (0xab85, [0x13b5]); (0xab86, [0x13b6]);
   (0xab87, [0x13b7]); (0xab88, [0x13b8]); (0xab89, [0x13b9]); (0xab8a, [0x13ba]);
   (0xab8b, [0x13bb]); (0xab8c, [0x13bc]); (0xab8d, [0x13bd]); (0xab8e, [0x13be]);
   (0xab8f, [0x13bf]); (0xab90, [0x13c0]); (0xab91, [0x13c1]); (0xab92, [0x13c2]);
   (0xab93, [0x13c3]); (0xab94, [0x13c4]); (0xab95, [0x13c5]); (0xab96, [0x13c6]);
   (0xab97, [0x13c7]); (0xab98, [0x13c8]); (0xab99, [0x13c9]); (0xab9a, [0x13ca]);
   (0xab9b, [0x13cb]); (0xab9c, [0x13cc]); (0xab9d, [0x13cd]); (0xab9e, [0x13ce]);
   (0xab9f, [0x13cf]); (0xaba0, [0x13d0]); (0xaba1, [0x13d1]); (0xaba2, [0x13d2]);
   (0xaba3, [0x13d3]); (0xaba4, [0x13d4]); (0xaba5, [0x13d5]); (0xaba6, [0x13d6]);
   (0xaba7, [0x13d7]); (0xaba8, [0x13d8]); (0xaba9, [0x13d9]); (0xabaa, [0x13da]);
   (0xabab, [0x13db]); (0xabac, [0x13dc]); (0xabad, [0x13dd]); (0xabae, [0x13de]);
   (0xabaf, [0x13df]); (0xabb0, [0x13e0]); (0xabb1, [0x13e1]); (0xabb2, [0x13e2]);
   (0xabb3, [0x13e3]); (0xabb4, [0x13e4]); (0xabb5, [0x13e5]); (0xabb6, [0x13e6]);
   (0xabb7, [0x13e7]); (0xabb8, [0x13e8]); (0xabb9, [0x13e9]); (0xabba, [0x13ea]);
   (0xabbb, [0x13eb]); (0xabbc, [0x13ec]); (0xabbd, [0x13ed]); (0xabbe, [0x13ee]);
   (0xabbf, [0x13ef]); (0xfb00, [0x46; 0x46]); (0xfb01, [0x46; 0x49]); (0xfb02, [0x46; 0x4c]);
   (0xfb03, [0x46; 0x46; 0x49]); (0xfb04, [0x46; 0x46; 0x4c]); (0xfb05, [0x53; 0x54]);
   (0xfb06, [0x53; 0x54]); (0xfb13, [0x544; 0x546]); (0xfb14, [0x544; 0x535]);
   (0xfb15, [0x544; 0x53b]); (0xfb16, [0x54e; 0x546]); (0xfb17, [0x544; 0x53d]);
   (0xff41, [0xff21]); (0xff42, [0xff22]); (0xff43, [0xff23]); (0xff44, [0xff24]);
   (0xff45, [0xff25]); (0xff46, [0xff26]); (0xff47, [0xff27]); (0xff48, [0xff28]);
   (0xff49, [0xff29]); (0xff4a, [0xff2a]); (0xff4b, [0xff2b]); (0xff4c, [0xff2c]);
   (0xff4d, [0xff2d]); (0xff4e, [0xff2e]); (0xff4f, [0xff2f]); (0xff50, [0xff30]);
   (0xff51, [0xff31]); (0xff52, [0xff32]); (0xff53, [0xff33]); (0xff54, [0xff34]);
   (0xff55, [0xff35]); (0xff56, [0xff36]); (0xff57, [0xff37]); (0xff58, [0xff38]);
   (0xff59, [0xff39]); (0xff5a, [0xff3a]); (0x10428, [0x10400]); (0x10429, [0x10401]);
   (0x1042a, [0x10402]); (0x1042b, [0x10403]); (0x1042c, [0x10404]); (0x1042d, [0x10405]);
   (0x1042e, [0x10406]); (0x1042f, [0x10407]); (0x10430, [0x10408]); (0x10431, [0x10409]);
   (0x10432, [0x1040a]); (0x10433, [0x1040b]); (0x10434, [0x1040c]); (0x10435, [0x1040d]);
   (0x10436, [0x1040e]); (0x10437, [0x1040f]); (0x10438, [0x10410]); (0x10439, [0x10411]);
   (0x1043a, [0x10412]); (0x1043b, [0x10413]); (0x1043c, [0x10414]); (0x1043d, [0x10415]);
   (0x1043e, [0x10416]); (0x1043f, [0x10417]); (0x10440, [0x10418]); (0x10441, [0x10419]);
   (0x10442, [0x1041a]); (0x10443, [0x1041b]); (0x10444, [0x1041c]); (0x10445, [0x1041d]);
   (0x10446, [0x1041e]); (0x10447, [0x1041f]); (0x10448, [0x10420]); (0x10449, [0x10421]);
   (0x1044a, [0x10422]); (0x1044b, [0x10423]); (0x1044c, [0x10424]); (0x1044d, [0x10425]);
   (0x1044e, [0x10426]); (0x1044f, [0x10427]); (0x104d8, [0x104b0]); (0x104d9, [0x104b1]);
   (0x104da, [0x104b2]); (0x104db, [0x104b3]); (0x104dc, [0x104b4]); (0x104dd, [0x104b5]);
   (0x104de, [0x104b6]); (0x104df, [0x104b7]); (0x104e0, [0x104b8]); (0x104e1, [0x104b9]);
   (0x104e2, [0x104ba]); (0x104e3, [0x104bb]); (0x104e4, [0x104bc]); (0x104e5, [0x104bd]);
   (0x104e6, [0x104be]); (0x104e7, [0x104bf]); (0x104e8, [0x104c0]); (0x104e9, [0x104c1]);
   (0x104ea, [0x104c2]); (0x104eb, [0x104c3]); (0x104ec, [0x104c4]); (0x104ed, [0x104c5]);
   (0x104ee, [0x104c6]); (0x104ef, [0x104c7]); (0x104f0, [0x104c8]); (0x104f1, [0x104c9]);
   (0x104f2, [0x104ca]); (0x104f3, [0x104cb]); (0x104f4, [0x104cc]); (0x104f5, [0x104cd]);
   (0x104f6, [0x104ce]); (0x104f7, [0x104cf]); (0x104f8, [0x104d0]); (0x104f9, [0x104d1]);
   (0x104fa, [0x104d2]); (0x104fb, [0x104d3]); (0x10597, [0x10570]); (0x10598, [0x10571]);
   (0x10599, [0x10572]); (0x1059a, [0x10573]); (0x1059b, [0x10574]); (0x1059c, [0x10575]);
   (0x1059d, [0x10576]); (0x1059e, [0x10577]); (0x1059f, [0x10578]); (0x105a0, [0x10579]);
   (0x105a1, [0x1057a]); (0x105a3, [0x1057c]); (0x105a4, [0x1057d]); (0x105a5, [0x1057e]);
   (0x105a6, [0x1057f]); (0x105a7, [0x10580]); (0x105a8, [0x10581]); (0x105a9, [0x10582]);
   (0x105aa, [0x10583]); (0x105ab, [0x10584]); (0x105ac, [0x10585]); (0x105ad, [0x10586]);
   (0x105ae, [0x10587]); (0x105af, [0x10588]); (0x105b0, [0x10589]); (0x105b1, [0x1058a]);
   (0x105b3, [0x1058c]); (0x105b4, [0x1058d]); (0x105b5, [0x1058e]); (0x105b6, [0x1058f]);
   (0x105b7, [0x10590]); (0x105b8, [0x10591]); (0x105b9, [0x10592]); (0x105bb, [0x10594]);
   (0x105bc, [0x10595]); (0x10cc0, [0x10c80]); (0x10cc1, [0x10c81]); (0x10cc2, [0x10c82]);
   (0x10cc3, [0x10c83]); (0x10cc4, [0x10c84]); (0x10cc5, [0x10c85]); (0x10cc6, [0x10c86]);
   (0x10cc7, [0x10c87]); (0x10cc8, [0x10c88]); (0x10cc9, [0x10c89]); (0x10cca, [0x10c8a]);
   (0x10ccb, [0x10c8b]); (0x10ccc, [0x10c8c]); (0x10ccd, [0x10c8d]); (0x10cce, [0x10c8e]);
   (0x10ccf, [0x10c8f]); (0x10cd0, [0x10c90]); (0x10cd1, [0x10c91]); (0x10cd2, [0x10c92]);
   (0x10cd3, [0x10c93]); (0x10cd4, [0x10c94]); (0x10cd5, [0x10c95]); (0x10cd6, [0x10c96]);
   (0x10cd7, [0x10c97]); (0x10cd8, [0x10c98]); (0x10cd9, [0x10c99]); (0x10cda, [0x10c9a]);
   (0x10cdb, [0x10c9b]); (0x10cdc, [0x10c9c]); (0x10cdd, [0x10c9d]); (0x10cde, [0x10c9e]);
   (0x10cdf, [0x10c9f]); (0x10ce0, [0x10ca0]); (0x10ce1, [0x10ca1]); (0x10ce2, [0x10ca2]);
   (0x10ce3, [0x10ca3]); (0x10ce4, [0x10ca4]); (0x10ce5, [0x10ca5]); (0x10ce6, [0x10ca6]);
   (0x10ce7, [0x10ca7]); (0x10ce8, [0x10ca8]); (0x10ce9, [0x10ca9]); (0x10cea, [0x10caa]);
   (0x10ceb, [0x10cab]); (0x10cec, [0x10cac]); (0x10ced, [0x10cad]); (0x10cee, [0x10cae]);
   (0x10cef, [0x10caf]); (0x10cf0, [0x10cb0]); (0x10cf1, [0x10cb1]); (0x10cf2, [0x10cb2]);
   (0x118c0, [0x118a0]); (0x118c1, [0x118a1]); (0x118c2, [0x118a2]); (0x118c3, [0x118a3]);
   (0x118c4, [0x118a4]); (0x118c5, [0x118a5]); (0x118c6, [0x118a6]); (0x118c7, [0x118a7]);
   (0x118c8, [0x118a8]); (0x118c9, [0x118a9]); (0x118ca, [0x118aa]); (0x118cb, [0x118ab]);
   (0x118cc, [0x118ac]); (0x118cd, [0x118ad]); (0x118ce, [0x118ae]); (0x118cf, [0x118af]);
   (0x118d0, [0x118b0]); (0x118d1, [0x118b1]); (0x118d2, [0x118b2]); (0x118d3, [0x118b3]);
   (0x118d4, [0x118b4]); (0x118d5, [0x118b5]); (0x118d6, [0x118b6]); (0x118d7, [0x118b7]);
   (0x118d8, [0x118b8]); (0x118d9, [0x118b9]); (0x118da, [0x118ba]); (0x118db, [0x118bb]);
   (0x118dc, [0x118bc]); (0x118dd, [0x118bd]); (0x118de, [0x118be]); (0x118df, [0x118bf]);
   (0x16e60, [0x16e40]); (0x16e61, [0x16e41]); (0x16e62, [0x16e42]); (0x16e63, [0x16e43]);
   (0x16e64, [0x16e44]); (0x16e65, [0x16e45]); (0x16e66, [0x16e46]); (0x16e67, [0x16e47]);
   (0x16e68, [0x16e48]); (0x16e69, [0x16e49]); (0x16e6a, [0x16e4a]); (0x16e6b, [0x16e4b]);
   (0x16e6c, [0x16e4c]); (0x16e6d, [0x16e4d]); (0x16e6e, [0x16e4e]); (0x16e6f, [0x16e4f]);
   (0x16e70, [0x16e50]); (0x16e71, [0x16e51]); (0x16e72, [0x16e52]); (0x16e73, [0x16e53]);
   (0x16e74, [0x16e54]); (0x16e75, [0x16e55]); (0x16e76, [0x16e56]); (0x16e77, [0x16e57]);
   (0x16e78, [0x16e58]); (0x16e79, [0x16e59]); (0x16e7a, [0x16e5a]); (0x16e7b, [0x16e5b]);
   (0x16e7c, [0x16e5c]); (0x16e7d, [0x16e5d]); (0x16e7e, [0x16e5e]); (0x16e7f, [0x16e5f]);
   (0x1e922, [0x1e900]); (0x1e923, [0x1e901]); (0x1e924, [0x1e902]); (0x1e925, [0x1e903]);
   (0x1e926, [0x1e904]); (0x1e927, [0x1e905]); (0x1e928, [0x1e906]); (0x1e929, [0x1e907]);
   (0x1e92a, [0x1e908]); (0x1e92b, [0x1e909]); (0x1e92c, [0x1e90a]); (0x1e92d, [0x1e90b]);
   (0x1e92e, [0x1e90c]); (0x1e92f, [0x1e90d]); (0x1e930, [0x1e90e]); (0x1e931, [0x1e90f]);
   (0x1e932, [0x1e910]); (0x1e933, [0x1e911]); (0x1e934, [0x1e912]); (0x1e935, [0x1e913]);
   (0x1e936, [0x1e914]); (0x1e937, [0x1e915]); (0x1e938, [0x1e916]); (0x1e939, [0x1e917]);
   (0x1e93a, [0x1e918]); (0x1e93b, [0x1e919]); (0x1e93c, [0x1e91a]); (0x1e93d, [0x1e91b]);
   (0x1e93e, [0x1e91c]); (0x1e93f, [0x1e91d]); (0x1e940, [0x1e91e]); (0x1e941, [0x1e91f]);
   (0x1e942, [0x1e920]); (0x1e943, [0x1e921])
  ])%N.

Definition upper_table : list (string * string) :=
  map (fun entry => (utf8 entry.1, join (utf8 <$> entry.2))) upper_map.

Fixpoint assoc (key : string) (table : list (string * string)) : option string :=
  match table with
  | [] => None
  | (k, v) :: table' => if String.eqb key k then Some v else assoc key table'
  end.

(** The uppercase of one character. *)
Definition upper_char (c : string) : string :=
  match c with
  | String b EmptyString => String (upper_ascii b) EmptyString
  | _ => default c (assoc c upper_table)
  end.

(** [s.upper()]: every character is replaced by its uppercase, whatever
    surrounds it. *)
Definition upper (s : string) : string := join (upper_char <$> chars s).

(** [repr(s)] for a text of printable characters without quote or backslash,
    as the field names of the script are: the text between single quotes. *)
Definition quoted (s : string) : string := "'" +:+ s +:+ "'".

(** [str(n)] for a non-negative integer. *)
Definition of_nat (n : nat) : string :=
  NilEmpty.string_of_uint (Nat.to_uint n).

Fixpoint zeros (n : nat) : string :=
  match n with
  | O => EmptyString
  | S n' => String "0" (zeros n')
  end.

(** [s.zfill(width)] for an ASCII string without sign. *)
Definition zfill (width : nat) (s : string) : string :=
  zeros (width - String.length s) +:+ s.

Definition is_upper_letter (c : ascii) : bool :=
  let n := nat_of_ascii c in Nat.leb 65 n && Nat.leb n 90.

Definition is_lower_letter (c : ascii) : bool :=
  let n := nat_of_ascii c in Nat.leb 97 n && Nat.leb n 122.

Definition is_letter (c : ascii) : bool :=
  is_upper_letter c || is_lower_letter c.

(** Every byte is an ASCII character. *)
Fixpoint is_ascii (s : string) : bool :=
  match s with
  | EmptyString => true
  | String c rest => Nat.ltb (nat_of_ascii c) 128 && is_ascii rest
  end.

(** A 2-letter uppercase code, as in [NY]. *)
Definition two_uppercase_letters (s : string) : bool :=
  match s with
  | String a (String b EmptyString) => is_upper_letter a && is_upper_letter b
  | _ => false
  end.

(** The string starts with two letters. *)
Definition starts_with_two_letters (s : string) : bool :=
  match s with
  | String a (String b _) => is_letter a && is_letter b
  | _ => false
  end.

End Str.

(** ** Exceptions and outcomes *)

(** Three classes of Python exceptions matter to the handlers of the script:
    [easypost.Error] (caught by name in [run]), the other subclasses of
    [Exception], and what only a bare [except:] catches
    ([KeyboardInterrupt], [SystemExit]). *)
Inductive exn_class := EasyPostError | StandardError | Interrupt.

Record exn := Exn { exn_class_of : exn_class; exn_message : string }.

Definition is_Exception (e : exn) : bool :=
  match exn_class_of e with
  | Interrupt => false
  | _ => true
  end.

Definition is_easypost_Error (e : exn) : bool :=
  match exn_class_of e with
  | EasyPostError => true
  | _ => false
  end.

(** The built-in exceptions the script can meet; [exn_message] is
    [str(error)], the text the handlers print.  For a [KeyError] that is the
    [repr] of the key and for a [FileNotFoundError] it ends with the [repr]
    of the path. *)
Definition KeyError (key : string) : exn := Exn StandardError (Str.quoted key).
Definition TypeError (msg : string) : exn := Exn StandardError msg.
Definition ValueError (msg : string) : exn := Exn StandardError msg.
Definition IndexError : exn := Exn StandardError "list index out of range".
Definition AttributeError (msg : string) : exn := Exn StandardError msg.
Definition FileNotFoundError (path : string) : exn :=
  Exn StandardError ("[Errno 2] No such file or directory: " +:+ Str.quoted path).
Definition UnboundLocalError (name : string) : exn :=
  Exn StandardError ("local variable " +:+ Str.quoted name
                       +:+ " referenced before assignment").

Inductive Outcome (A : Type) :=
| Ok (a : A)
| Raise (e : exn).
Arguments Ok {A} a.
Arguments Raise {A} e.

(** ** Rows of the input file *)

(** A row of [csv.DictReader]: the cells under the header's field names
    ([None] where the record is shorter than the header) and, under the key
    [None], the cells of a record that is longer than the header. *)
Record Row := mkRow {
  fields : gmap string (option string);
  restkey : option (list string)
}.

(** [row[key]] for a field name. *)
Definition getitem (row : Row) (key : string) : Outcome (option string) :=
  match fields row !! key with
  | Some v => Ok v
  | None => Raise (KeyError key)
  end.

(** [str(v)] for a cell. *)
Definition str_cell (v : option string) : string :=
  match v with
  | Some s => s
  | None => "None"
  end.

(** ** Carrier objects *)

Record ToAddress := mkToAddress {
  ta_name : option string;
  ta_street1 : option string;
  ta_street2 : option string;
  ta_city : option string;
  ta_state : string;
  ta_zip : option string;
  ta_verify_strict : list string
}.

Record ShipmentRequest := mkRequest {
  rq_from_address : string;
  rq_parcel : string;
  rq_to_address : ToAddress;
  rq_options : list (string * string)
}.

Inductive PurchaseState := Unpurchased | Purchased | Refunded.

Record Shipment := mkShipment {
  shipment_id : string;
  request : ShipmentRequest;
  to_address_name : string;
  tracking_code : option string;
  label_url : option string;
  state : PurchaseState
}.

(** The [to_address] dictionary of [generate_shipments], lines 50-58. *)
Definition to_address_of_row (row : Row) : Outcome ToAddress :=
  match getitem row "SendTo" with
  | Raise e => Raise e
  | Ok name =>
  match getitem row "Address" with
  | Raise e => Raise e
  | Ok street1 =>
  match getitem row "Address2" with
  | Raise e => Raise e
  | Ok street2 =>
  match getitem row "City" with
  | Raise e => Raise e
  | Ok city =>
  match getitem row "State" with
  | Raise e => Raise e
  | Ok None => Raise (TypeError "'NoneType' object is not subscriptable")
  | Ok (Some st) =>
  match getitem row "Zip" with
  | Raise e => Raise e
  | Ok zip =>
      Ok {| ta_name := name; ta_street1 := street1; ta_street2 := street2;
            ta_city := city; ta_state := Str.upper (Str.slice_to 2 st);
            ta_zip := zip; ta_verify_strict := ["delivery"] |}
  end end end end end end.

(** ** Files, external calls and the world *)

(** A file holds either bytes (a label, a note, a merged document) or the
    records of a spreadsheet; how records are laid out as text is left to the
    [csv] module. *)
Inductive File :=
| Blob (data : string)
| Sheet (records : list (list string)).

(** The calls that leave the process, in the order they are made. *)
Inductive Event :=
| EvAddressRetrieve (address_id : string)
| EvParcelRetrieve (parcel_id : string)
| EvPathExists (path : string)
| EvShipmentCreate (req : ShipmentRequest)
| EvBuy (ref : nat)
| EvUrlopen (url : string)
| EvRefund (ref : nat)
| EvPdfjam (label_path note_path label_note_path : string).

(** Shipment objects live in [heap] and are passed around by reference (their
    position in [heap]), as the Python list holds references to objects that
    [buy] and [refund] update in place. *)
Record World := mkWorld {
  heap : list Shipment;
  fs : gmap string File;
  stdout : list string;
  events : list Event
}.

Definition set_heap (h : list Shipment) (w : World) : World :=
  mkWorld h (fs w) (stdout w) (events w).
Definition set_fs (f : gmap string File) (w : World) : World :=
  mkWorld (heap w) f (stdout w) (events w).
Definition add_stdout (line : string) (w : World) : World :=
  mkWorld (heap w) (fs w) (stdout w ++ [line]) (events w).
Definition add_event (ev : Event) (w : World) : World :=
  mkWorld (heap w) (fs w) (stdout w) (events w ++ [ev]).

(** What the collaborators answer.  [shipment_create] also receives the number
    of shipment objects created before, [shipment_buy] and [shipment_refund]
    the reference and the current object; [lowest_rate] is the answer of
    [shipment.lowest_rate(["USPS"], ["Priority"])], [urlopen] the response or
    the error of opening a URL, the response being the bytes or the error of
    reading it; [open_write] is the error, if any, of opening a path for
    writing; [csv_reader] splits the text of a file into the records it
    returns one by one and gives the error that stops it, if any;
    [repr_list] is [str] of a list of cells and [repr_fields] the text
    [", ".join([repr(x) for x in wrong_fields])] for the keys of a row that
    the writer does not know, which Python lists in the order of a set. *)
Record Env := mkEnv {
  address_retrieve : string -> Outcome string;
  parcel_retrieve : string -> Outcome string;
  shipment_create : nat -> ShipmentRequest -> Outcome (string * string);
  lowest_rate : Shipment -> Outcome string;
  shipment_buy : nat -> Shipment -> string -> Outcome (string * string);
  urlopen : string -> Outcome (Outcome string);
  shipment_refund : nat -> Shipment -> option exn;
  shipment_str : Shipment -> string;
  draw_string : option string -> option exn;
  canvas_pdf : option string -> option string -> option string -> string;
  pdfjam : option File -> option File -> Outcome string;
  open_write : string -> option exn;
  csv_reader : string -> list (list string) * option exn;
  repr_list : list string -> string;
  repr_fields : list (option string) -> string
}.

(** ** The monad of the script: state and exceptions *)

Definition M (A : Type) : Type := World -> Outcome A * World.

Definition ret {A} (a : A) : M A := fun w => (Ok a, w).

Definition raise {A} (e : exn) : M A := fun w => (Raise e, w).

Definition bind {A B} (c : M A) (k : A -> M B) : M B :=
  fun w =>
    match c w with
    | (Ok a, w') => k a w'
    | (Raise e, w') => (Raise e, w')
    end.

Definition lift {A} (o : Outcome A) : M A := fun w => (o, w).

Declare Scope io_scope.
Delimit Scope io_scope with io.
Notation "x <- c ;; k" := (bind c (fun x => k))
  (at level 100, c at next level, right associativity) : io_scope.
Notation "c ;; k" := (bind c (fun _ => k))
  (at level 100, k at level 200, right associativity) : io_scope.
Open Scope io_scope.

(** [try: c except <classes caught>: handler]. *)
Definition try_except {A} (c : M A) (caught : exn -> bool) (handler : exn -> M A) : M A :=
  fun w =>
    match c w with
    | (Ok a, w') => (Ok a, w')
    | (Raise e, w') => if caught e then handler e w' else (Raise e, w')
    end.

Definition print (line : string) : M unit := fun w => (Ok tt, add_stdout line w).

Definition emit (ev : Event) : M unit := fun w => (Ok tt, add_event ev w).

(** A [for index, x in enumerate(xs)] loop threading the local variables [s]
    of the body.  When the body raises, the loop stops; the loop variables
    keep their last binding, which the handler of [purchase_postage] reads. *)
Inductive LoopResult (X L : Type) :=
| LoopDone (s : L)
| LoopRaised (index : nat) (x : X) (e : exn).
Arguments LoopDone {X L} s.
Arguments LoopRaised {X L} index x e.

Fixpoint for_enum {X L} (body : nat -> X -> L -> M L) (index : nat) (xs : list X)
    (s : L) (w : World) : LoopResult X L * World :=
  match xs with
  | [] => (LoopDone s, w)
  | x :: xs' =>
      match body index x s w with
      | (Ok s', w') => for_enum body (S index) xs' s' w'
      | (Raise e, w') => (LoopRaised index x e, w')
      end
  end.

(** A loop whose exception is not handled on the spot. *)
Definition for_each {X L} (body : nat -> X -> L -> M L) (xs : list X) (s : L) : M L :=
  fun w =>
    match for_enum body 0 xs s w with
    | (LoopDone s', w') => (Ok s', w')
    | (LoopRaised _ _ e, w') => (Raise e, w')
    end.

(** [xs[index]] for a list. *)
Definition list_getitem {A} (xs : list A) (index : nat) : Outcome A :=
  match xs !! index with
  | Some x => Ok x
  | None => Raise IndexError
  end.

(** ** The [csv] module: [DictReader] and [DictWriter] *)

(** [dict(zip(fieldnames, record))]: a later duplicate of a name wins. *)
Definition zip_dict (fieldnames record : list string) : gmap string (option string) :=
  foldl (fun d kv => <[kv.1 := Some kv.2]> d) ∅ (zip fieldnames record).

(** [for key in names: d[key] = None] (the [restval] of short records). *)
Definition fill_restval (names : list string) (d : gmap string (option string))
    : gmap string (option string) :=
  foldl (fun d key => <[key := None]> d) d names.

(** The dictionary [DictReader.__next__] builds from one record. *)
Definition dict_row (fieldnames record : list string) : Row :=
  let d := zip_dict fieldnames record in
  let lf := length fieldnames in
  let lr := length record in
  if Nat.ltb lf lr then mkRow d (Some (drop lf record))
  else if Nat.ltb lr lf then mkRow (fill_restval (drop lr fieldnames) d) None
  else mkRow d None.

(** The first record is the header; blank records after it are skipped. *)
Definition DictReader (records : list (list string)) : list Row :=
  match records with
  | [] => []
  | fieldnames :: body =>
      map (dict_row fieldnames) (filter (fun record => record ≠ []) body)
  end.

(** [row.keys()], in no particular order. *)
Definition keys (row : Row) : list (option string) :=
  (Some <$> elements (dom (fields row)))
  ++ (if restkey row is Some _ then [None] else []).

Definition str_le (a b : string) : Prop := String.leb a b = true.

#[global] Instance str_le_dec (a b : string) : Decision (str_le a b).
Proof. unfold str_le. apply _. Defined.

(** [sorted(row.keys())]: strings are ordered byte by byte; ordering [None]
    against a string is a [TypeError]. *)
Definition sorted_keys (row : Row) : Outcome (list (option string)) :=
  match restkey row with
  | None => Ok (Some <$> merge_sort str_le (elements (dom (fields row))))
  | Some _ =>
      if decide (fields row = ∅) then Ok [None]
      else Raise (TypeError "'<' not supported between instances of 'NoneType' and 'str'")
  end.

(** [row.update({"Tracking Code": ..., "Label And Note": ...})]. *)
Definition row_update (row : Row) (tracking : option string) (label_note_path : string) : Row :=
  mkRow (<["Label And Note" := Some label_note_path]>
           (<["Tracking Code" := tracking]> (fields row)))
        (restkey row).

(** A field name as the header cell [writeheader] writes. *)
Definition header_cell (key : option string) : string :=
  match key with
  | Some name => name
  | None => EmptyString
  end.

Definition results_path : string := "results/compiled_results.csv".

Definition records_of (f : option File) : list (list string) :=
  match f with
  | Some (Sheet records) => records
  | _ => []
  end.

(** ** The stages *)

Section Pipeline.

Variable env : Env.

(** *** References and carrier calls *)

Definition blank_shipment : Shipment :=
  mkShipment EmptyString
             (mkRequest EmptyString EmptyString
                        (mkToAddress None None None None EmptyString None []) [])
             EmptyString None None Unpurchased.

(** Reading the object behind a reference.  A reference handed out by
    [Shipment_create] always has its object. *)
Definition deref (ref : nat) : M Shipment :=
  fun w => (Ok (default blank_shipment (heap w !! ref)), w).

Definition Address_retrieve (address_id : string) : M string :=
  emit (EvAddressRetrieve address_id);; lift (address_retrieve env address_id).

Definition Parcel_retrieve (parcel_id : string) : M string :=
  emit (EvParcelRetrieve parcel_id);; lift (parcel_retrieve env parcel_id).

(** [easypost.Shipment.create(...)]: a new, unpurchased shipment object. *)
Definition Shipment_create (req : ShipmentRequest) : M nat :=
  emit (EvShipmentCreate req);;
  fun w =>
    match shipment_create env (length (heap w)) req with
    | Raise e => (Raise e, w)
    | Ok (sid, name) =>
        (Ok (length (heap w)),
         set_heap (heap w ++ [mkShipment sid req name None None Unpurchased]) w)
    end.

(** [shipment.buy(rate=rate)]: on success the object gets its tracking code
    and postage label. *)
Definition Shipment_buy (ref : nat) (rate : string) : M unit :=
  emit (EvBuy ref);;
  shipment <- deref ref;;
  fun w =>
    match shipment_buy env ref shipment rate with
    | Raise e => (Raise e, w)
    | Ok (code, url) =>
        (Ok tt,
         set_heap (<[ref := mkShipment (shipment_id shipment) (request shipment)
                               (to_address_name shipment) (Some code) (Some url)
                               Purchased]> (heap w)) w)
    end.

(** [shipment.refund()]. *)
Definition Shipment_refund (ref : nat) : M unit :=
  emit (EvRefund ref);;
  shipment <- deref ref;;
  fun w =>
    match shipment_refund env ref shipment with
    | Some e => (Raise e, w)
    | None =>
        (Ok tt,
         set_heap (<[ref := mkShipment (shipment_id shipment) (request shipment)
                               (to_address_name shipment) (tracking_code shipment)
                               (label_url shipment) Refunded]> (heap w)) w)
    end.

(** [shipment.postage_label.label_url]; there is no label before purchase. *)
Definition postage_label_url (shipment : Shipment) : Outcome string :=
  match label_url shipment with
  | Some url => Ok url
  | None => Raise (AttributeError "'NoneType' object has no attribute 'label_url'")
  end.

(** [urllib.request.urlopen(url, timeout=10)]; the response is read later. *)
Definition urllib_urlopen (url : string) : M (Outcome string) :=
  emit (EvUrlopen url);; lift (urlopen env url).

(** *** Files *)

Definition os_path_exists (path : string) : M bool :=
  emit (EvPathExists path);;
  fun w => (Ok (bool_decide (is_Some (fs w !! path))), w).

(** [open(path, 'w')] and [open(path, 'wb')]: the file is created or truncated. *)
Definition open_w (path : string) : M unit :=
  fun w =>
    match open_write env path with
    | Some e => (Raise e, w)
    | None => (Ok tt, set_fs (<[path := Sheet []]> (fs w)) w)
    end.

Definition open_wb (path : string) : M unit :=
  fun w =>
    match open_write env path with
    | Some e => (Raise e, w)
    | None => (Ok tt, set_fs (<[path := Blob EmptyString]> (fs w)) w)
    end.

(** [outfile.write(data)], once, on a file just opened. *)
Definition write (path data : string) : M unit :=
  fun w => (Ok tt, set_fs (<[path := Blob data]> (fs w)) w).

(** One record appended by the [csv] writer. *)
Definition append_record (path : string) (cells : list string) : M unit :=
  fun w =>
    (Ok tt, set_fs (<[path := Sheet (records_of (fs w !! path) ++ [cells])]> (fs w)) w).

(** The records a reader returns from a file, in order, and the error that
    ends the reading, if any. *)
Definition read_stream (f : File) : list (list string) * option exn :=
  match f with
  | Sheet records => (records, None)
  | Blob data => csv_reader env data
  end.

(** The whole file: all its records, or the error of reading it. *)
Definition read_records (f : File) : Outcome (list (list string)) :=
  match read_stream f with
  | (records, None) => Ok records
  | (_, Some e) => Raise e
  end.

(** Lines 18-22, for the Python 3 versions that accept the mode ['rU']: the
    generator run to its end, which gives all the rows or the exception that
    stops it. *)
Definition iterate_csv (csv_path : string) : M (list Row) :=
  fun w =>
    match fs w !! csv_path with
    | None => (Raise (FileNotFoundError csv_path), w)
    | Some f =>
        match read_records f with
        | Ok records => (Ok (DictReader records), w)
        | Raise e => (Raise e, w)
        end
    end.

(** [for index, row in enumerate(iterate_csv(csv_path)): body].  The file is
    opened and its header read when the loop asks for the first row, and
    every record is read when the loop asks for it: an error of the reader
    is raised after the body has run for the rows before it. *)
Definition for_rows {L} (body : nat -> Row -> L -> M L) (csv_path : string) (s : L)
    : M L :=
  fun w =>
    match fs w !! csv_path with
    | None => (Raise (FileNotFoundError csv_path), w)
    | Some f =>
        match read_stream f with
        | (records, None) => for_each body (DictReader records) s w
        | (records, Some e) => (for_each body (DictReader records) s;; raise e) w
        end
    end.

(** The value [DictWriter] writes under a field name ([restval] is the
    empty string, [None] is written as the empty string). *)
Definition cell (row : Row) (key : option string) : string :=
  match key with
  | Some name =>
      match fields row !! name with
      | Some (Some s) => s
      | _ => EmptyString
      end
  | None =>
      match restkey row with
      | Some cells => repr_list env cells
      | None => EmptyString
      end
  end.

(** [DictWriter._dict_to_list] with [extrasaction='raise']. *)
Definition dict_to_list (fieldnames : list (option string)) (row : Row)
    : Outcome (list string) :=
  if forallb (fun key => bool_decide (key ∈ fieldnames)) (keys row)
  then Ok (cell row <$> fieldnames)
  else Raise (ValueError
                ("dict contains fields not in fieldnames: "
                   +:+ repr_fields env
                         (filter (fun key => key ∉ fieldnames) (keys row)))).

(** *** Output paths *)

Definition label_path (index : nat) (shipment : Shipment) : string :=
  "labels/ROW_" +:+ Str.zfill 3 (Str.of_nat index) +:+ "_"
    +:+ str_cell (tracking_code shipment) +:+ "_LABEL.pdf".

Definition note_path (index : nat) (shipment : Shipment) : string :=
  "notes/ROW_" +:+ Str.zfill 3 (Str.of_nat index) +:+ "_"
    +:+ str_cell (tracking_code shipment) +:+ "_NOTE.pdf".

Definition label_note_path (index : nat) (shipment : Shipment) : string :=
  "results/ROW_" +:+ Str.zfill 3 (Str.of_nat index) +:+ "_"
    +:+ str_cell (tracking_code shipment) +:+ "_LABEL_AND_NOTE.pdf".

(** *** [refund_postage], lines 32-40 *)

Definition refund_one (index : nat) (ref : nat) (_ : unit) : M unit :=
  try_except
    (shipment <- deref ref;;
     print ("Refunding purchased postage: " +:+ str_cell (tracking_code shipment));;
     Shipment_refund ref)
    (fun _ => true)
    (fun _ =>
       shipment <- deref ref;;
       print ("Error refunding postage for: " +:+ shipment_str env shipment)).

Definition refund_postage (shipments : list nat) : M unit :=
  for_each refund_one shipments tt.

(** *** [generate_shipments], lines 43-60 *)

Definition create_one (address parcel : string) (index : nat) (row : Row)
    (shipments : list nat) : M (list nat) :=
  name <- lift (getitem row "SendTo");;
  print ("Creating shipment to: " +:+ str_cell name);;
  to_address <- lift (to_address_of_row row);;
  ref <- Shipment_create
           (mkRequest address parcel to_address
                      [("label_size", "4x6"); ("label_format", "PDF")]);;
  ret (shipments ++ [ref]).

Definition generate_shipments (address parcel csv_path : string) : M (list nat) :=
  for_rows (create_one address parcel) csv_path [].

(** *** [purchase_postage], lines 63-83 *)

Definition purchase_one (index : nat) (ref : nat) (_ : unit) : M unit :=
  shipment <- deref ref;;
  print ("Purchasing postage to: " +:+ to_address_name shipment);;
  rate <- lift (lowest_rate env shipment);;
  Shipment_buy ref rate;;
  shipment <- deref ref;;
  url <- lift (postage_label_url shipment);;
  print ("Downloading label " +:+ url);;
  response <- urllib_urlopen url;;
  open_wb (label_path index shipment);;
  data <- lift response;;
  write (label_path index shipment) data.

Definition purchase_postage (shipments : list nat) : M unit :=
  fun w =>
    match for_enum purchase_one 0 shipments tt w with
    | (LoopDone _, w') => (Ok tt, w')
    | (LoopRaised _ ref error, w') =>
        if is_Exception error then
          (shipment <- deref ref;;
           print ("Error purchasing postage for " +:+ shipment_id shipment
                    +:+ ": " +:+ exn_message error);;
           refund_postage shipments) w'
        else (Raise error, w')
    end.

(** *** [generate_notes], lines 86-106 *)

Definition drawString (text : option string) : M unit :=
  match draw_string env text with
  | Some e => raise e
  | None => ret tt
  end.

Definition note_one (shipments : list nat) (index : nat) (row : Row) (_ : unit) : M unit :=
  ref <- lift (list_getitem shipments index);;
  shipment <- deref ref;;
  print ("Generating note for: " +:+ to_address_name shipment);;
  cbi <- lift (getitem row "CBI Message");;
  drawString cbi;;
  sending_from <- lift (getitem row "SendingFrom");;
  drawString sending_from;;
  generic <- lift (getitem row "Generic Message");;
  drawString generic;;
  open_wb (note_path index shipment);;
  write (note_path index shipment) (canvas_pdf env cbi sending_from generic).

Definition generate_notes (shipments : list nat) (csv_path : string) : M unit :=
  for_rows (note_one shipments) csv_path tt.

(** *** [merge_labels_and_notes], lines 109-123 *)

(** [subprocess.check_output(["pdfjam", ..., label, note, "--outfile", out])]:
    the tool reads the two documents and, unless it fails, writes the merged one. *)
Definition check_output_pdfjam (label note out : string) : M unit :=
  emit (EvPdfjam label note out);;
  fun w =>
    match pdfjam env (fs w !! label) (fs w !! note) with
    | Raise e => (Raise e, w)
    | Ok data => (Ok tt, set_fs (<[out := Blob data]> (fs w)) w)
    end.

Definition merge_one (index : nat) (ref : nat) (_ : unit) : M unit :=
  shipment <- deref ref;;
  print ("Merging label and note for: " +:+ to_address_name shipment);;
  check_output_pdfjam (label_path index shipment) (note_path index shipment)
                      (label_note_path index shipment).

Definition merge_labels_and_notes (shipments : list nat) : M unit :=
  for_each merge_one shipments tt.

(** *** [write_results], lines 126-141 *)

(** The body of the loop; the local [writer] (its field names) is bound by
    the first iteration and read by the later ones. *)
Definition write_one (shipments : list nat) (index : nat) (row : Row)
    (writer : option (list (option string))) : M (option (list (option string))) :=
  writer <- (if Nat.eqb index 0 then
               sorted <- lift (sorted_keys row);;
               let fieldnames := sorted ++ [Some "Tracking Code"; Some "Label And Note"] in
               append_record results_path (header_cell <$> fieldnames);;
               ret (Some fieldnames)
             else ret writer);;
  ref <- lift (list_getitem shipments index);;
  shipment <- deref ref;;
  let row := row_update row (tracking_code shipment) (label_note_path index shipment) in
  match writer with
  | Some fieldnames =>
      cells <- lift (dict_to_list fieldnames row);;
      append_record results_path cells;;
      ret writer
  | None => raise (UnboundLocalError "writer")
  end.

Definition write_results (shipments : list nat) (csv_path : string) : M unit :=
  print "Writing CSV results to ";;
  open_w results_path;;
  for_rows (write_one shipments) csv_path None;;
  ret tt.

(** *** [run], lines 144-166 *)

(** The [try] block of lines 160-163. *)
Definition after_purchase (shipments : list nat) (csv_path : string) : M unit :=
  generate_notes shipments csv_path;;
  merge_labels_and_notes shipments;;
  write_results shipments csv_path.

Definition run (from_address_id parcel_id csv_path : string) : M unit :=
  from_address <-
    try_except (Address_retrieve from_address_id) is_easypost_Error
      (fun error => raise (Exn StandardError
         ("Error requesting from_address_id: " +:+ exn_message error)));;
  parcel <-
    try_except (Parcel_retrieve parcel_id) is_easypost_Error
      (fun error => raise (Exn StandardError
         ("Error requesting parcel_id: " +:+ exn_message error)));;
  found <- os_path_exists csv_path;;
  if negb found then raise (Exn StandardError "csv-path does not exist")
  else
    shipments <- generate_shipments from_address parcel csv_path;;
    purchase_postage shipments;;
    try_except (after_purchase shipments csv_path) is_Exception
      (fun error =>
         print ("Failure: " +:+ exn_message error);;
         refund_postage shipments).

End Pipeline.

(** ** Vocabulary of the properties *)

(** The purchases and refunds requested in a trace. *)
Definition buys_of (evs : list Event) : list nat :=
  omap (fun ev => match ev with EvBuy ref => Some ref | _ => None end) evs.

Definition refunds_of (evs : list Event) : list nat :=
  omap (fun ev => match ev with EvRefund ref => Some ref | _ => None end) evs.

(** [s] starts with [pre]. *)
Fixpoint starts_with (pre s : string) : bool :=
  match pre, s with
  | EmptyString, _ => true
  | String a pre', String b s' => Ascii.eqb a b && starts_with pre' s'
  | String _ _, EmptyString => false
  end.

(** The files the stages write per shipment: labels, notes and merged
    documents. *)
Definition artifact_path (path : string) : bool :=
  starts_with "labels/ROW_" path
  || starts_with "notes/ROW_" path
  || starts_with "results/ROW_" path.

(** [keeps w w']: from [w] to [w'] no shipment object was added or removed,
    every object still carries the request it was created from, and only
    artifact files were written. *)
Definition keeps (w w' : World) : Prop :=
  request <$> heap w' = request <$> heap w
  /\ forall path, artifact_path path = false -> fs w' !! path = fs w !! path.

(** The shipment object was created from this row, with the shared origin
    address and parcel and the fixed label options. *)
Definition created_from (address parcel : string) (row : Row) (shipment : Shipment) : Prop :=
  exists to_address,
    to_address_of_row row = Ok to_address
    /\ request shipment
       = mkRequest address parcel to_address
                   [("label_size", "4x6"); ("label_format", "PDF")].

(** The rows a loop over the input has been given when the reader stops. *)
Definition rows_read (env : Env) (csv_path : string) (w : World) : list Row :=
  match fs w !! csv_path with
  | Some f => DictReader (read_stream env f).1
  | None => []
  end.

(** The world once the origin address and the parcel are resolved and the
    input path is checked. *)
Definition after_lookups (from_address_id parcel_id csv_path : string) (w : World) : World :=
  add_event (EvPathExists csv_path)
    (add_event (EvParcelRetrieve parcel_id)
       (add_event (EvAddressRetrieve from_address_id) w)).


(** What [DictWriter] writes for a tracking code. *)
Definition tracking_cell (shipment : Shipment) : string :=
  match tracking_code shipment with
  | Some code => code
  | None => EmptyString
  end.

(** [cells] is the record written for [row] at [index]: the row, updated with
    the tracking code and merged-document path of the shipment at the same
    index, laid out under [fieldnames]. *)
Definition row_written (env : Env) (shipments : list nat) (h : list Shipment)
    (fieldnames : list (option string)) (index : nat) (row : Row)
    (cells : list string) : Prop :=
  exists ref,
    shipments !! index = Some ref
    /\ dict_to_list env fieldnames
         (row_update row (tracking_code (default blank_shipment (h !! ref)))
                     (label_note_path index (default blank_shipment (h !! ref))))
       = Ok cells.

(** ** A small concrete batch

    Three recipients and a carrier that answers every call, except that it
    declines the purchases listed in [buy_fails] and refunds only purchased
    postage.  [pdfjam] fails when one of its two inputs is missing. *)

Module Demo.

Definition payment_failed : exn := Exn EasyPostError "payment failed".

Definition env (buy_fails : nat -> bool) : Env :=
  {| address_retrieve := fun i =>
       if String.eqb i "adr_missing" then Raise (Exn EasyPostError "address not found")
       else Ok ("address " +:+ i);
     parcel_retrieve := fun i => Ok ("parcel " +:+ i);
     shipment_create := fun n req =>
       Ok ("shp_" +:+ Str.of_nat n, str_cell (ta_name (rq_to_address req)));
     lowest_rate := fun _ => Ok "rate_usps_priority";
     shipment_buy := fun ref _ _ =>
       if buy_fails ref then Raise payment_failed
       else Ok ("TRK" +:+ Str.of_nat ref, "https://label/" +:+ Str.of_nat ref);
     urlopen := fun url => Ok (Ok ("label " +:+ url));
     shipment_refund := fun _ shipment =>
       match state shipment with
       | Purchased => None
       | _ => Some (Exn EasyPostError "not refundable")
       end;
     shipment_str := shipment_id;
     draw_string := fun text =>
       match text with
       | Some _ => None
       | None => Some (TypeError "expected a string")
       end;
     canvas_pdf := fun cbi sending_from generic => "note " +:+ str_cell cbi;
     pdfjam := fun label note =>
       match label, note with
       | Some (Blob a), Some (Blob b) => Ok (a +:+ " | " +:+ b)
       | _, _ => Raise (Exn StandardError "CalledProcessError")
       end;
     open_write := fun _ => None;
     csv_reader := fun _ => ([], Some (Exn StandardError "UnicodeDecodeError"));
     repr_list := fun _ => "[...]";
     repr_fields := fun _ => "..." |}.

(** Every purchase goes through. *)
Definition env_ok : Env := env (fun _ => false).

(** The purchase of the second shipment is declined. *)
Definition env_fail1 : Env := env (fun ref => Nat.eqb ref 1).

Definition header : list string :=
  ["SendTo"; "Address"; "Address2"; "City"; "State"; "Zip";
   "CBI Message"; "SendingFrom"; "Generic Message"].

Definition recipients : File :=
  Sheet [header;
         ["Ann"; "1 Main St"; EmptyString; "Albany"; "ny"; "12207";
          "Happy Purim"; "The Cohens"; "Chag sameach"];
         ["Bob"; "2 Oak Ave"; EmptyString; "Newark"; "New Jersey"; "07102";
          "Happy Purim"; "The Cohens"; "Chag sameach"];
         ["Cy"; "3 Elm Rd"; "Apt 4"; "Boston"; "MA"; "02108";
          "Happy Purim"; "The Cohens"; "Chag sameach"]].

(** Before the run: the input file and nothing else. *)
Definition w0 : World := mkWorld [] {[ "in.csv" := recipients ]} [] [].

(** A header and no recipient. *)
Definition w_empty : World := mkWorld [] {[ "in.csv" := Sheet [header] ]} [] [].

(** A recipient whose state is given as one letter. *)
Definition row_short_state : Row :=
  dict_row header ["Dan"; "4 Pine Ln"; EmptyString; "Dover"; "d"; "19901"; "Hi"; "Us"; "Bye"].

Definition row_ann : Row :=
  dict_row header ["Ann"; "1 Main St"; EmptyString; "Albany"; "ny"; "12207";
                   "Happy Purim"; "The Cohens"; "Chag sameach"].

(** The three shipments created, none purchased yet. *)
Definition w_created : World :=
  (generate_shipments env_ok "address adr_1" "parcel pcl_1" "in.csv" w0).2.

(** After the purchase loop in which the second purchase is declined. *)
Definition w_declined : World :=
  (for_enum (purchase_one env_fail1) 0 [0; 1; 2] tt w_created).2.

(** The stages of the run in which everything succeeds. *)
Definition w_run1 : World :=
  (generate_shipments env_ok "address adr_1" "parcel pcl_1" "in.csv"
     (after_lookups "adr_1" "pcl_1" "in.csv" w0)).2.
Definition w_run2 : World := (purchase_postage env_ok [0; 1; 2] w_run1).2.
Definition w_run3 : World := (generate_notes env_ok [0; 1; 2] "in.csv" w_run2).2.
Definition w_run4 : World := (merge_labels_and_notes env_ok [0; 1; 2] w_run3).2.
Definition w_run5 : World := (write_results env_ok [0; 1; 2] "in.csv" w_run4).2.

(** An input without the [Generic Message] column: both purchases go
    through, then the first note cannot be rendered. *)
Definition w_plain : World :=
  mkWorld []
    {[ "in.csv" :=
         Sheet [["SendTo"; "Address"; "Address2"; "City"; "State"; "Zip";
                 "CBI Message"; "SendingFrom"];
                ["Ann"; "1 Main St"; EmptyString; "Albany"; "ny"; "12207";
                 "Happy Purim"; "The Cohens"];
                ["Bob"; "2 Oak Ave"; EmptyString; "Newark"; "New Jersey"; "07102";
                 "Happy Purim"; "The Cohens"]] ]}
    [] [].
Definition w_plain1 : World :=
  (generate_shipments env_ok "address adr_1" "parcel pcl_1" "in.csv"
     (after_lookups "adr_1" "pcl_1" "in.csv" w_plain)).2.
Definition w_plain2 : World := (for_enum (purchase_one env_ok) 0 [0; 1] tt w_plain1).2.
Definition w_plain3 : World := (after_purchase env_ok [0; 1] "in.csv" w_plain2).2.

Definition address_ann : ToAddress :=
  mkToAddress (Some "Ann") (Some "1 Main St") (Some EmptyString) (Some "Albany") "NY"
              (Some "12207") ["delivery"].

(** The recipients stored under the name of the report, and the stages of
    the run that reads them from there. *)
Definition w_self : World := mkWorld [] {[ results_path := recipients ]} [] [].
Definition w_self1 : World :=
  (generate_shipments env_ok "address adr_1" "parcel pcl_1" results_path
     (after_lookups "adr_1" "pcl_1" results_path w_self)).2.
Definition w_self2 : World := (purchase_postage env_ok [0; 1; 2] w_self1).2.
Definition w_self3 : World := (generate_notes env_ok [0; 1; 2] results_path w_self2).2.
Definition w_self4 : World := (merge_labels_and_notes env_ok [0; 1; 2] w_self3).2.
Definition w_self5 : World := (write_results env_ok [0; 1; 2] results_path w_self4).2.

End Demo.

From Stdlib Require Import DecimalNat.

(** ** The helper that is never called (lines 25-29) *)

(** [os.remove(path)]: the path must exist; [remove_error] is the error, if
    any, the operating system answers for an existing path. *)
Definition os_remove (remove_error : string -> option exn) (path : string) : M unit :=
  fun w =>
    match fs w !! path with
    | None => (Raise (FileNotFoundError path), w)
    | Some _ =>
        match remove_error path with
        | Some e => (Raise e, w)
        | None => (Ok tt, set_fs (delete path (fs w)) w)
        end
    end.

Definition remote_tempfile (remove_error : string -> option exn) (path : string) : M unit :=
  try_except (os_remove remove_error path) (fun _ => true) (fun _ => ret tt).

(** ** More vocabulary *)

(** The shipment requests sent to the carrier in a trace. *)
Definition creates_of (evs : list Event) : list ShipmentRequest :=
  omap (fun ev => match ev with EvShipmentCreate req => Some req | _ => None end) evs.

(** From [w] to [w'] the trace grew by events that all satisfy [allowed]. *)
Definition only_events (allowed : Event -> bool) (w w' : World) : Prop :=
  exists evs, events w' = events w ++ evs /\ forallb allowed evs = true.

Definition is_create (ev : Event) : bool :=
  match ev with EvShipmentCreate _ => true | _ => false end.

Definition is_purchase_call (ev : Event) : bool :=
  match ev with EvBuy _ | EvUrlopen _ => true | _ => false end.

Definition is_pdfjam (ev : Event) : bool :=
  match ev with EvPdfjam _ _ _ => true | _ => false end.

Definition is_refund (ev : Event) : bool :=
  match ev with EvRefund _ => true | _ => false end.

(** The string has no underscore, the separator of the artifact names. *)
Fixpoint no_underscore (s : string) : bool :=
  match s with
  | EmptyString => true
  | String c rest => negb (Ascii.eqb c "_") && no_underscore rest
  end.

(** Every character of the string satisfies [p]. *)
Fixpoint all_chars (p : ascii -> bool) (s : string) : bool :=
  match s with
  | EmptyString => true
  | String c rest => p c && all_chars p rest
  end.

(** A byte of a character beyond ASCII. *)
Definition high (c : ascii) : bool := Nat.leb 128 (nat_of_ascii c).

(** A character as [Str.chars] cuts it: one byte, or bytes beyond ASCII only. *)
Definition group_ok (g : string) : bool :=
  match g with
  | String _ EmptyString => true
  | _ => all_chars high g
  end.

(** The shipment object after a purchase that answered [code] and [url]. *)
Definition bought (shipment : Shipment) (code url : string) : Shipment :=
  mkShipment (shipment_id shipment) (request shipment) (to_address_name shipment)
             (Some code) (Some url) Purchased.

(** The shipment object after an accepted refund. *)
Definition refunded (shipment : Shipment) : Shipment :=
  mkShipment (shipment_id shipment) (request shipment) (to_address_name shipment)
             (tracking_code shipment) (label_url shipment) Refunded.

(** The number a string of decimal digits stands for. *)
Definition digits_value (s : string) : option nat :=
  Nat.of_uint <$> NilEmpty.uint_of_string s.

(** The [pdfjam] call for the shipment behind [ref] at [index], the
    shipment objects being [h]. *)
Definition pdfjam_call (h : list Shipment) (index ref : nat) : Event :=
  EvPdfjam (label_path index (default blank_shipment (h !! ref)))
           (note_path index (default blank_shipment (h !! ref)))
           (label_note_path index (default blank_shipment (h !! ref))).

(** A shipment as [Shipment.create] leaves it. *)
Definition fresh (shipment : Shipment) : Prop :=
  state shipment = Unpurchased
  /\ tracking_code shipment = None
  /\ label_url shipment = None.

(** ** More concrete inputs *)

Module Sample.

(** A carrier that knows the origin address and no parcel. *)
Definition env_no_parcel : Env :=
  mkEnv (address_retrieve Demo.env_ok)
        (fun _ => Raise (Exn EasyPostError "parcel not found"))
        (shipment_create Demo.env_ok) (lowest_rate Demo.env_ok)
        (shipment_buy Demo.env_ok) (urlopen Demo.env_ok)
        (shipment_refund Demo.env_ok) (shipment_str Demo.env_ok)
        (draw_string Demo.env_ok) (canvas_pdf Demo.env_ok) (pdfjam Demo.env_ok)
        (open_write Demo.env_ok) (csv_reader Demo.env_ok) (repr_list Demo.env_ok) (repr_fields Demo.env_ok).

(** An input without the [Zip] column. *)
Definition w_no_zip : World :=
  mkWorld []
    {[ "in.csv" :=
         Sheet [["SendTo"; "Address"; "Address2"; "City"; "State"];
                ["Ann"; "1 Main St"; EmptyString; "Albany"; "ny"]] ]}
    [] [].

Definition w_no_zip_failed : World :=
  (generate_shipments Demo.env_ok "address adr_1" "parcel pcl_1" "in.csv" w_no_zip).2.

Definition w_no_zip_run : World :=
  (generate_shipments Demo.env_ok "address adr_1" "parcel pcl_1" "in.csv"
     (after_lookups "adr_1" "pcl_1" "in.csv" w_no_zip)).2.

(** A recipient whose State cell starts with U+00DF, the sharp s. *)
Definition row_sharp_s : Row :=
  dict_row Demo.header
    ["Eva"; "5 Elbe Weg"; EmptyString; "Essen"; Str.utf8 223 +:+ "a"; "45127";
     "Hi"; "Us"; "Bye"].

Definition address_eva : ToAddress :=
  mkToAddress (Some "Eva") (Some "5 Elbe Weg") (Some EmptyString) (Some "Essen") "SSA"
              (Some "45127") ["delivery"].

Definition keyboard_interrupt : exn := Exn Interrupt "KeyboardInterrupt".

(** A file whose text cannot be decoded from its third record on: the reader
    returns the header and two records, then stops with an error. *)
Definition decode_error : exn := Exn StandardError "invalid start byte".

Definition env_bad_tail : Env :=
  mkEnv (address_retrieve Demo.env_ok) (parcel_retrieve Demo.env_ok)
        (shipment_create Demo.env_ok) (lowest_rate Demo.env_ok)
        (shipment_buy Demo.env_ok) (urlopen Demo.env_ok)
        (shipment_refund Demo.env_ok) (shipment_str Demo.env_ok)
        (draw_string Demo.env_ok) (canvas_pdf Demo.env_ok) (pdfjam Demo.env_ok)
        (open_write Demo.env_ok)
        (fun _ =>
           ([Demo.header;
             ["Ann"; "1 Main St"; EmptyString; "Albany"; "ny"; "12207";
              "Happy Purim"; "The Cohens"; "Chag sameach"];
             ["Bob"; "2 Oak Ave"; EmptyString; "Newark"; "New Jersey"; "07102";
              "Happy Purim"; "The Cohens"; "Chag sameach"]],
            Some decode_error))
        (repr_list Demo.env_ok) (repr_fields Demo.env_ok).

Definition w_bad_tail : World := mkWorld [] {[ "in.csv" := Blob "text" ]} [] [].

Definition w_bad_tail_failed : World :=
  (generate_shipments env_bad_tail "address adr_1" "parcel pcl_1" "in.csv" w_bad_tail).2.

(** The operator interrupts the second purchase. *)
Definition env_interrupted : Env :=
  mkEnv (address_retrieve Demo.env_ok) (parcel_retrieve Demo.env_ok)
        (shipment_create Demo.env_ok) (lowest_rate Demo.env_ok)
        (fun ref shipment rate =>
           if Nat.eqb ref 1 then Raise keyboard_interrupt
           else shipment_buy Demo.env_ok ref shipment rate)
        (urlopen Demo.env_ok)
        (shipment_refund Demo.env_ok) (shipment_str Demo.env_ok)
        (draw_string Demo.env_ok) (canvas_pdf Demo.env_ok) (pdfjam Demo.env_ok)
        (open_write Demo.env_ok) (csv_reader Demo.env_ok) (repr_list Demo.env_ok) (repr_fields Demo.env_ok).

Definition w_interrupted : World :=
  (for_enum (purchase_one env_interrupted) 0 [0; 1; 2] tt Demo.w_created).2.

(** The run of [Demo] in which the second purchase is declined: the world
    once the notes are written, and once the merge has failed. *)
Definition w_notes_after_decline : World :=
  (generate_notes Demo.env_fail1 [0; 1; 2] "in.csv"
     (purchase_postage Demo.env_fail1 [0; 1; 2] Demo.w_created).2).2.

Definition w_merge_failed : World :=
  (merge_labels_and_notes Demo.env_fail1 [0; 1; 2] w_notes_after_decline).2.

(** An input whose second record has one cell too many. *)
Definition sheet_long : File :=
  Sheet [["SendTo"; "State"]; ["Ann"; "ny"]; ["Bob"; "nj"; "surplus"]].

Definition w_long : World := mkWorld [] {[ "in.csv" := sheet_long ]} [] [].

(** The operator interrupts the drawing of a note. *)
Definition env_note_interrupted : Env :=
  mkEnv (address_retrieve Demo.env_ok) (parcel_retrieve Demo.env_ok)
        (shipment_create Demo.env_ok) (lowest_rate Demo.env_ok)
        (shipment_buy Demo.env_ok) (urlopen Demo.env_ok)
        (shipment_refund Demo.env_ok) (shipment_str Demo.env_ok)
        (fun _ => Some keyboard_interrupt)
        (canvas_pdf Demo.env_ok) (pdfjam Demo.env_ok)
        (open_write Demo.env_ok) (csv_reader Demo.env_ok) (repr_list Demo.env_ok) (repr_fields Demo.env_ok).

Definition w_note_interrupted : World :=
  (after_purchase env_note_interrupted [0; 1; 2] "in.csv" Demo.w_run2).2.

(** The three shipments of [Demo], all purchased. *)
Definition w_bought : World :=
  (for_enum (purchase_one Demo.env_ok) 0 [0; 1; 2] tt Demo.w_created).2.

End Sample.

(** * Properties *)

(** ** The destination address (lines 47-59) *)

Lemma upper_ascii_letter (c : ascii) :
  Str.is_letter c = true -> Str.is_upper_letter (Str.upper_ascii c) = true.
Proof.
  destruct c as [[] [] [] [] [] [] [] []]; vm_compute; congruence.
Qed.

Lemma width_ascii (c : ascii) :
  Nat.ltb (nat_of_ascii c) 128 = true -> Str.width c = 1.
Proof.
  destruct c as [[] [] [] [] [] [] [] []]; vm_compute; congruence.
Qed.

Lemma letter_ascii (c : ascii) :
  Str.is_letter c = true -> Nat.ltb (nat_of_ascii c) 128 = true.
Proof.
  destruct c as [[] [] [] [] [] [] [] []]; vm_compute; congruence.
Qed.

Lemma chars_from_zero (cur s : string) :
  Str.chars_from 0 cur s = cur :: Str.chars s.
Proof. destruct s; reflexivity. Qed.

(** An ASCII byte is a character of its own. *)
Lemma chars_ascii_cons (c : ascii) (s : string) :
  Nat.ltb (nat_of_ascii c) 128 = true ->
  Str.chars (String c s) = String c EmptyString :: Str.chars s.
Proof.
  intros Hc. unfold Str.chars at 1. rewrite (width_ascii c Hc). apply chars_from_zero.
Qed.

Lemma upper_ascii_pair (a b : ascii) (rest : string) :
  Nat.ltb (nat_of_ascii a) 128 = true ->
  Nat.ltb (nat_of_ascii b) 128 = true ->
  Str.upper (Str.slice_to 2 (String a (String b rest)))
  = String (Str.upper_ascii a) (String (Str.upper_ascii b) EmptyString).
Proof.
  intros Ha Hb.
  assert (Hs : Str.slice_to 2 (String a (String b rest)) = String a (String b EmptyString)).
  { unfold Str.slice_to.
    rewrite (chars_ascii_cons a _ Ha), (chars_ascii_cons b _ Hb). reflexivity. }
  rewrite Hs. unfold Str.upper.
  rewrite (chars_ascii_cons a _ Ha), (chars_ascii_cons b _ Hb). reflexivity.
Qed.

Lemma upper_ascii_single (a : ascii) :
  Nat.ltb (nat_of_ascii a) 128 = true ->
  Str.upper (Str.slice_to 2 (String a EmptyString)) = String (Str.upper_ascii a) EmptyString.
Proof.
  intros Ha.
  assert (Hs : Str.slice_to 2 (String a EmptyString) = String a EmptyString).
  { unfold Str.slice_to. rewrite (chars_ascii_cons a _ Ha). reflexivity. }
  rewrite Hs. unfold Str.upper. rewrite (chars_ascii_cons a _ Ha). reflexivity.
Qed.

(** The table agrees with itself through the encoding: the uppercase of the
    character of a listed code point is the encoding of the code points
    listed for it. *)
Lemma upper_map_read_back :
  forallb (fun entry => String.eqb (Str.upper (Str.utf8 entry.1))
                                   (Str.join (Str.utf8 <$> entry.2)))
          Str.upper_map = true.
Proof. vm_compute. reflexivity. Qed.

(** Beyond ASCII a character may have an uppercase of several characters:
    the two characters U+00DF, [a] give the three characters [SSA]. *)
Lemma upper_can_lengthen :
  Str.upper (Str.slice_to 2 (Str.utf8 223 +:+ "abc")) = "SSA".
Proof. vm_compute. reflexivity. Qed.

Lemma to_address_state (row : Row) (address : ToAddress) :
  to_address_of_row row = Ok address ->
  exists st, fields row !! "State" = Some (Some st)
             /\ ta_state address = Str.upper (Str.slice_to 2 st)
             /\ ta_verify_strict address = ["delivery"].
Proof.
  unfold to_address_of_row, getitem. intros H.
  repeat match type of H with
         | match match ?m !! ?k with _ => _ end with _ => _ end = _ =>
             destruct (m !! k) as [[?|]|] eqn:?; try discriminate H
         end;
    inversion H; subst; simpl; eauto.
Qed.

(** C8, as stated, fails: a recipient whose State cell is the single letter
    [d] is sent to the carrier with the state [D], which is not a 2-letter
    code. *)
Lemma state_not_two_letters :
  exists address,
    to_address_of_row Demo.row_short_state = Ok address
    /\ ta_state address = "D"
    /\ Str.two_uppercase_letters (ta_state address) = false.
Proof. eexists. split; [vm_compute; reflexivity | split; reflexivity]. Qed.

(** C8, amended: the state sent to the carrier is [str.upper()] of the first
    two characters of the row's State cell.  When these characters are ASCII
    the state has as many characters as were taken, two or fewer; it is a
    2-letter uppercase code whenever the cell starts with two ASCII letters;
    strict delivery verification is always requested. *)
Theorem state_is_upper_prefix (row : Row) (address : ToAddress) :
  to_address_of_row row = Ok address ->
  exists st,
    fields row !! "State" = Some (Some st)
    /\ ta_state address = Str.upper (Str.slice_to 2 st)
    /\ (Str.is_ascii (substring 0 2 st) = true ->
        String.length (ta_state address) = Nat.min 2 (String.length st))
    /\ (Str.starts_with_two_letters st = true ->
        Str.two_uppercase_letters (ta_state address) = true)
    /\ ta_verify_strict address = ["delivery"].
Proof.
  intros H. destruct (to_address_state row address H) as (st & Hst & Hup & Hv).
  exists st. rewrite Hup. repeat split; auto.
  - destruct st as [|a [|b st]]; [reflexivity| |].
    + cbn [substring Str.is_ascii]. rewrite andb_true_r. intros Ha.
      rewrite (upper_ascii_single a Ha). reflexivity.
    + assert (Hs : substring 0 2 (String a (String b st)) = String a (String b EmptyString))
        by (destruct st; reflexivity).
      rewrite Hs. cbn [Str.is_ascii]. rewrite andb_true_r. intros Hab.
      apply andb_prop in Hab as [Ha Hb].
      rewrite (upper_ascii_pair a b st Ha Hb). reflexivity.
  - destruct st as [|a [|b st]]; try discriminate.
    intros Hl. apply andb_prop in Hl as [Ha Hb].
    rewrite (upper_ascii_pair a b st (letter_ascii a Ha) (letter_ascii b Hb)).
    cbn [Str.two_uppercase_letters].
    rewrite !upper_ascii_letter by assumption. reflexivity.
Qed.

Lemma state_is_upper_prefix_witness :
  to_address_of_row Demo.row_ann = Ok Demo.address_ann
  /\ exists st,
       fields Demo.row_ann !! "State" = Some (Some st)
       /\ ta_state Demo.address_ann = Str.upper (Str.slice_to 2 st)
       /\ (Str.is_ascii (substring 0 2 st) = true ->
           String.length (ta_state Demo.address_ann) = Nat.min 2 (String.length st))
       /\ (Str.starts_with_two_letters st = true ->
           Str.two_uppercase_letters (ta_state Demo.address_ann) = true)
       /\ ta_verify_strict Demo.address_ann = ["delivery"].
Proof.
  split; [vm_compute; reflexivity|].
  apply (state_is_upper_prefix Demo.row_ann Demo.address_ann).
  vm_compute; reflexivity.
Defined.

(** ** The row source (lines 18-22) *)

Lemma iterate_csv_world (env : Env) (csv_path : string) (w : World) :
  (iterate_csv env csv_path w).2 = w.
Proof.
  unfold iterate_csv. destruct (fs w !! csv_path) as [f|]; [|reflexivity].
  destruct (read_records env f); reflexivity.
Qed.

(** A loop over the input runs its body for all the rows of a readable file;
    when the reader stops with an error, for the rows read before it, and
    the error is raised after them. *)
Lemma for_rows_eq (env : Env) {L : Type} (body : nat -> Row -> L -> M L)
    (csv_path : string) (s : L) (w : World) :
  for_rows env body csv_path s w
  = match (iterate_csv env csv_path w).1 with
    | Ok rows => for_each body rows s w
    | Raise e => (for_each body (rows_read env csv_path w) s;; raise e) w
    end.
Proof.
  unfold for_rows, iterate_csv, rows_read, read_records.
  destruct (fs w !! csv_path) as [f|]; [|reflexivity].
  destruct (read_stream env f) as [records [e|]]; reflexivity.
Qed.

(** Whether the reader fails or not, the effects of a loop over the input
    are those of its body on the rows read. *)
Lemma for_rows_world (env : Env) {L : Type} (body : nat -> Row -> L -> M L)
    (csv_path : string) (s : L) (w : World) :
  (for_rows env body csv_path s w).2 = (for_each body (rows_read env csv_path w) s w).2.
Proof.
  unfold for_rows, rows_read.
  destruct (fs w !! csv_path) as [f|]; [|reflexivity].
  destruct (read_stream env f) as [records [e|]]; [|reflexivity].
  unfold bind, raise. cbn [fst].
  destruct (for_each body (DictReader records) s w) as [[s1|e1] w1]; reflexivity.
Qed.

Lemma for_rows_ok (env : Env) {L : Type} (body : nat -> Row -> L -> M L)
    (csv_path : string) (s : L) (w : World) (rows : list Row) :
  (iterate_csv env csv_path w).1 = Ok rows ->
  for_rows env body csv_path s w = for_each body rows s w.
Proof. intros Hrows. rewrite for_rows_eq, Hrows. reflexivity. Qed.

(** A loop over the input that completes has read the whole file. *)
Lemma for_rows_done (env : Env) {L : Type} (body : nat -> Row -> L -> M L)
    (csv_path : string) (s s' : L) (w w' : World) :
  for_rows env body csv_path s w = (Ok s', w') ->
  exists rows,
    (iterate_csv env csv_path w).1 = Ok rows
    /\ for_each body rows s w = (Ok s', w').
Proof.
  rewrite for_rows_eq. destruct (iterate_csv env csv_path w).1 as [rows|e].
  - intros H. exists rows. auto.
  - unfold bind, raise. destruct (for_each body _ s w) as [[s1|e1] w1]; discriminate.
Qed.

Lemma iterate_csv_same_file (env : Env) (csv_path : string) (w w' : World) :
  fs w' !! csv_path = fs w !! csv_path ->
  (iterate_csv env csv_path w).1 = (iterate_csv env csv_path w').1.
Proof.
  intros Hfile. unfold iterate_csv. rewrite Hfile.
  destruct (fs w !! csv_path) as [f|]; [|reflexivity].
  destruct (read_records env f); reflexivity.
Qed.

(** C9: reading the rows leaves the world as it was, and two readings of a
    file that holds the same content give the same rows in the same order
    (or fail alike). *)
Theorem iterate_csv_twice (env : Env) (csv_path : string) (w w' : World) :
  fs w' !! csv_path = fs w !! csv_path ->
  (iterate_csv env csv_path w).1 = (iterate_csv env csv_path w').1
  /\ (iterate_csv env csv_path w).2 = w
  /\ iterate_csv env csv_path (iterate_csv env csv_path w).2 = iterate_csv env csv_path w.
Proof.
  intros Hfile. split; [apply iterate_csv_same_file; exact Hfile|].
  rewrite iterate_csv_world. split; reflexivity.
Qed.

Lemma iterate_csv_twice_witness :
  fs (add_stdout "later" Demo.w0) !! "in.csv" = fs Demo.w0 !! "in.csv"
  /\ (iterate_csv Demo.env_ok "in.csv" Demo.w0).1
     = (iterate_csv Demo.env_ok "in.csv" (add_stdout "later" Demo.w0)).1
  /\ (iterate_csv Demo.env_ok "in.csv" Demo.w0).2 = Demo.w0
  /\ iterate_csv Demo.env_ok "in.csv" (iterate_csv Demo.env_ok "in.csv" Demo.w0).2
     = iterate_csv Demo.env_ok "in.csv" Demo.w0.
Proof.
  split; [reflexivity|].
  apply (iterate_csv_twice Demo.env_ok "in.csv" Demo.w0 (add_stdout "later" Demo.w0)).
  reflexivity.
Defined.

(** ** The report of an empty batch (lines 126-141) *)

Lemma iterate_csv_after_open (env : Env) (csv_path : string) (w : World) :
  (iterate_csv env csv_path w).1 = Ok [] ->
  iterate_csv env csv_path (set_fs (<[results_path := Sheet []]> (fs w)) w)
  = (Ok [], set_fs (<[results_path := Sheet []]> (fs w)) w).
Proof.
  intros Hrows. unfold iterate_csv in *. cbn [fs set_fs].
  destruct (decide (csv_path = results_path)) as [->|Hne].
  - rewrite lookup_insert_eq. reflexivity.
  - rewrite lookup_insert_ne by congruence.
    destruct (fs w !! csv_path) as [f|]; [|discriminate Hrows].
    destruct (read_records env f); cbn in Hrows; [|discriminate Hrows].
    inversion Hrows as [Hr]. rewrite Hr. reflexivity.
Qed.

(** C10: when the input has no data row and the report file can be opened,
    [write_results] returns normally and leaves
    [results/compiled_results.csv] created or truncated and empty: no header
    and no data row is written, whatever the file held before. *)
Theorem write_results_no_rows (env : Env) (shipments : list nat) (csv_path : string)
    (w : World) :
  open_write env results_path = None ->
  (iterate_csv env csv_path w).1 = Ok [] ->
  write_results env shipments csv_path w
  = (Ok tt, add_stdout "Writing CSV results to "
              (mkWorld (heap w) (<[results_path := Sheet []]> (fs w)) (stdout w) (events w)))
  /\ fs (write_results env shipments csv_path w).2 !! results_path = Some (Sheet []).
Proof.
  intros Hopen Hrows.
  assert (H : write_results env shipments csv_path w
              = (Ok tt, add_stdout "Writing CSV results to "
                   (mkWorld (heap w) (<[results_path := Sheet []]> (fs w))
                            (stdout w) (events w)))).
  { unfold write_results, bind, print, open_w. rewrite Hopen.
    pose proof (iterate_csv_after_open env csv_path (add_stdout "Writing CSV results to " w)) as Hread.
    cbn [fs add_stdout] in Hread.
    assert (Hrows' : (iterate_csv env csv_path (add_stdout "Writing CSV results to " w)).1 = Ok []).
    { rewrite <- Hrows. symmetry. apply iterate_csv_same_file. reflexivity. }
    specialize (Hread Hrows'). unfold set_fs in *. cbn [heap fs stdout events add_stdout] in *.
    erewrite for_rows_ok by exact (f_equal fst Hread). reflexivity. }
  split; [exact H|]. rewrite H. cbn. apply lookup_insert_eq.
Qed.

Lemma write_results_no_rows_witness :
  open_write Demo.env_ok results_path = None
  /\ (iterate_csv Demo.env_ok "in.csv" Demo.w_empty).1 = Ok []
  /\ fs (write_results Demo.env_ok [] "in.csv" Demo.w_empty).2 !! results_path
     = Some (Sheet []).
Proof.
  split; [reflexivity|]. split; [reflexivity|].
  apply (write_results_no_rows Demo.env_ok [] "in.csv" Demo.w_empty); reflexivity.
Defined.

(** ** The input-file check of [run] (lines 144-157) *)

(** C6, as stated, fails.  With a missing input file the carrier has already
    been asked for the origin address and for the parcel when the path is
    checked; and when the origin address does not resolve, the run fails with
    that error and the path is not checked at all. *)
Lemma path_checked_after_carrier_calls :
  run Demo.env_ok "adr_1" "pcl_1" "missing.csv" Demo.w0
  = (Raise (Exn StandardError "csv-path does not exist"),
     mkWorld [] (fs Demo.w0) []
             [EvAddressRetrieve "adr_1"; EvParcelRetrieve "pcl_1";
              EvPathExists "missing.csv"])
  /\ run Demo.env_ok "adr_missing" "pcl_1" "missing.csv" Demo.w0
     = (Raise (Exn StandardError "Error requesting from_address_id: address not found"),
        mkWorld [] (fs Demo.w0) [] [EvAddressRetrieve "adr_missing"]).
Proof. split; vm_compute; reflexivity. Qed.

(** C6, amended: when the origin address and the parcel resolve and the input
    path does not exist, the run fails with the input-not-found error; the
    path is checked once, after the two resolutions and before any shipment
    is created, bought or refunded, and nothing else changes. *)
Theorem run_missing_input (env : Env) (from_address_id parcel_id csv_path : string)
    (w : World) (address parcel : string) :
  address_retrieve env from_address_id = Ok address ->
  parcel_retrieve env parcel_id = Ok parcel ->
  fs w !! csv_path = None ->
  run env from_address_id parcel_id csv_path w
  = (Raise (Exn StandardError "csv-path does not exist"),
     mkWorld (heap w) (fs w) (stdout w)
             (events w ++ [EvAddressRetrieve from_address_id;
                           EvParcelRetrieve parcel_id;
                           EvPathExists csv_path])).
Proof.
  intros Ha Hp Hfile.
  unfold run, bind, try_except, Address_retrieve, Parcel_retrieve, os_path_exists,
    bind, emit, lift.
  rewrite Ha, Hp. cbn [fs add_event]. rewrite Hfile.
  rewrite bool_decide_eq_false_2 by (intros [? ?]; discriminate).
  cbn. unfold raise, add_event. cbn. rewrite <- !app_assoc. reflexivity.
Qed.

Lemma run_missing_input_witness :
  address_retrieve Demo.env_ok "adr_1" = Ok "address adr_1"
  /\ parcel_retrieve Demo.env_ok "pcl_1" = Ok "parcel pcl_1"
  /\ fs Demo.w0 !! "missing.csv" = None
  /\ run Demo.env_ok "adr_1" "pcl_1" "missing.csv" Demo.w0
     = (Raise (Exn StandardError "csv-path does not exist"),
        mkWorld (heap Demo.w0) (fs Demo.w0) (stdout Demo.w0)
                (events Demo.w0 ++ [EvAddressRetrieve "adr_1";
                                    EvParcelRetrieve "pcl_1";
                                    EvPathExists "missing.csv"])).
Proof.
  split; [reflexivity|]. split; [reflexivity|]. split; [reflexivity|].
  apply (run_missing_input Demo.env_ok "adr_1" "pcl_1" "missing.csv" Demo.w0
           "address adr_1" "parcel pcl_1"); reflexivity.
Defined.

(** ** Loops *)

Section Loops.

Context {X L : Type}.
Variable body : nat -> X -> L -> M L.

Lemma for_enum_app (xs ys : list X) (index : nat) (s : L) (w : World) :
  for_enum body index (xs ++ ys) s w =
  match for_enum body index xs s w with
  | (LoopDone s', w') => for_enum body (index + length xs) ys s' w'
  | (LoopRaised k x e, w') => (LoopRaised k x e, w')
  end.
Proof.
  revert index s w. induction xs as [|x xs IH]; intros index s w; cbn.
  - rewrite Nat.add_0_r. reflexivity.
  - destruct (body index x s w) as [[s'|e] w']; [|reflexivity].
    rewrite IH. replace (S index + length xs) with (index + S (length xs)) by lia.
    reflexivity.
Qed.

(** A relation between the worlds before and after that every iteration
    keeps is kept by the loop. *)
Lemma for_enum_preserves (R : World -> World -> Prop) :
  (forall w, R w w) ->
  (forall w1 w2 w3, R w1 w2 -> R w2 w3 -> R w1 w3) ->
  (forall index x s w, R w (body index x s w).2) ->
  forall xs index s w, R w (for_enum body index xs s w).2.
Proof.
  intros Hrefl Htrans Hbody. induction xs as [|x xs IH]; intros index s w; cbn.
  - apply Hrefl.
  - specialize (Hbody index x s w).
    destruct (body index x s w) as [[s'|e] w']; cbn in *.
    + eapply Htrans; [exact Hbody | apply IH].
    + exact Hbody.
Qed.

(** Where a loop stops: at a position of the list, on the element there. *)
Lemma for_enum_raised (xs : list X) (index : nat) (s : L) (w w' : World)
    (k : nat) (x : X) (e : exn) :
  for_enum body index xs s w = (LoopRaised k x e, w') ->
  exists j, k = index + j /\ xs !! j = Some x.
Proof.
  revert index s w. induction xs as [|y xs IH]; intros index s w H; cbn in H.
  - discriminate H.
  - destruct (body index y s w) as [[s'|e'] w1].
    + destruct (IH _ _ _ H) as (j & -> & Hj). exists (S j). split; [lia | exact Hj].
    + inversion H; subst. exists 0. split; [lia | reflexivity].
Qed.

End Loops.

(** ** The refund sweep (lines 32-40) *)

(** One iteration, spelled out: it never raises, asks the carrier once, and
    prints a second line exactly when the carrier refuses. *)
Lemma refund_one_eq (env : Env) (index ref : nat) (w : World) :
  refund_one env index ref tt w =
  let shipment := default blank_shipment (heap w !! ref) in
  let w1 := add_event (EvRefund ref)
              (add_stdout ("Refunding purchased postage: "
                             +:+ str_cell (tracking_code shipment)) w) in
  match shipment_refund env ref shipment with
  | None =>
      (Ok tt,
       set_heap (<[ref := mkShipment (shipment_id shipment) (request shipment)
                             (to_address_name shipment) (tracking_code shipment)
                             (label_url shipment) Refunded]> (heap w1)) w1)
  | Some _ =>
      (Ok tt, add_stdout ("Error refunding postage for: " +:+ shipment_str env shipment) w1)
  end.
Proof.
  unfold refund_one, try_except, bind, deref, print, Shipment_refund, bind, emit, deref.
  cbn. destruct (shipment_refund env ref _); reflexivity.
Qed.

Lemma refund_one_ok (env : Env) (index ref : nat) (w : World) :
  (refund_one env index ref tt w).1 = Ok tt.
Proof.
  rewrite refund_one_eq. cbn. destruct (shipment_refund env ref _); reflexivity.
Qed.

Lemma refund_one_events (env : Env) (index ref : nat) (w : World) :
  events (refund_one env index ref tt w).2 = events w ++ [EvRefund ref].
Proof.
  rewrite refund_one_eq. cbn. destruct (shipment_refund env ref _); reflexivity.
Qed.

Lemma refund_one_fs (env : Env) (index ref : nat) (w : World) :
  fs (refund_one env index ref tt w).2 = fs w.
Proof.
  rewrite refund_one_eq. cbn. destruct (shipment_refund env ref _); reflexivity.
Qed.

Lemma refund_one_stdout (env : Env) (index ref : nat) (w : World) :
  stdout w `prefix_of` stdout (refund_one env index ref tt w).2.
Proof.
  rewrite refund_one_eq. cbn. destruct (shipment_refund env ref _); cbn.
  - rewrite <- app_assoc. apply prefix_app_r. reflexivity.
  - apply prefix_app_r. reflexivity.
Qed.

Lemma refund_loop (env : Env) (refs : list nat) (index : nat) (w : World) :
  exists w',
    for_enum (refund_one env) index refs tt w = (LoopDone tt, w')
    /\ events w' = events w ++ (EvRefund <$> refs)
    /\ fs w' = fs w
    /\ stdout w `prefix_of` stdout w'.
Proof.
  revert index w. induction refs as [|ref refs IH]; intros index w; cbn.
  - exists w. rewrite app_nil_r. repeat split; reflexivity.
  - pose proof (refund_one_ok env index ref w) as Hok.
    pose proof (refund_one_events env index ref w) as Hev.
    pose proof (refund_one_fs env index ref w) as Hfs.
    pose proof (refund_one_stdout env index ref w) as Hout.
    destruct (refund_one env index ref tt w) as [[[]|e] w1]; cbn in *; [|discriminate Hok].
    destruct (IH (S index) w1) as (w' & Hloop & Hev' & Hfs' & Hout').
    exists w'. rewrite Hloop, Hev', Hev, Hfs', Hfs, <- app_assoc.
    repeat split; try reflexivity. etransitivity; eassumption.
Qed.

Lemma refund_postage_ok (env : Env) (shipments : list nat) (w : World) :
  exists w',
    refund_postage env shipments w = (Ok tt, w')
    /\ events w' = events w ++ (EvRefund <$> shipments)
    /\ fs w' = fs w
    /\ stdout w `prefix_of` stdout w'.
Proof.
  destruct (refund_loop env shipments 0 w) as (w' & Hloop & H).
  exists w'. unfold refund_postage, for_each. rewrite Hloop. auto.
Qed.

(** C5: the refund sweep never raises; it asks the carrier for a refund once
    for every shipment of the sequence, in order, whatever the carrier
    answers; and when the carrier refuses the refund of the shipment at
    index [j], that failure is printed. *)
Theorem refund_sweep_total (env : Env) (shipments : list nat) (w : World) :
  exists w',
    refund_postage env shipments w = (Ok tt, w')
    /\ events w' = events w ++ (EvRefund <$> shipments)
    /\ forall j ref wj shipment e,
         shipments !! j = Some ref ->
         refund_postage env (take j shipments) w = (Ok tt, wj) ->
         shipment = default blank_shipment (heap wj !! ref) ->
         shipment_refund env ref shipment = Some e ->
         ("Error refunding postage for: " +:+ shipment_str env shipment) ∈ stdout w'.
Proof.
  destruct (refund_postage_ok env shipments w) as (w' & Hrun & Hev & _ & _).
  exists w'. split; [exact Hrun|]. split; [exact Hev|].
  intros j ref wj shipment e Hj Hwj -> Hfail.
  unfold refund_postage, for_each in Hrun, Hwj.
  rewrite <- (take_drop_middle shipments j ref Hj), for_enum_app in Hrun.
  destruct (for_enum (refund_one env) 0 (take j shipments) tt w) as [[[]|k x e'] w1];
    [|discriminate Hwj].
  inversion Hwj; subst w1. cbn [for_enum] in Hrun.
  pose proof (refund_one_eq env (0 + length (take j shipments)) ref wj) as Hone.
  cbn zeta in Hone. rewrite Hfail in Hone. rewrite Hone in Hrun.
  match type of Hrun with
  | context [for_enum _ ?i ?refs tt ?w2] =>
      destruct (refund_loop env refs i w2) as (w'' & Hloop & _ & _ & Hout)
  end.
  rewrite Hloop in Hrun. inversion Hrun; subst w''.
  eapply elem_of_prefix; [|exact Hout].
  cbn. apply elem_of_app. right. apply list_elem_of_singleton. reflexivity.
Qed.

Lemma refund_sweep_total_witness :
  exists w',
    refund_postage Demo.env_fail1 [0; 1; 2] Demo.w_declined = (Ok tt, w')
    /\ events w' = events Demo.w_declined ++ [EvRefund 0; EvRefund 1; EvRefund 2]
    /\ "Error refunding postage for: shp_1" ∈ stdout w'.
Proof.
  destruct (refund_sweep_total Demo.env_fail1 [0; 1; 2] Demo.w_declined)
    as (w' & Hrun & Hev & Hlog).
  exists w'. split; [exact Hrun|]. split; [exact Hev|].
  assert (Hline : "Error refunding postage for: shp_1"
                  = "Error refunding postage for: "
                    +:+ shipment_str Demo.env_fail1
                          (default blank_shipment
                             (heap (refund_postage Demo.env_fail1 [0] Demo.w_declined).2 !! 1)))
    by (vm_compute; reflexivity).
  rewrite Hline.
  apply (Hlog 1 1 (refund_postage Demo.env_fail1 [0] Demo.w_declined).2
              (default blank_shipment
                 (heap (refund_postage Demo.env_fail1 [0] Demo.w_declined).2 !! 1))
              (Exn EasyPostError "not refundable")).
  - reflexivity.
  - vm_compute; reflexivity.
  - reflexivity.
  - vm_compute; reflexivity.
Defined.

(** ** The purchase stage (lines 63-83) *)

(** Case analysis on the innermost answer the goal still branches on. *)
Ltac destruct_match :=
  match goal with
  | |- context [match ?x with _ => _ end] =>
      lazymatch x with
      | context [match _ with _ => _ end] => fail
      | _ => destruct x eqn:?
      end
  end.

(** One iteration asks the carrier to buy at most once, and exactly once
    when it completes. *)
Lemma purchase_one_events (env : Env) (index ref : nat) (w : World) :
  exists evs,
    events (purchase_one env index ref tt w).2 = events w ++ evs
    /\ match (purchase_one env index ref tt w).1 with
       | Ok _ => buys_of evs = [ref]
       | Raise _ => buys_of evs = [] \/ buys_of evs = [ref]
       end.
Proof.
  unfold purchase_one, bind, deref, print, lift, Shipment_buy, bind, emit, deref,
    urllib_urlopen, bind, emit, lift, open_wb, write, postage_label_url.
  cbn.
  repeat (destruct_match; cbn);
    first [ exists []; rewrite app_nil_r; split; [reflexivity | auto]
          | exists [EvBuy ref]; split; [reflexivity | auto]
          | eexists [EvBuy ref; EvUrlopen _]; rewrite <- app_assoc;
            split; [reflexivity | auto] ].
Qed.

Lemma purchase_loop_events (env : Env) (refs : list nat) (index : nat) (w : World) :
  exists evs,
    events (for_enum (purchase_one env) index refs tt w).2 = events w ++ evs
    /\ match (for_enum (purchase_one env) index refs tt w).1 with
       | LoopDone _ => buys_of evs = refs
       | LoopRaised k _ _ =>
           buys_of evs = take (k - index) refs
           \/ buys_of evs = take (S (k - index)) refs
       end.
Proof.
  revert index w. induction refs as [|ref refs IH]; intros index w; cbn [for_enum].
  - exists []. rewrite app_nil_r. split; reflexivity.
  - destruct (purchase_one_events env index ref w) as (evs1 & Hev1 & Hb1).
    destruct (purchase_one env index ref tt w) as [[[]|e] w1]; cbn [fst snd] in *.
    + destruct (IH (S index) w1) as (evs2 & Hev2 & Hb2).
      pose proof (for_enum_raised (purchase_one env) refs (S index) tt w1) as Hpos.
      destruct (for_enum (purchase_one env) (S index) refs tt w1) as [[[]|k x e] w2];
        cbn [fst snd] in *.
      * exists (evs1 ++ evs2). rewrite Hev2, Hev1, <- app_assoc.
        split; [reflexivity|]. unfold buys_of in *. rewrite omap_app, Hb1, Hb2. reflexivity.
      * destruct (Hpos w2 k x e eq_refl) as (j & -> & _).
        exists (evs1 ++ evs2). rewrite Hev2, Hev1, <- app_assoc.
        split; [reflexivity|]. unfold buys_of in *. rewrite omap_app, Hb1.
        replace (S index + j - S index) with j in Hb2 by lia.
        replace (S index + j - index) with (S j) by lia.
        cbn. destruct Hb2 as [-> | ->]; [left | right]; reflexivity.
    + exists evs1. split; [exact Hev1|]. rewrite Nat.sub_diag. cbn.
      destruct Hb1 as [-> | ->]; [left | right]; reflexivity.
Qed.

(** The handler of lines 80-83: an [Exception] of the loop is printed, the
    whole list is handed to [refund_postage], and the function returns
    normally. *)
Lemma purchase_postage_handler (env : Env) (shipments : list nat) (w w1 : World)
    (k ref : nat) (e : exn) :
  for_enum (purchase_one env) 0 shipments tt w = (LoopRaised k ref e, w1) ->
  is_Exception e = true ->
  exists w2,
    purchase_postage env shipments w = (Ok tt, w2)
    /\ events w2 = events w1 ++ (EvRefund <$> shipments)
    /\ fs w2 = fs w1.
Proof.
  intros Hloop Hexn. unfold purchase_postage. rewrite Hloop, Hexn.
  unfold bind, deref, print. cbn.
  match goal with
  | |- context [refund_postage env shipments ?w'] =>
      destruct (refund_postage_ok env shipments w') as (w2 & Hrun & Hev & Hfs & _)
  end.
  exists w2. rewrite Hrun. cbn in Hev, Hfs. auto.
Qed.

(** C1, as stated, fails.  In the batch of three where the second purchase is
    declined, the loop stops at index 1, yet a refund is also requested for
    the shipments at indices 1 and 2, and the run goes on to write notes and a
    merged document. *)
Lemma purchase_failure_refunds_whole_list :
  (for_enum (purchase_one Demo.env_fail1) 0 [0; 1; 2] tt Demo.w_created).1
  = LoopRaised 1 1 Demo.payment_failed
  /\ generate_shipments Demo.env_fail1 "address adr_1" "parcel pcl_1" "in.csv" Demo.w0
     = (Ok [0; 1; 2], Demo.w_created)
  /\ refunds_of (events (purchase_postage Demo.env_fail1 [0; 1; 2] Demo.w_created).2)
     = [0; 1; 2]
  /\ is_Some (fs (run Demo.env_fail1 "adr_1" "pcl_1" "in.csv" Demo.w0).2
                !! "notes/ROW_000_TRK0_NOTE.pdf")
  /\ is_Some (fs (run Demo.env_fail1 "adr_1" "pcl_1" "in.csv" Demo.w0).2
                !! "notes/ROW_002_None_NOTE.pdf")
  /\ is_Some (fs (run Demo.env_fail1 "adr_1" "pcl_1" "in.csv" Demo.w0).2
                !! "results/ROW_000_TRK0_LABEL_AND_NOTE.pdf").
Proof.
  repeat split; try (vm_compute; reflexivity); vm_compute; eexists; reflexivity.
Qed.

(** C1, amended: when the purchase loop stops with an [Exception] at index
    [k], the carrier was asked to buy the shipments at indices [0, k), and
    possibly the one at [k], and none after it; [purchase_postage] then hands
    the whole sequence to the refund sweep, which requests a refund once for
    every index in [0, N), in order, and returns normally. *)
Theorem purchase_failure_refund_sweep (env : Env) (shipments : list nat) (w w1 : World)
    (k ref : nat) (e : exn) :
  for_enum (purchase_one env) 0 shipments tt w = (LoopRaised k ref e, w1) ->
  is_Exception e = true ->
  k < length shipments
  /\ shipments !! k = Some ref
  /\ (exists evs, events w1 = events w ++ evs
                  /\ (buys_of evs = take k shipments
                      \/ buys_of evs = take k shipments ++ [ref]))
  /\ exists w2,
       purchase_postage env shipments w = (Ok tt, w2)
       /\ events w2 = events w1 ++ (EvRefund <$> shipments).
Proof.
  intros Hloop Hexn.
  destruct (for_enum_raised _ _ _ _ _ _ _ _ _ Hloop) as (j & Hk & Hj).
  cbn in Hk. subst j.
  split; [eapply lookup_lt_Some; exact Hj|]. split; [exact Hj|]. split.
  - destruct (purchase_loop_events env shipments 0 w) as (evs & Hev & Hb).
    rewrite Hloop in Hev, Hb. cbn in Hev, Hb. rewrite Nat.sub_0_r in Hb.
    exists evs. split; [exact Hev|].
    destruct Hb as [Hb | Hb]; [left; exact Hb | right].
    rewrite Hb. apply take_S_r. exact Hj.
  - destruct (purchase_postage_handler env shipments w w1 k ref e Hloop Hexn)
      as (w2 & Hrun & Hev & _).
    exists w2. auto.
Qed.

Lemma purchase_failure_refund_sweep_witness :
  for_enum (purchase_one Demo.env_fail1) 0 [0; 1; 2] tt Demo.w_created
  = (LoopRaised 1 1 Demo.payment_failed, Demo.w_declined)
  /\ is_Exception Demo.payment_failed = true
  /\ 1 < length [0; 1; 2]
  /\ [0; 1; 2] !! 1 = Some 1
  /\ (exists evs, events Demo.w_declined = events Demo.w_created ++ evs
                  /\ (buys_of evs = take 1 [0; 1; 2]
                      \/ buys_of evs = take 1 [0; 1; 2] ++ [1]))
  /\ exists w2,
       purchase_postage Demo.env_fail1 [0; 1; 2] Demo.w_created = (Ok tt, w2)
       /\ events w2 = events Demo.w_declined ++ (EvRefund <$> [0; 1; 2]).
Proof.
  split; [vm_compute; reflexivity|]. split; [reflexivity|].
  apply (purchase_failure_refund_sweep Demo.env_fail1 [0; 1; 2] Demo.w_created
           Demo.w_declined 1 1 Demo.payment_failed).
  - vm_compute; reflexivity.
  - reflexivity.
Defined.

(** C2: the purchase stage does not report its failure.  In the batch of
    three where the second purchase is declined, [purchase_postage] returns
    normally, [run] goes on with the notes and the merge (which then fails on
    the missing label and starts a second refund sweep), and [run] itself
    returns normally: the caller sees no failure, only the printed lines. *)
Theorem purchase_failure_not_reported :
  (for_enum (purchase_one Demo.env_fail1) 0 [0; 1; 2] tt Demo.w_created).1
  = LoopRaised 1 1 Demo.payment_failed
  /\ (purchase_postage Demo.env_fail1 [0; 1; 2] Demo.w_created).1 = Ok tt
  /\ (run Demo.env_fail1 "adr_1" "pcl_1" "in.csv" Demo.w0).1 = Ok tt
  /\ stdout (run Demo.env_fail1 "adr_1" "pcl_1" "in.csv" Demo.w0).2
     = ["Creating shipment to: Ann"; "Creating shipment to: Bob";
        "Creating shipment to: Cy";
        "Purchasing postage to: Ann"; "Downloading label https://label/0";
        "Purchasing postage to: Bob";
        "Error purchasing postage for shp_1: payment failed";
        "Refunding purchased postage: TRK0";
        "Refunding purchased postage: None"; "Error refunding postage for: shp_1";
        "Refunding purchased postage: None"; "Error refunding postage for: shp_2";
        "Generating note for: Ann"; "Generating note for: Bob"; "Generating note for: Cy";
        "Merging label and note for: Ann"; "Merging label and note for: Bob";
        "Failure: CalledProcessError";
        "Refunding purchased postage: TRK0"; "Error refunding postage for: shp_0";
        "Refunding purchased postage: None"; "Error refunding postage for: shp_1";
        "Refunding purchased postage: None"; "Error refunding postage for: shp_2"]
  /\ refunds_of (events (run Demo.env_fail1 "adr_1" "pcl_1" "in.csv" Demo.w0).2)
     = [0; 1; 2; 0; 1; 2].
Proof. repeat split; vm_compute; reflexivity. Qed.

(** ** What the stages leave untouched *)

Lemma artifact_label_path (index : nat) (shipment : Shipment) :
  artifact_path (label_path index shipment) = true.
Proof. reflexivity. Qed.

Lemma artifact_note_path (index : nat) (shipment : Shipment) :
  artifact_path (note_path index shipment) = true.
Proof. reflexivity. Qed.

Lemma artifact_label_note_path (index : nat) (shipment : Shipment) :
  artifact_path (label_note_path index shipment) = true.
Proof. reflexivity. Qed.

Lemma artifact_results_path : artifact_path results_path = false.
Proof. reflexivity. Qed.

Lemma keeps_refl (w : World) : keeps w w.
Proof. split; reflexivity. Qed.

Lemma keeps_trans (w1 w2 w3 : World) : keeps w1 w2 -> keeps w2 w3 -> keeps w1 w3.
Proof.
  intros [Hh Hf] [Hh' Hf']. split.
  - rewrite Hh'. exact Hh.
  - intros path Hp. rewrite Hf' by exact Hp. apply Hf. exact Hp.
Qed.

(** Updating an object in place without touching its request. *)
Lemma request_insert (h : list Shipment) (ref : nat) (s : Shipment) :
  request s = request (default blank_shipment (h !! ref)) ->
  request <$> <[ref := s]> h = request <$> h.
Proof.
  intros Hreq. destruct (h !! ref) as [s0|] eqn:Href; cbn in Hreq.
  - rewrite list_fmap_insert, Hreq. apply list_insert_id.
    rewrite list_lookup_fmap, Href. reflexivity.
  - rewrite list_insert_ge; [reflexivity|]. apply lookup_ge_None. exact Href.
Qed.

Lemma lookup_insert_artifact (files : gmap string File) (path out : string) (f : File) :
  artifact_path out = true -> artifact_path path = false ->
  <[out := f]> files !! path = files !! path.
Proof.
  intros Hout Hpath. apply lookup_insert_ne. intros ->. congruence.
Qed.

Ltac keeps_leaf :=
  split; cbn [heap fs set_heap set_fs add_stdout add_event];
  [ rewrite ?request_insert by reflexivity; reflexivity
  | intros ? ?;
    rewrite ?lookup_insert_artifact
      by (assumption || apply artifact_label_path || apply artifact_note_path
          || apply artifact_label_note_path);
    reflexivity ].

Lemma refund_one_keeps (env : Env) (index ref : nat) (u : unit) (w : World) :
  keeps w (refund_one env index ref u w).2.
Proof.
  destruct u. rewrite refund_one_eq. cbn zeta.
  destruct (shipment_refund env ref _); cbn [snd]; keeps_leaf.
Qed.

Lemma purchase_one_keeps (env : Env) (index ref : nat) (u : unit) (w : World) :
  keeps w (purchase_one env index ref u w).2.
Proof.
  unfold purchase_one, bind, deref, print, lift, Shipment_buy, bind, emit, deref,
    urllib_urlopen, bind, emit, lift, open_wb, write, postage_label_url.
  cbn.
  repeat (destruct_match; cbn [snd]); keeps_leaf.
Qed.

Lemma note_one_keeps (env : Env) (shipments : list nat) (index : nat) (row : Row)
    (u : unit) (w : World) :
  keeps w (note_one env shipments index row u w).2.
Proof.
  unfold note_one, bind, deref, print, lift, drawString, raise, ret, open_wb, write,
    list_getitem, getitem.
  cbn.
  repeat (destruct_match; cbn [snd]); keeps_leaf.
Qed.

Lemma merge_one_keeps (env : Env) (index ref : nat) (u : unit) (w : World) :
  keeps w (merge_one env index ref u w).2.
Proof.
  unfold merge_one, bind, deref, print, check_output_pdfjam, bind, emit.
  cbn.
  repeat (destruct_match; cbn [snd]); keeps_leaf.
Qed.

Lemma for_each_keeps {X L : Type} (body : nat -> X -> L -> M L) (xs : list X) (s : L)
    (w : World) :
  (forall index x s w, keeps w (body index x s w).2) ->
  keeps w (for_each body xs s w).2.
Proof.
  intros Hbody. unfold for_each.
  pose proof (for_enum_preserves body keeps keeps_refl keeps_trans Hbody xs 0 s w) as H.
  destruct (for_enum body 0 xs s w) as [[s'|k x e] w']; exact H.
Qed.

Lemma refund_postage_keeps (env : Env) (shipments : list nat) (w : World) :
  keeps w (refund_postage env shipments w).2.
Proof. apply for_each_keeps. apply refund_one_keeps. Qed.

Lemma purchase_postage_keeps (env : Env) (shipments : list nat) (w : World) :
  keeps w (purchase_postage env shipments w).2.
Proof.
  unfold purchase_postage.
  pose proof (for_enum_preserves (purchase_one env) keeps keeps_refl keeps_trans
                (purchase_one_keeps env) shipments 0 tt w) as H.
  destruct (for_enum (purchase_one env) 0 shipments tt w) as [[[]|k ref e] w1];
    cbn [snd] in *; [exact H|].
  destruct (is_Exception e); [|exact H].
  eapply keeps_trans; [exact H|].
  unfold bind, deref, print. cbn.
  match goal with
  | |- keeps _ (refund_postage env shipments ?w').2 =>
      eapply keeps_trans; [|apply (refund_postage_keeps env shipments w')]
  end.
  keeps_leaf.
Qed.

Lemma generate_notes_keeps (env : Env) (shipments : list nat) (csv_path : string)
    (w : World) :
  keeps w (generate_notes env shipments csv_path w).2.
Proof.
  unfold generate_notes. rewrite for_rows_world.
  apply for_each_keeps. apply note_one_keeps.
Qed.

Lemma merge_labels_and_notes_keeps (env : Env) (shipments : list nat) (w : World) :
  keeps w (merge_labels_and_notes env shipments w).2.
Proof. apply for_each_keeps. apply merge_one_keeps. Qed.

(** ** Shipment creation (lines 43-60) *)

Lemma create_one_spec (env : Env) (address parcel : string) (index : nat) (row : Row)
    (acc res : list nat) (w w' : World) :
  create_one env address parcel index row acc w = (Ok res, w') ->
  exists shipment,
    heap w' = heap w ++ [shipment]
    /\ res = acc ++ [length (heap w)]
    /\ fs w' = fs w
    /\ created_from address parcel row shipment.
Proof.
  unfold create_one, bind, lift, print, Shipment_create, bind, emit, ret.
  destruct (getitem row "SendTo") as [name|e]; [|discriminate].
  destruct (to_address_of_row row) as [to_address|e] eqn:Hto; [|discriminate].
  cbn. destruct (shipment_create env _ _) as [[sid name']|e]; [|discriminate].
  intros H. inversion H; subst. eexists. cbn.
  split; [reflexivity|]. split; [reflexivity|]. split; [reflexivity|].
  exists to_address. split; [exact Hto | reflexivity].
Qed.

Lemma create_loop (env : Env) (address parcel : string) (rows : list Row) (index : nat)
    (acc res : list nat) (w w' : World) :
  for_enum (create_one env address parcel) index rows acc w = (LoopDone res, w') ->
  exists created,
    heap w' = heap w ++ created
    /\ res = acc ++ seq (length (heap w)) (length rows)
    /\ fs w' = fs w
    /\ Forall2 (created_from address parcel) rows created.
Proof.
  revert index acc w. induction rows as [|row rows IH]; intros index acc w H;
    cbn [for_enum] in H.
  - inversion H; subst. exists []. rewrite !app_nil_r. repeat split. constructor.
  - destruct (create_one env address parcel index row acc w) as [[acc'|e] w1] eqn:Hone;
      [|discriminate H].
    destruct (create_one_spec _ _ _ _ _ _ _ _ _ Hone) as (s & Hheap & Hacc & Hfs & Hfrom).
    destruct (IH _ _ _ H) as (created & Hheap' & Hres & Hfs' & Hall).
    exists (s :: created). rewrite Hres, Hacc, Hheap', Hheap, Hfs', Hfs, <- !app_assoc.
    rewrite length_app. cbn. replace (length (heap w) + 1) with (S (length (heap w))) by lia.
    repeat split. constructor; assumption.
Qed.

Lemma generate_shipments_spec (env : Env) (address parcel csv_path : string)
    (shipments : list nat) (w w' : World) :
  generate_shipments env address parcel csv_path w = (Ok shipments, w') ->
  exists rows created,
    (iterate_csv env csv_path w).1 = Ok rows
    /\ heap w' = heap w ++ created
    /\ shipments = seq (length (heap w)) (length rows)
    /\ fs w' = fs w
    /\ Forall2 (created_from address parcel) rows created.
Proof.
  unfold generate_shipments. intros Hrun.
  destruct (for_rows_done _ _ _ _ _ _ _ Hrun) as (rows & Hrows & H).
  unfold for_each in H. rewrite Hrows.
  destruct (for_enum _ 0 rows [] w) as [[res|k x e] w1] eqn:Hloop; [|discriminate].
  inversion H; subst.
  destruct (create_loop _ _ _ _ _ _ _ _ _ Hloop) as (created & Hheap & Hres & Hfs & Hall).
  exists rows, created. auto.
Qed.

(** ** Failures after the purchases (lines 158-166) *)

Lemma run_after_lookups (env : Env) (from_address_id parcel_id csv_path : string)
    (w : World) (address parcel : string) :
  address_retrieve env from_address_id = Ok address ->
  parcel_retrieve env parcel_id = Ok parcel ->
  is_Some (fs w !! csv_path) ->
  run env from_address_id parcel_id csv_path w
  = (shipments <- generate_shipments env address parcel csv_path;;
     purchase_postage env shipments;;
     try_except (after_purchase env shipments csv_path) is_Exception
       (fun error =>
          print ("Failure: " +:+ exn_message error);;
          refund_postage env shipments))
      (after_lookups from_address_id parcel_id csv_path w).
Proof.
  intros Ha Hp Hfile.
  unfold run, bind at 1 2 3, try_except at 1 2, Address_retrieve, Parcel_retrieve,
    os_path_exists, bind at 1 2 3, emit, lift.
  rewrite Ha. cbn [add_event fs]. rewrite Hp. cbn [add_event fs].
  rewrite bool_decide_eq_true_2 by exact Hfile.
  reflexivity.
Qed.

(** C3: when every purchase of the batch went through and then the notes,
    the merge or the report fails with an [Exception], [run] requests a
    refund for every shipment of the batch, once each and in order, and
    returns; the report is not completed: either [write_results] raised, or
    it was never started and the report file is as it was. *)
Theorem failure_after_purchase_refunds_all (env : Env)
    (from_address_id parcel_id csv_path address parcel : string)
    (shipments : list nat) (w0 w1 w2 w3 : World) (e : exn) :
  address_retrieve env from_address_id = Ok address ->
  parcel_retrieve env parcel_id = Ok parcel ->
  is_Some (fs w0 !! csv_path) ->
  generate_shipments env address parcel csv_path
    (after_lookups from_address_id parcel_id csv_path w0) = (Ok shipments, w1) ->
  for_enum (purchase_one env) 0 shipments tt w1 = (LoopDone tt, w2) ->
  after_purchase env shipments csv_path w2 = (Raise e, w3) ->
  is_Exception e = true ->
  exists w4,
    run env from_address_id parcel_id csv_path w0 = (Ok tt, w4)
    /\ (exists rows, (iterate_csv env csv_path w0).1 = Ok rows
                     /\ length shipments = length rows)
    /\ (exists evs, events w2 = events w1 ++ evs /\ buys_of evs = shipments)
    /\ events w4 = events w3 ++ (EvRefund <$> shipments)
    /\ ((exists wa wb,
           generate_notes env shipments csv_path w2 = (Ok tt, wa)
           /\ merge_labels_and_notes env shipments wa = (Ok tt, wb)
           /\ write_results env shipments csv_path wb = (Raise e, w3))
        \/ ((generate_notes env shipments csv_path w2 = (Raise e, w3)
             \/ exists wa,
                  generate_notes env shipments csv_path w2 = (Ok tt, wa)
                  /\ merge_labels_and_notes env shipments wa = (Raise e, w3))
            /\ fs w4 !! results_path = fs w2 !! results_path)).
Proof.
  intros Ha Hp Hfile Hgen Hbuy Hafter Hexn.
  rewrite (run_after_lookups env _ _ _ w0 address parcel Ha Hp Hfile).
  unfold bind at 1. rewrite Hgen.
  unfold bind at 1. unfold purchase_postage. rewrite Hbuy.
  unfold try_except. rewrite Hafter, Hexn.
  unfold bind at 1. unfold print at 1.
  match goal with
  | |- context [refund_postage env shipments ?w'] =>
      destruct (refund_postage_ok env shipments w') as (w4 & Hrun & Hev & Hfs & _)
  end.
  cbn [events fs add_stdout] in Hev, Hfs.
  exists w4. split; [exact Hrun|]. split; [|split; [|split; [exact Hev|]]].
  - destruct (generate_shipments_spec _ _ _ _ _ _ _ Hgen)
      as (rows & created & Hrows & _ & Hrefs & _ & _).
    exists rows. split.
    + rewrite <- Hrows. apply iterate_csv_same_file. reflexivity.
    + rewrite Hrefs. apply length_seq.
  - destruct (purchase_loop_events env shipments 0 w1) as (evs & Hevs & Hb).
    rewrite Hbuy in Hevs, Hb. exists evs. auto.
  - unfold after_purchase, bind in Hafter.
    pose proof (generate_notes_keeps env shipments csv_path w2) as Hk1.
    destruct (generate_notes env shipments csv_path w2) as [[[]|e1] wa] eqn:Hnotes;
      cbv beta iota in Hafter.
    + pose proof (merge_labels_and_notes_keeps env shipments wa) as Hk2.
      destruct (merge_labels_and_notes env shipments wa) as [[[]|e2] wb] eqn:Hmerge;
        cbv beta iota in Hafter.
      * left. exists wa, wb. auto.
      * inversion Hafter; subst. right. split; [right; exists wa; auto|].
        rewrite Hfs. cbn [snd] in *.
        rewrite (proj2 Hk2), (proj2 Hk1) by apply artifact_results_path. reflexivity.
    + inversion Hafter; subst. right. split; [left; reflexivity|].
      rewrite Hfs. cbn [snd] in *. apply (proj2 Hk1), artifact_results_path.
Qed.

Lemma failure_after_purchase_refunds_all_witness :
  address_retrieve Demo.env_ok "adr_1" = Ok "address adr_1"
  /\ parcel_retrieve Demo.env_ok "pcl_1" = Ok "parcel pcl_1"
  /\ is_Some (fs Demo.w_plain !! "in.csv")
  /\ generate_shipments Demo.env_ok "address adr_1" "parcel pcl_1" "in.csv"
       (after_lookups "adr_1" "pcl_1" "in.csv" Demo.w_plain) = (Ok [0; 1], Demo.w_plain1)
  /\ for_enum (purchase_one Demo.env_ok) 0 [0; 1] tt Demo.w_plain1
     = (LoopDone tt, Demo.w_plain2)
  /\ after_purchase Demo.env_ok [0; 1] "in.csv" Demo.w_plain2
     = (Raise (KeyError "Generic Message"), Demo.w_plain3)
  /\ is_Exception (KeyError "Generic Message") = true
  /\ exists w4,
       run Demo.env_ok "adr_1" "pcl_1" "in.csv" Demo.w_plain = (Ok tt, w4)
       /\ events w4 = events Demo.w_plain3 ++ [EvRefund 0; EvRefund 1].
Proof.
  split; [reflexivity|]. split; [reflexivity|].
  split; [eexists; vm_compute; reflexivity|].
  split; [vm_compute; reflexivity|]. split; [vm_compute; reflexivity|].
  split; [vm_compute; reflexivity|]. split; [reflexivity|].
  destruct (failure_after_purchase_refunds_all Demo.env_ok "adr_1" "pcl_1" "in.csv"
              "address adr_1" "parcel pcl_1" [0; 1]
              Demo.w_plain Demo.w_plain1 Demo.w_plain2 Demo.w_plain3
              (KeyError "Generic Message"))
    as (w4 & Hrun & _ & _ & Hev & _).
  - reflexivity.
  - reflexivity.
  - eexists; vm_compute; reflexivity.
  - vm_compute; reflexivity.
  - vm_compute; reflexivity.
  - vm_compute; reflexivity.
  - reflexivity.
  - exists w4. split; [exact Hrun | exact Hev].
Defined.

(** ** Rows of one file share their field names *)

Lemma zip_dict_dom_acc (pairs : list (string * string)) (d : gmap string (option string)) :
  dom (foldl (fun d kv => <[kv.1 := Some kv.2]> d) d pairs)
  = dom d ∪ list_to_set pairs.*1.
Proof.
  revert d. induction pairs as [|[k v] pairs IH]; intros d; cbn.
  - set_solver.
  - rewrite IH, dom_insert_L. set_solver.
Qed.

Lemma fill_restval_dom (names : list string) (d : gmap string (option string)) :
  dom (fill_restval names d) = dom d ∪ list_to_set names.
Proof.
  unfold fill_restval. revert d. induction names as [|k names IH]; intros d; cbn.
  - set_solver.
  - rewrite IH, dom_insert_L. set_solver.
Qed.

Lemma fst_zip_take {A B : Type} (l : list A) (k : list B) :
  (zip l k).*1 = take (length k) l.
Proof.
  revert k. induction l as [|x l IH]; intros [|y k]; cbn; try reflexivity.
  rewrite IH. reflexivity.
Qed.

Lemma zip_dict_dom (fieldnames record : list string) :
  dom (zip_dict fieldnames record)
  = list_to_set (take (length record) fieldnames).
Proof.
  unfold zip_dict. rewrite zip_dict_dom_acc, dom_empty_L, fst_zip_take.
  set_solver.
Qed.

(** Whatever the length of the record, the row has exactly the field names of
    the header; it has the key [None] exactly when the record is longer. *)
Lemma dict_row_dom (fieldnames record : list string) :
  dom (fields (dict_row fieldnames record)) = list_to_set fieldnames.
Proof.
  unfold dict_row.
  destruct (Nat.ltb_spec (length fieldnames) (length record)) as [Hlt|Hge]; cbn [fields].
  - rewrite zip_dict_dom, take_ge by lia. reflexivity.
  - destruct (Nat.ltb_spec (length record) (length fieldnames)) as [Hlt|Hge'];
      cbn [fields].
    + rewrite fill_restval_dom, zip_dict_dom, <- list_to_set_app_L, take_drop.
      reflexivity.
    + rewrite zip_dict_dom, take_ge by lia. reflexivity.
Qed.

Lemma dict_row_restkey (fieldnames record : list string) :
  restkey (dict_row fieldnames record)
  = if Nat.ltb (length fieldnames) (length record)
    then Some (drop (length fieldnames) record) else None.
Proof.
  unfold dict_row. destruct (Nat.ltb (length fieldnames) (length record)); [reflexivity|].
  destruct (Nat.ltb (length record) (length fieldnames)); reflexivity.
Qed.

Lemma DictReader_rows (records : list (list string)) (row : Row) :
  row ∈ DictReader records ->
  exists fieldnames body record,
    records = fieldnames :: body /\ record ≠ [] /\ row = dict_row fieldnames record.
Proof.
  destruct records as [|fieldnames body]; cbn.
  - intros H. inversion H.
  - intros H. apply list_elem_of_fmap in H as (record & -> & Hin).
    apply list_elem_of_filter in Hin as [Hne _].
    exists fieldnames, body, record. auto.
Qed.


#[global] Instance str_le_total : Total str_le.
Proof. intros a b. unfold str_le. apply String.leb_total. Qed.



(** ** The report (lines 126-141) *)

Lemma write_one_next (env : Env) (shipments : list nat) (index : nat) (row : Row)
    (fieldnames : list (option string)) (s : option (list (option string)))
    (w w' : World) :
  index ≠ 0 ->
  write_one env shipments index row (Some fieldnames) w = (Ok s, w') ->
  s = Some fieldnames
  /\ heap w' = heap w
  /\ exists cells,
       row_written env shipments (heap w) fieldnames index row cells
       /\ fs w' = <[results_path := Sheet (records_of (fs w !! results_path) ++ [cells])]>
                    (fs w).
Proof.
  intros Hindex. unfold write_one.
  destruct (Nat.eqb_spec index 0) as [?|_]; [contradiction|].
  unfold bind, ret, lift, deref, append_record, list_getitem, row_written.
  destruct (shipments !! index) as [ref|]; [|discriminate].
  destruct (dict_to_list env fieldnames _) as [cells|e] eqn:Hcells; [|discriminate].
  intros H. inversion H; subst. cbn.
  split; [reflexivity|]. split; [reflexivity|].
  exists cells. split; [|reflexivity]. exists ref. auto.
Qed.

Lemma write_one_first (env : Env) (shipments : list nat) (row : Row)
    (writer s : option (list (option string))) (w w' : World) :
  write_one env shipments 0 row writer w = (Ok s, w') ->
  exists sorted cells,
    sorted_keys row = Ok sorted
    /\ s = Some (sorted ++ [Some "Tracking Code"; Some "Label And Note"])
    /\ heap w' = heap w
    /\ row_written env shipments (heap w)
         (sorted ++ [Some "Tracking Code"; Some "Label And Note"]) 0 row cells
    /\ fs w' = <[results_path :=
                   Sheet (records_of (fs w !! results_path)
                            ++ [header_cell <$> (sorted ++ [Some "Tracking Code";
                                                           Some "Label And Note"]);
                                cells])]> (fs w).
Proof.
  unfold write_one. cbn [Nat.eqb].
  unfold bind, ret, lift, deref, append_record, list_getitem, row_written.
  destruct (sorted_keys row) as [sorted|e]; [|discriminate].
  destruct (shipments !! 0) as [ref|]; [|discriminate].
  cbn [heap set_fs fs].
  destruct (dict_to_list env _ _) as [cells|e] eqn:Hcells; [|discriminate].
  intros H. inversion H; subst. cbn [heap set_fs fs].
  exists sorted, cells. split; [reflexivity|]. split; [reflexivity|].
  split; [reflexivity|]. split; [exists ref; auto|].
  rewrite lookup_insert_eq, insert_insert_eq. cbn [records_of].
  rewrite <- app_assoc. reflexivity.
Qed.

Lemma write_loop (env : Env) (shipments : list nat) (fieldnames : list (option string))
    (rows : list Row) (index : nat) (s : option (list (option string)))
    (w w' : World) (written : list (list string)) :
  index ≠ 0 ->
  fs w !! results_path = Some (Sheet written) ->
  for_enum (write_one env shipments) index rows (Some fieldnames) w = (LoopDone s, w') ->
  heap w' = heap w
  /\ exists data,
       fs w' !! results_path = Some (Sheet (written ++ data))
       /\ length data = length rows
       /\ forall j row,
            rows !! j = Some row ->
            exists cells,
              data !! j = Some cells
              /\ row_written env shipments (heap w) fieldnames (index + j) row cells.
Proof.
  revert index w written. induction rows as [|row rows IH];
    intros index w written Hindex Hfile H; cbn [for_enum] in H.
  - inversion H; subst. split; [reflexivity|]. exists [].
    rewrite app_nil_r. split; [exact Hfile|]. split; [reflexivity|].
    intros j row Hj. inversion Hj.
  - destruct (write_one env shipments index row (Some fieldnames) w) as [[s1|e] w1] eqn:Hone;
      [|discriminate H].
    destruct (write_one_next _ _ _ _ _ _ _ _ Hindex Hone)
      as (-> & Hheap1 & cells & Hcells & Hfs1).
    assert (Hfile1 : fs w1 !! results_path = Some (Sheet (written ++ [cells]))).
    { rewrite Hfs1, lookup_insert_eq, Hfile. reflexivity. }
    destruct (IH (S index) w1 _ (Nat.neq_succ_0 index) Hfile1 H)
      as (Hheap & data & Hfile' & Hlen & Hrows).
    split; [congruence|]. exists (cells :: data).
    split; [rewrite Hfile', <- app_assoc; reflexivity|].
    split; [cbn; congruence|].
    intros [|j] row' Hj; cbn in Hj.
    + inversion Hj; subst row'. exists cells. rewrite Nat.add_0_r. auto.
    + destruct (Hrows j row' Hj) as (cells' & Hd & Hw).
      exists cells'. split; [exact Hd|].
      rewrite Hheap1 in Hw. replace (index + S j) with (S index + j) by lia. exact Hw.
Qed.

Lemma write_results_spec (env : Env) (shipments : list nat) (csv_path : string)
    (w w' : World) :
  csv_path ≠ results_path ->
  write_results env shipments csv_path w = (Ok tt, w') ->
  exists rows,
    (iterate_csv env csv_path w).1 = Ok rows
    /\ heap w' = heap w
    /\ match rows with
       | [] => fs w' !! results_path = Some (Sheet [])
       | row0 :: _ =>
           exists sorted data,
             sorted_keys row0 = Ok sorted
             /\ fs w' !! results_path
                = Some (Sheet ((header_cell <$> (sorted ++ [Some "Tracking Code";
                                                            Some "Label And Note"]))
                               :: data))
             /\ length data = length rows
             /\ forall j row,
                  rows !! j = Some row ->
                  exists cells,
                    data !! j = Some cells
                    /\ row_written env shipments (heap w)
                         (sorted ++ [Some "Tracking Code"; Some "Label And Note"])
                         j row cells
       end.
Proof.
  intros Hpath. unfold write_results, bind at 1 2, print, open_w.
  destruct (open_write env results_path) as [e|]; [discriminate|].
  set (w1 := set_fs (<[results_path := Sheet []]> (fs (add_stdout _ w))) (add_stdout _ w)).
  assert (Hsame : (iterate_csv env csv_path w).1 = (iterate_csv env csv_path w1).1).
  { apply iterate_csv_same_file. subst w1. cbn. apply lookup_insert_ne. congruence. }
  assert (Hfile1 : fs w1 !! results_path = Some (Sheet [])) by apply lookup_insert_eq.
  unfold bind at 1.
  destruct (for_rows env (write_one env shipments) csv_path None w1) as [[s|e] w2] eqn:Hrun;
    [|discriminate].
  unfold ret. intros H. inversion H; subst w2. clear H.
  destruct (for_rows_done _ _ _ _ _ _ _ Hrun) as (rows & Hread & Hfor).
  rewrite <- Hsame in Hread. unfold for_each in Hfor.
  destruct (for_enum (write_one env shipments) 0 rows None w1) as [[s'|k x e] w2] eqn:Hloop;
    [|discriminate].
  inversion Hfor; subst s' w2. clear Hfor.
  exists rows. split; [exact Hread|].
  destruct rows as [|row0 rows]; cbn [for_enum] in Hloop.
  - inversion Hloop; subst. split; [reflexivity | exact Hfile1].
  - destruct (write_one env shipments 0 row0 None w1) as [[s1|e] w2] eqn:Hone;
      [|discriminate Hloop].
    destruct (write_one_first _ _ _ _ _ _ _ Hone)
      as (sorted & cells & Hsorted & -> & Hheap1 & Hcells & Hfs1).
    rewrite Hfile1 in Hfs1. cbn [records_of app] in Hfs1.
    assert (Hfile2 : fs w2 !! results_path
                     = Some (Sheet [header_cell <$> (sorted ++ [Some "Tracking Code";
                                                               Some "Label And Note"]);
                                    cells])).
    { rewrite Hfs1. apply lookup_insert_eq. }
    destruct (write_loop _ _ _ _ _ _ _ _ _ (Nat.neq_succ_0 0) Hfile2 Hloop)
      as (Hheap & data & Hfile' & Hlen & Hrows).
    split; [rewrite Hheap, Hheap1; reflexivity|].
    exists sorted, (cells :: data). split; [exact Hsorted|].
    split; [rewrite Hfile'; reflexivity|]. split; [cbn; congruence|].
    intros [|j] row Hj; cbn in Hj.
    + inversion Hj; subst row. exists cells. split; [reflexivity | exact Hcells].
    + destruct (Hrows j row Hj) as (cells' & Hd & Hw).
      exists cells'. split; [exact Hd|]. rewrite Hheap1 in Hw. exact Hw.
Qed.

Lemma dict_to_list_ok (env : Env) (fieldnames : list (option string)) (row : Row)
    (cells : list string) :
  dict_to_list env fieldnames row = Ok cells ->
  cells = cell env row <$> fieldnames
  /\ forall key, key ∈ keys row -> key ∈ fieldnames.
Proof.
  unfold dict_to_list.
  destruct (forallb _ (keys row)) eqn:Hall; [|discriminate].
  intros H. inversion H; subst. split; [reflexivity|].
  intros key Hkey. rewrite forallb_forall in Hall.
  apply list_elem_of_In, Hall in Hkey. apply bool_decide_eq_true in Hkey. exact Hkey.
Qed.

Lemma cell_row_update (env : Env) (row : Row) (tracking : option string) (path : string) :
  cell env (row_update row tracking path) (Some "Tracking Code")
  = match tracking with Some code => code | None => EmptyString end
  /\ cell env (row_update row tracking path) (Some "Label And Note") = path
  /\ forall key, key ≠ Some "Tracking Code" -> key ≠ Some "Label And Note" ->
                 cell env (row_update row tracking path) key = cell env row key.
Proof.
  unfold cell, row_update. cbn [fields restkey]. split; [|split].
  - rewrite lookup_insert_ne by discriminate. rewrite lookup_insert_eq.
    destruct tracking; reflexivity.
  - rewrite lookup_insert_eq. reflexivity.
  - intros [name|] Ht Hl; [|reflexivity].
    rewrite !lookup_insert_ne by congruence. reflexivity.
Qed.

(** The record written for a row: its cells under the sorted field names,
    then the tracking code and the merged-document path of its shipment. *)
Lemma row_written_cells (env : Env) (shipments : list nat) (h : list Shipment)
    (sorted : list (option string)) (index : nat) (row : Row) (cells : list string) :
  row_written env shipments h
    (sorted ++ [Some "Tracking Code"; Some "Label And Note"]) index row cells ->
  exists ref,
    shipments !! index = Some ref
    /\ cells
       = (cell env (row_update row
                      (tracking_code (default blank_shipment (h !! ref)))
                      (label_note_path index (default blank_shipment (h !! ref))))
            <$> sorted)
         ++ [tracking_cell (default blank_shipment (h !! ref));
             label_note_path index (default blank_shipment (h !! ref))]
    /\ forall key,
         key ∈ keys (row_update row
                       (tracking_code (default blank_shipment (h !! ref)))
                       (label_note_path index (default blank_shipment (h !! ref)))) ->
         key ∈ sorted ++ [Some "Tracking Code"; Some "Label And Note"].
Proof.
  intros (ref & Href & Hcells). exists ref. split; [exact Href|].
  destruct (dict_to_list_ok _ _ _ _ Hcells) as [-> Hsub]. split; [|exact Hsub].
  rewrite fmap_app. cbn [fmap list_fmap].
  destruct (cell_row_update env row
              (tracking_code (default blank_shipment (h !! ref)))
              (label_note_path index (default blank_shipment (h !! ref))))
    as (-> & -> & _).
  reflexivity.
Qed.




(** ** Positional correlation through the whole run *)

Lemma keeps_lookup (w w' : World) (ref : nat) (shipment : Shipment) :
  keeps w w' ->
  heap w !! ref = Some shipment ->
  exists shipment', heap w' !! ref = Some shipment' /\ request shipment' = request shipment.
Proof.
  intros [Hreq _] Href.
  assert (H : (request <$> heap w') !! ref = Some (request shipment)).
  { rewrite Hreq, list_lookup_fmap, Href. reflexivity. }
  rewrite list_lookup_fmap in H. apply fmap_Some in H as (shipment' & H' & Heq).
  exists shipment'. auto.
Qed.

(** C4, as stated, fails: when the input file is the report file itself, the
    run completes, the shipment at index 0 was created from the first row
    and carries its tracking code, no refund was requested, and the report
    has no row at index 0 or at any other index. *)
Lemma no_report_row_when_input_is_report :
  run Demo.env_ok "adr_1" "pcl_1" results_path Demo.w_self = (Ok tt, Demo.w_self5)
  /\ (exists shipment,
        heap Demo.w_self5 !! 0 = Some shipment
        /\ created_from "address adr_1" "parcel pcl_1" Demo.row_ann shipment
        /\ tracking_code shipment = Some "TRK0"
        /\ state shipment = Purchased)
  /\ refunds_of (events Demo.w_self5) = []
  /\ records_of (fs Demo.w_self5 !! results_path) = [].
Proof.
  split; [vm_compute; reflexivity|]. split.
  - eexists. split; [vm_compute; reflexivity|]. split.
    + exists Demo.address_ann. split; vm_compute; reflexivity.
    + split; reflexivity.
  - split; vm_compute; reflexivity.
Qed.

(** C4, amended: in a run whose stages all complete on an input file that is
    not one of the run's own outputs (no label, note or merged document, and
    not the report), the row, the shipment and the report record at
    every index belong together: the shipment at index [i] was created from
    the row at index [i], and the data record at index [i] of the report ends
    with the tracking code and merged-document path of that shipment.  The
    shipment list and the report have one entry per row. *)
Theorem positional_correlation (env : Env)
    (from_address_id parcel_id csv_path address parcel : string)
    (shipments : list nat) (w0 w1 w2 w3 w4 w5 : World) :
  address_retrieve env from_address_id = Ok address ->
  parcel_retrieve env parcel_id = Ok parcel ->
  is_Some (fs w0 !! csv_path) ->
  artifact_path csv_path = false ->
  csv_path ≠ results_path ->
  generate_shipments env address parcel csv_path
    (after_lookups from_address_id parcel_id csv_path w0) = (Ok shipments, w1) ->
  purchase_postage env shipments w1 = (Ok tt, w2) ->
  generate_notes env shipments csv_path w2 = (Ok tt, w3) ->
  merge_labels_and_notes env shipments w3 = (Ok tt, w4) ->
  write_results env shipments csv_path w4 = (Ok tt, w5) ->
  run env from_address_id parcel_id csv_path w0 = (Ok tt, w5)
  /\ exists rows header data,
       (iterate_csv env csv_path w0).1 = Ok rows
       /\ length shipments = length rows
       /\ fs w5 !! results_path = Some (Sheet (header ++ data))
       /\ length header = (if rows is [] then 0 else 1)
       /\ length data = length rows
       /\ forall i row,
            rows !! i = Some row ->
            exists ref shipment cells,
              shipments !! i = Some ref
              /\ heap w5 !! ref = Some shipment
              /\ created_from address parcel row shipment
              /\ data !! i
                 = Some (cells ++ [tracking_cell shipment; label_note_path i shipment]).
Proof.
  intros Ha Hp Hfile Hart Hpath Hgen Hbuy Hnotes Hmerge Hwrite. split.
  - rewrite (run_after_lookups env _ _ _ w0 address parcel Ha Hp Hfile).
    unfold bind at 1. rewrite Hgen. unfold bind at 1. rewrite Hbuy.
    unfold try_except, after_purchase, bind. rewrite Hnotes, Hmerge, Hwrite. reflexivity.
  - destruct (generate_shipments_spec _ _ _ _ _ _ _ Hgen)
      as (rows & created & Hrows & Hheap1 & Hrefs & Hfs1 & Hcreated).
    pose proof (purchase_postage_keeps env shipments w1) as K12. rewrite Hbuy in K12.
    pose proof (generate_notes_keeps env shipments csv_path w2) as K23.
    rewrite Hnotes in K23.
    pose proof (merge_labels_and_notes_keeps env shipments w3) as K34.
    rewrite Hmerge in K34. cbn [snd] in *.
    pose proof (keeps_trans _ _ _ K12 (keeps_trans _ _ _ K23 K34)) as K14.
    destruct (write_results_spec _ _ _ _ _ Hpath Hwrite) as (rows4 & Hrows4 & Hheap5 & Hreport).
    assert (Hsame : rows4 = rows).
    { assert (H : Ok rows4 = Ok rows); [|inversion H; reflexivity].
      rewrite <- Hrows4, <- Hrows. apply iterate_csv_same_file.
      rewrite <- Hfs1. symmetry. apply (proj2 K14). exact Hart. }
    subst rows4.
    assert (Hrows0 : (iterate_csv env csv_path w0).1 = Ok rows).
    { rewrite <- Hrows. apply iterate_csv_same_file. reflexivity. }
    assert (Hlen : length shipments = length rows) by (rewrite Hrefs; apply length_seq).
    assert (Hat : forall i row,
               rows !! i = Some row ->
               exists ref shipment,
                 shipments !! i = Some ref
                 /\ heap w4 !! ref = Some shipment
                 /\ created_from address parcel row shipment).
    { intros i row Hi.
      destruct (Forall2_lookup_l _ _ _ _ _ Hcreated Hi) as (s0 & Hs0 & Hfrom).
      set (base := length (heap (after_lookups from_address_id parcel_id csv_path w0))) in *.
      assert (Href1 : heap w1 !! (base + i) = Some s0).
      { rewrite Hheap1, lookup_app_r by (unfold base; lia).
        replace (base + i - _) with i by (unfold base; lia). exact Hs0. }
      destruct (keeps_lookup _ _ _ _ K14 Href1) as (s4 & Hs4 & Hreq).
      exists (base + i), s4. split; [|split; [exact Hs4|]].
      - rewrite Hrefs. apply lookup_seq. split; [reflexivity|].
        eapply lookup_lt_Some. exact Hi.
      - destruct Hfrom as (to & Hto & Hrq). exists to. split; [exact Hto|]. congruence. }
    destruct rows as [|row0 rows'] eqn:Erows.
    + exists [], [], []. repeat split; auto. intros i row Hi. inversion Hi.
    + rewrite <- Erows in *.
      destruct Hreport as (sorted & data & Hsorted & Hreportfile & Hdatalen & Hdata).
      exists rows,
        [header_cell <$> (sorted ++ [Some "Tracking Code"; Some "Label And Note"])], data.
      split; [exact Hrows0|]. split; [exact Hlen|]. split; [exact Hreportfile|].
      split; [rewrite Erows; reflexivity|]. split; [exact Hdatalen|].
      intros i row Hi.
      destruct (Hat i row Hi) as (ref & s4 & Href & Hs4 & Hfrom).
      destruct (Hdata i row Hi) as (cells & Hcells & Hwritten).
      destruct (row_written_cells _ _ _ _ _ _ _ Hwritten) as (ref' & Href' & -> & _).
      rewrite Href in Href'. inversion Href'; subst ref'.
      rewrite Hs4 in Hcells. cbn [default] in Hcells.
      exists ref, s4. eexists. split; [exact Href|]. split; [congruence|].
      split; [exact Hfrom | exact Hcells].
Qed.

Lemma positional_correlation_witness :
  address_retrieve Demo.env_ok "adr_1" = Ok "address adr_1"
  /\ parcel_retrieve Demo.env_ok "pcl_1" = Ok "parcel pcl_1"
  /\ is_Some (fs Demo.w0 !! "in.csv")
  /\ artifact_path "in.csv" = false
  /\ "in.csv" ≠ results_path
  /\ generate_shipments Demo.env_ok "address adr_1" "parcel pcl_1" "in.csv"
       (after_lookups "adr_1" "pcl_1" "in.csv" Demo.w0) = (Ok [0; 1; 2], Demo.w_run1)
  /\ purchase_postage Demo.env_ok [0; 1; 2] Demo.w_run1 = (Ok tt, Demo.w_run2)
  /\ generate_notes Demo.env_ok [0; 1; 2] "in.csv" Demo.w_run2 = (Ok tt, Demo.w_run3)
  /\ merge_labels_and_notes Demo.env_ok [0; 1; 2] Demo.w_run3 = (Ok tt, Demo.w_run4)
  /\ write_results Demo.env_ok [0; 1; 2] "in.csv" Demo.w_run4 = (Ok tt, Demo.w_run5)
  /\ run Demo.env_ok "adr_1" "pcl_1" "in.csv" Demo.w0 = (Ok tt, Demo.w_run5).
Proof.
  split; [reflexivity|]. split; [reflexivity|].
  split; [eexists; vm_compute; reflexivity|].
  split; [reflexivity|]. split; [discriminate|].
  split; [vm_compute; reflexivity|]. split; [vm_compute; reflexivity|].
  split; [vm_compute; reflexivity|]. split; [vm_compute; reflexivity|].
  split; [vm_compute; reflexivity|].
  apply (positional_correlation Demo.env_ok "adr_1" "pcl_1" "in.csv"
           "address adr_1" "parcel pcl_1" [0; 1; 2]
           Demo.w0 Demo.w_run1 Demo.w_run2 Demo.w_run3 Demo.w_run4 Demo.w_run5).
  - reflexivity.
  - reflexivity.
  - eexists; vm_compute; reflexivity.
  - reflexivity.
  - discriminate.
  - vm_compute; reflexivity.
  - vm_compute; reflexivity.
  - vm_compute; reflexivity.
  - vm_compute; reflexivity.
  - vm_compute; reflexivity.
Defined.

(** * Further properties of the stages *)

(** ** How [run] fails before any shipment exists (lines 144-158) *)

(** X1: when the origin address does not resolve, [run] raises at once: an
    [easypost.Error] is re-raised as a plain exception that quotes its
    message, any other exception passes unchanged; the carrier was asked
    for the address only, and nothing else happened. *)
Theorem run_address_unresolved (env : Env) (from_address_id parcel_id csv_path : string)
    (w : World) (e : exn) :
  address_retrieve env from_address_id = Raise e ->
  run env from_address_id parcel_id csv_path w
  = (Raise (if is_easypost_Error e
            then Exn StandardError
                   ("Error requesting from_address_id: " +:+ exn_message e)
            else e),
     mkWorld (heap w) (fs w) (stdout w)
             (events w ++ [EvAddressRetrieve from_address_id])).
Proof.
  intros Ha.
  unfold run, bind at 1, try_except at 1, Address_retrieve, bind at 1, emit, lift.
  rewrite Ha. destruct (is_easypost_Error e); reflexivity.
Qed.

Lemma run_address_unresolved_witness :
  address_retrieve Demo.env_ok "adr_missing" = Raise (Exn EasyPostError "address not found")
  /\ run Demo.env_ok "adr_missing" "pcl_1" "in.csv" Demo.w0
     = (Raise (if is_easypost_Error (Exn EasyPostError "address not found")
               then Exn StandardError
                      ("Error requesting from_address_id: "
                         +:+ exn_message (Exn EasyPostError "address not found"))
               else Exn EasyPostError "address not found"),
        mkWorld (heap Demo.w0) (fs Demo.w0) (stdout Demo.w0)
                (events Demo.w0 ++ [EvAddressRetrieve "adr_missing"])).
Proof.
  split; [reflexivity|].
  apply (run_address_unresolved Demo.env_ok "adr_missing" "pcl_1" "in.csv" Demo.w0).
  reflexivity.
Defined.

(** X2: when the origin address resolves and the parcel does not, [run]
    raises in the same way for the parcel; the carrier was asked for the
    address and the parcel only, the input path was not checked, and nothing
    else happened. *)
Theorem run_parcel_unresolved (env : Env) (from_address_id parcel_id csv_path : string)
    (w : World) (address : string) (e : exn) :
  address_retrieve env from_address_id = Ok address ->
  parcel_retrieve env parcel_id = Raise e ->
  run env from_address_id parcel_id csv_path w
  = (Raise (if is_easypost_Error e
            then Exn StandardError ("Error requesting parcel_id: " +:+ exn_message e)
            else e),
     mkWorld (heap w) (fs w) (stdout w)
             (events w ++ [EvAddressRetrieve from_address_id;
                           EvParcelRetrieve parcel_id])).
Proof.
  intros Ha Hp.
  unfold run, bind at 1 2, try_except at 1 2, Address_retrieve, Parcel_retrieve,
    bind at 1 2, emit, lift.
  rewrite Ha. cbn [add_event]. rewrite Hp.
  unfold add_event; cbn. rewrite <- app_assoc.
  destruct (is_easypost_Error e); reflexivity.
Qed.

Lemma run_parcel_unresolved_witness :
  address_retrieve Sample.env_no_parcel "adr_1" = Ok "address adr_1"
  /\ parcel_retrieve Sample.env_no_parcel "pcl_9" = Raise (Exn EasyPostError "parcel not found")
  /\ run Sample.env_no_parcel "adr_1" "pcl_9" "in.csv" Demo.w0
     = (Raise (Exn StandardError "Error requesting parcel_id: parcel not found"),
        mkWorld [] (fs Demo.w0) [] [EvAddressRetrieve "adr_1"; EvParcelRetrieve "pcl_9"]).
Proof.
  split; [reflexivity|]. split; [reflexivity|].
  apply (run_parcel_unresolved Sample.env_no_parcel "adr_1" "pcl_9" "in.csv" Demo.w0
           "address adr_1" (Exn EasyPostError "parcel not found")); reflexivity.
Defined.

(** ** Shipment creation (lines 43-60) *)

Lemma only_events_refl (allowed : Event -> bool) (w : World) : only_events allowed w w.
Proof. exists []. rewrite app_nil_r. split; reflexivity. Qed.

Lemma only_events_trans (allowed : Event -> bool) (w1 w2 w3 : World) :
  only_events allowed w1 w2 -> only_events allowed w2 w3 -> only_events allowed w1 w3.
Proof.
  intros (evs & Hev & Hall) (evs' & Hev' & Hall'). exists (evs ++ evs').
  rewrite Hev', Hev, <- app_assoc, forallb_app, Hall, Hall'. split; reflexivity.
Qed.

Lemma only_events_one (allowed : Event -> bool) (w w' : World) (ev : Event) :
  events w' = events w ++ [ev] -> allowed ev = true -> only_events allowed w w'.
Proof. intros Hev Hok. exists [ev]. cbn. rewrite Hok. auto. Qed.

Lemma only_events_same (allowed : Event -> bool) (w w' : World) :
  events w' = events w -> only_events allowed w w'.
Proof. intros Hev. exists []. rewrite app_nil_r. auto. Qed.

(** One iteration that completes: one request, one new unpurchased object,
    one printed line. *)
Lemma create_one_ok (env : Env) (address parcel : string) (index : nat) (row : Row)
    (acc res : list nat) (w w' : World) :
  create_one env address parcel index row acc w = (Ok res, w') ->
  exists shipment,
    heap w' = heap w ++ [shipment]
    /\ res = acc ++ [length (heap w)]
    /\ fs w' = fs w
    /\ created_from address parcel row shipment
    /\ fresh shipment
    /\ events w' = events w ++ [EvShipmentCreate (request shipment)]
    /\ stdout w'
       = stdout w ++ ["Creating shipment to: "
                        +:+ str_cell (ta_name (rq_to_address (request shipment)))].
Proof.
  unfold create_one, bind, lift, print, Shipment_create, bind, emit, ret.
  destruct (getitem row "SendTo") as [name|e] eqn:Hname; [|discriminate].
  destruct (to_address_of_row row) as [to_address|e] eqn:Hto; [|discriminate].
  cbn. destruct (shipment_create env _ _) as [[sid name']|e]; [|discriminate].
  intros H. inversion H; subst. eexists. cbn.
  split; [reflexivity|]. split; [reflexivity|]. split; [reflexivity|].
  split; [exists to_address; split; [exact Hto | reflexivity]|].
  split; [repeat split|]. split; [reflexivity|].
  assert (Hn : ta_name to_address = name).
  { unfold to_address_of_row in Hto. rewrite Hname in Hto.
    repeat match type of Hto with
           | match ?x with _ => _ end = _ => destruct x as [[?|]|]; try discriminate Hto
           end;
      inversion Hto; reflexivity. }
  cbn [request rq_to_address]. rewrite Hn. reflexivity.
Qed.

(** One iteration that raises: no object was added. *)
Lemma create_one_raise (env : Env) (address parcel : string) (index : nat) (row : Row)
    (acc : list nat) (w w' : World) (e : exn) :
  create_one env address parcel index row acc w = (Raise e, w') ->
  heap w' = heap w /\ fs w' = fs w /\ only_events is_create w w'.
Proof.
  unfold create_one, bind, lift, print, Shipment_create, bind, emit, ret.
  destruct (getitem row "SendTo") as [name|e1].
  - destruct (to_address_of_row row) as [to_address|e2].
    + cbn. destruct (shipment_create env _ _) as [[sid name']|e3]; [discriminate|].
      intros H. inversion H; subst. cbn. repeat split.
      eapply only_events_one; reflexivity.
    + intros H. inversion H; subst. cbn. repeat split. apply only_events_same; reflexivity.
  - intros H. inversion H; subst. repeat split. apply only_events_same; reflexivity.
Qed.

Lemma create_loop_done (env : Env) (address parcel : string) (rows : list Row)
    (index : nat) (acc res : list nat) (w w' : World) :
  for_enum (create_one env address parcel) index rows acc w = (LoopDone res, w') ->
  exists created,
    heap w' = heap w ++ created
    /\ res = acc ++ seq (length (heap w)) (length rows)
    /\ fs w' = fs w
    /\ Forall2 (created_from address parcel) rows created
    /\ Forall fresh created
    /\ events w' = events w ++ (EvShipmentCreate <$> (request <$> created))
    /\ stdout w'
       = stdout w
         ++ ((fun shipment =>
                "Creating shipment to: "
                  +:+ str_cell (ta_name (rq_to_address (request shipment))))
               <$> created).
Proof.
  revert index acc w. induction rows as [|row rows IH]; intros index acc w H;
    cbn [for_enum] in H.
  - inversion H; subst. exists []. cbn. rewrite !app_nil_r.
    repeat split; constructor.
  - destruct (create_one env address parcel index row acc w) as [[acc'|e] w1] eqn:Hone;
      [|discriminate H].
    destruct (create_one_ok _ _ _ _ _ _ _ _ _ Hone)
      as (s & Hheap & Hacc & Hfs & Hfrom & Hfresh & Hev & Hout).
    destruct (IH _ _ _ H) as (created & Hheap' & Hres & Hfs' & Hall & Hfr & Hev' & Hout').
    exists (s :: created).
    rewrite Hres, Hacc, Hheap', Hev', Hout', Hheap, Hev, Hout, Hfs', Hfs, <- !app_assoc.
    rewrite length_app. cbn. replace (length (heap w) + 1) with (S (length (heap w))) by lia.
    repeat split; constructor; assumption.
Qed.

Lemma create_loop_raised (env : Env) (address parcel : string) (rows : list Row)
    (index : nat) (acc : list nat) (w w' : World) (k : nat) (row : Row) (e : exn) :
  for_enum (create_one env address parcel) index rows acc w = (LoopRaised k row e, w') ->
  exists j created,
    k = index + j
    /\ rows !! j = Some row
    /\ heap w' = heap w ++ created
    /\ Forall2 (created_from address parcel) (take j rows) created
    /\ Forall fresh created
    /\ fs w' = fs w
    /\ only_events is_create w w'.
Proof.
  revert index acc w. induction rows as [|row0 rows IH]; intros index acc w H;
    cbn [for_enum] in H.
  - discriminate H.
  - destruct (create_one env address parcel index row0 acc w) as [[acc'|e0] w1] eqn:Hone.
    + destruct (create_one_ok _ _ _ _ _ _ _ _ _ Hone)
        as (s & Hheap & _ & Hfs & Hfrom & Hfresh & Hev & _).
      destruct (IH _ _ _ H) as (j & created & -> & Hj & Hheap' & Hall & Hfr & Hfs' & Hev').
      exists (S j), (s :: created).
      rewrite Hheap', Hheap, Hfs', Hfs, <- app_assoc.
      split; [lia|]. split; [exact Hj|]. split; [reflexivity|].
      split; [constructor; assumption|]. split; [constructor; assumption|].
      split; [reflexivity|].
      eapply only_events_trans; [|exact Hev'].
      eapply only_events_one; [exact Hev | reflexivity].
    + inversion H; subst.
      destruct (create_one_raise _ _ _ _ _ _ _ _ _ Hone) as (Hheap & Hfs & Hev).
      exists 0, []. rewrite Hheap, app_nil_r, Nat.add_0_r.
      repeat split; auto; constructor.
Qed.

(** X3: when [generate_shipments] completes, it has asked the carrier for
    exactly one shipment per row, in file order, each built from its row with
    the shared origin address and parcel; the list it returns refers to these
    new objects in the same order; nothing is purchased yet (no tracking
    code, no label), one line is printed per row and no file is touched. *)
Theorem generate_shipments_creates_one_per_row (env : Env)
    (address parcel csv_path : string) (shipments : list nat) (w w' : World) :
  generate_shipments env address parcel csv_path w = (Ok shipments, w') ->
  exists rows created,
    (iterate_csv env csv_path w).1 = Ok rows
    /\ Forall2 (created_from address parcel) rows created
    /\ Forall fresh created
    /\ heap w' = heap w ++ created
    /\ shipments = seq (length (heap w)) (length rows)
    /\ events w' = events w ++ (EvShipmentCreate <$> (request <$> created))
    /\ stdout w'
       = stdout w
         ++ ((fun shipment =>
                "Creating shipment to: "
                  +:+ str_cell (ta_name (rq_to_address (request shipment))))
               <$> created)
    /\ fs w' = fs w.
Proof.
  unfold generate_shipments. intros Hrun.
  destruct (for_rows_done _ _ _ _ _ _ _ Hrun) as (rows & Hrows & H).
  unfold for_each in H.
  destruct (for_enum _ 0 rows [] w) as [[res|k x e] w1] eqn:Hloop; [|discriminate].
  inversion H; subst.
  destruct (create_loop_done _ _ _ _ _ _ _ _ _ Hloop)
    as (created & Hheap & Hres & Hfs & Hall & Hfresh & Hev & Hout).
  exists rows, created. repeat split; auto.
Qed.

Lemma generate_shipments_creates_one_per_row_witness :
  generate_shipments Demo.env_ok "address adr_1" "parcel pcl_1" "in.csv" Demo.w0
  = (Ok [0; 1; 2], Demo.w_created)
  /\ exists rows created,
       (iterate_csv Demo.env_ok "in.csv" Demo.w0).1 = Ok rows
       /\ heap Demo.w_created = heap Demo.w0 ++ created
       /\ [0; 1; 2] = seq (length (heap Demo.w0)) (length rows).
Proof.
  split; [vm_compute; reflexivity|].
  destruct (generate_shipments_creates_one_per_row Demo.env_ok "address adr_1"
              "parcel pcl_1" "in.csv" [0; 1; 2] Demo.w0 Demo.w_created)
    as (rows & created & Hrows & _ & _ & Hheap & Hrefs & _).
  - vm_compute; reflexivity.
  - exists rows, created. auto.
Defined.

Lemma rows_read_ok (env : Env) (csv_path : string) (w : World) (rows : list Row) :
  (iterate_csv env csv_path w).1 = Ok rows -> rows_read env csv_path w = rows.
Proof.
  unfold iterate_csv, rows_read, read_records.
  destruct (fs w !! csv_path) as [f|]; [|discriminate].
  destruct (read_stream env f) as [records [e|]]; [discriminate|].
  intros H. inversion H. reflexivity.
Qed.

Lemma only_creates (w w' : World) (requests : list ShipmentRequest) :
  events w' = events w ++ (EvShipmentCreate <$> requests) ->
  only_events is_create w w'.
Proof.
  intros Hev. exists (EvShipmentCreate <$> requests). split; [exact Hev|].
  clear Hev. induction requests as [|req requests IH]; [reflexivity | exact IH].
Qed.

(** How [generate_shipments] can raise: its body failed at a row, or the
    reader failed once the body had run for all the rows read. *)
Lemma generate_shipments_raise (env : Env) (address parcel csv_path : string)
    (w w' : World) (e : exn) :
  generate_shipments env address parcel csv_path w = (Raise e, w') ->
  exists j created,
    Forall2 (created_from address parcel) (take j (rows_read env csv_path w)) created
    /\ Forall fresh created
    /\ heap w' = heap w ++ created
    /\ only_events is_create w w'
    /\ fs w' = fs w
    /\ (j < length (rows_read env csv_path w)
        \/ (j = length (rows_read env csv_path w)
            /\ (iterate_csv env csv_path w).1 = Raise e)).
Proof.
  unfold generate_shipments. rewrite for_rows_eq.
  assert (Hbody : forall rows k row e0 w1,
            for_enum (create_one env address parcel) 0 rows [] w = (LoopRaised k row e0, w1) ->
            exists j created,
              Forall2 (created_from address parcel) (take j rows) created
              /\ Forall fresh created
              /\ heap w1 = heap w ++ created
              /\ only_events is_create w w1
              /\ fs w1 = fs w
              /\ j < length rows).
  { intros rows k row e0 w1 Hloop.
    destruct (create_loop_raised _ _ _ _ _ _ _ _ _ _ _ Hloop)
      as (j & created & _ & Hj & Hheap & Hall & Hfresh & Hfs & Hev).
    exists j, created. repeat split; auto. eapply lookup_lt_Some. exact Hj. }
  destruct (iterate_csv env csv_path w).1 as [rows|e0] eqn:Hread.
  - rewrite (rows_read_ok _ _ _ _ Hread). unfold for_each.
    destruct (for_enum _ 0 rows [] w) as [[res|k row e0] w1] eqn:Hloop; [discriminate|].
    intros H. inversion H; subst.
    destruct (Hbody _ _ _ _ _ Hloop) as (j & created & H1 & H2 & H3 & H4 & H5 & H6).
    exists j, created. auto 10.
  - unfold bind, raise, for_each.
    destruct (for_enum _ 0 (rows_read env csv_path w) [] w) as [[res|k row e1] w1] eqn:Hloop;
      intros H; inversion H; subst.
    + destruct (create_loop_done _ _ _ _ _ _ _ _ _ Hloop)
        as (created & Hheap & _ & Hfs & Hall & Hfresh & Hev & _).
      exists (length (rows_read env csv_path w)), created.
      rewrite firstn_all. repeat split; auto.
      eapply only_creates. exact Hev.
    + destruct (Hbody _ _ _ _ _ Hloop) as (j & created & H1 & H2 & H3 & H4 & H5 & H6).
      exists j, created. auto 10.
Qed.

(** X4: when [generate_shipments] raises, it stopped after some number [j] of
    the rows read: these [j] rows each have their unpurchased shipment at the
    carrier, in order, no other shipment was created, only creation requests
    were made and no file was touched.  Either the body failed at row [j], or
    the reader failed after the body had run for all the rows it had handed
    out; the exception then is the reader's.  The list of the shipments
    created so far is lost with the exception. *)
Theorem generate_shipments_stops_at_failing_row (env : Env)
    (address parcel csv_path : string) (w w' : World) (e : exn) :
  generate_shipments env address parcel csv_path w = (Raise e, w') ->
  exists j created,
    Forall2 (created_from address parcel) (take j (rows_read env csv_path w)) created
    /\ Forall fresh created
    /\ heap w' = heap w ++ created
    /\ only_events is_create w w'
    /\ fs w' = fs w
    /\ (j < length (rows_read env csv_path w)
        \/ (j = length (rows_read env csv_path w)
            /\ (iterate_csv env csv_path w).1 = Raise e)).
Proof. apply generate_shipments_raise. Qed.

Lemma generate_shipments_stops_at_failing_row_witness :
  generate_shipments Sample.env_bad_tail "address adr_1" "parcel pcl_1" "in.csv"
    Sample.w_bad_tail
  = (Raise Sample.decode_error, Sample.w_bad_tail_failed)
  /\ length (heap Sample.w_bad_tail_failed) = 2
  /\ exists j created,
       Forall2 (created_from "address adr_1" "parcel pcl_1")
               (take j (rows_read Sample.env_bad_tail "in.csv" Sample.w_bad_tail)) created
       /\ heap Sample.w_bad_tail_failed = heap Sample.w_bad_tail ++ created
       /\ fs Sample.w_bad_tail_failed = fs Sample.w_bad_tail.
Proof.
  split; [vm_compute; reflexivity|]. split; [reflexivity|].
  destruct (generate_shipments_stops_at_failing_row Sample.env_bad_tail "address adr_1"
              "parcel pcl_1" "in.csv" Sample.w_bad_tail Sample.w_bad_tail_failed
              Sample.decode_error)
    as (j & created & Hall & _ & Hheap & _ & Hfs & _).
  - vm_compute; reflexivity.
  - exists j, created. auto.
Defined.

Lemma generate_shipments_raise_frame (env : Env) (address parcel csv_path : string)
    (w w' : World) (e : exn) :
  generate_shipments env address parcel csv_path w = (Raise e, w') ->
  only_events is_create w w' /\ fs w' = fs w.
Proof.
  intros H. destruct (generate_shipments_raise _ _ _ _ _ _ _ H)
    as (j & created & _ & _ & _ & Hev & Hfs & _). auto.
Qed.

(** X5: when shipment creation fails, [run] raises that exception unchanged;
    beyond the two resolutions and the path check, the carrier was only asked
    to create shipments: nothing was bought, no refund was requested and no
    file was written. *)
Theorem run_creation_failure (env : Env)
    (from_address_id parcel_id csv_path address parcel : string)
    (w w1 : World) (e : exn) :
  address_retrieve env from_address_id = Ok address ->
  parcel_retrieve env parcel_id = Ok parcel ->
  is_Some (fs w !! csv_path) ->
  generate_shipments env address parcel csv_path
    (after_lookups from_address_id parcel_id csv_path w) = (Raise e, w1) ->
  run env from_address_id parcel_id csv_path w = (Raise e, w1)
  /\ only_events is_create (after_lookups from_address_id parcel_id csv_path w) w1
  /\ fs w1 = fs w.
Proof.
  intros Ha Hp Hfile Hgen.
  rewrite (run_after_lookups env _ _ _ w address parcel Ha Hp Hfile).
  unfold bind at 1. rewrite Hgen. split; [reflexivity|].
  apply generate_shipments_raise_frame in Hgen. exact Hgen.
Qed.

Lemma run_creation_failure_witness :
  address_retrieve Demo.env_ok "adr_1" = Ok "address adr_1"
  /\ parcel_retrieve Demo.env_ok "pcl_1" = Ok "parcel pcl_1"
  /\ is_Some (fs Sample.w_no_zip !! "in.csv")
  /\ generate_shipments Demo.env_ok "address adr_1" "parcel pcl_1" "in.csv"
       (after_lookups "adr_1" "pcl_1" "in.csv" Sample.w_no_zip)
     = (Raise (KeyError "Zip"), Sample.w_no_zip_run)
  /\ run Demo.env_ok "adr_1" "pcl_1" "in.csv" Sample.w_no_zip
     = (Raise (KeyError "Zip"), Sample.w_no_zip_run).
Proof.
  split; [reflexivity|]. split; [reflexivity|].
  split; [eexists; vm_compute; reflexivity|]. split; [vm_compute; reflexivity|].
  apply (run_creation_failure Demo.env_ok "adr_1" "pcl_1" "in.csv"
           "address adr_1" "parcel pcl_1" Sample.w_no_zip Sample.w_no_zip_run
           (KeyError "Zip")).
  - reflexivity.
  - reflexivity.
  - eexists; vm_compute; reflexivity.
  - vm_compute; reflexivity.
Defined.

(** ** Names of the artifacts (lines 74-75, 102-103, 113-118, 137-138) *)

Lemma append_cancel_l (pre x y : string) : pre +:+ x = pre +:+ y -> x = y.
Proof.
  induction pre as [|c pre IH]; cbn; intros H; [exact H|].
  inversion H. auto.
Qed.

Lemma separator_splits (a b x y : string) :
  no_underscore a = true -> no_underscore b = true ->
  a +:+ String "_" x = b +:+ String "_" y -> a = b.
Proof.
  revert b. induction a as [|c a IH]; intros [|d b] Ha Hb H; cbn in *.
  - reflexivity.
  - inversion H; subst. rewrite Ascii.eqb_refl in Hb. discriminate.
  - inversion H; subst. rewrite Ascii.eqb_refl in Ha. discriminate.
  - inversion H; subst. apply andb_prop in Ha as [_ Ha]. apply andb_prop in Hb as [_ Hb].
    f_equal. eapply IH; eauto.
Qed.

Lemma string_of_uint_no_underscore (d : Decimal.uint) :
  no_underscore (NilEmpty.string_of_uint d) = true.
Proof. induction d; cbn; auto. Qed.

Lemma zeros_no_underscore (n : nat) : no_underscore (Str.zeros n) = true.
Proof. induction n; cbn; auto. Qed.

Lemma no_underscore_app (a b : string) :
  no_underscore a = true -> no_underscore b = true -> no_underscore (a +:+ b) = true.
Proof.
  induction a as [|c a IH]; intros Ha Hb; [exact Hb|].
  change (String c a +:+ b) with (String c (a +:+ b)).
  cbn [no_underscore] in *. apply andb_prop in Ha as [-> Ha]. cbn [andb]. auto.
Qed.

Lemma zfill_no_underscore (width n : nat) :
  no_underscore (Str.zfill width (Str.of_nat n)) = true.
Proof.
  unfold Str.zfill, Str.of_nat.
  apply no_underscore_app; [apply zeros_no_underscore | apply string_of_uint_no_underscore].
Qed.

Lemma digits_value_of_nat (n : nat) : digits_value (Str.of_nat n) = Some n.
Proof.
  unfold digits_value, Str.of_nat. rewrite NilEmpty.usu. cbn.
  rewrite DecimalNat.Unsigned.of_to. reflexivity.
Qed.

Lemma digits_value_zero (s : string) :
  digits_value (String "0" s) = digits_value s.
Proof.
  unfold digits_value. cbn [NilEmpty.uint_of_string].
  destruct (NilEmpty.uint_of_string s) as [d|]; reflexivity.
Qed.

Lemma digits_value_zeros (k : nat) (s : string) :
  digits_value (Str.zeros k +:+ s) = digits_value s.
Proof.
  induction k as [|k IH]; [reflexivity|].
  change (Str.zeros (S k) +:+ s) with (String "0" (Str.zeros k +:+ s)).
  rewrite digits_value_zero. exact IH.
Qed.

(** The zero-padded index is read back as the index. *)
Lemma digits_value_zfill (width n : nat) :
  digits_value (Str.zfill width (Str.of_nat n)) = Some n.
Proof. unfold Str.zfill. rewrite digits_value_zeros. apply digits_value_of_nat. Qed.

Lemma zfill_index_inj (i j : nat) (x y : string) :
  Str.zfill 3 (Str.of_nat i) +:+ String "_" x = Str.zfill 3 (Str.of_nat j) +:+ String "_" y ->
  i = j.
Proof.
  intros H. apply separator_splits in H; try apply zfill_no_underscore.
  apply (f_equal digits_value) in H. rewrite !digits_value_zfill in H. congruence.
Qed.

(** X6: the files written for different row indices have different names,
    whatever the tracking codes of the shipments are: no label, note or
    merged document of one row overwrites that of another row. *)
Theorem artifact_paths_distinct (i j : nat) (s s' : Shipment) :
  i ≠ j ->
  label_path i s ≠ label_path j s'
  /\ note_path i s ≠ note_path j s'
  /\ label_note_path i s ≠ label_note_path j s'.
Proof.
  intros Hij. unfold label_path, note_path, label_note_path.
  repeat split; intros H; apply Hij; apply append_cancel_l in H;
    eapply zfill_index_inj; exact H.
Qed.

Lemma artifact_paths_distinct_witness :
  0 ≠ 1
  /\ label_path 0 blank_shipment ≠ label_path 1 blank_shipment
  /\ note_path 0 blank_shipment ≠ note_path 1 blank_shipment
  /\ label_note_path 0 blank_shipment ≠ label_note_path 1 blank_shipment.
Proof.
  split; [discriminate|].
  apply (artifact_paths_distinct 0 1 blank_shipment blank_shipment). discriminate.
Defined.

(** ** The destination address (lines 50-58) *)

Lemma upper_ascii_not_lower (c : ascii) :
  Str.is_lower_letter (Str.upper_ascii c) = false.
Proof. destruct c as [[] [] [] [] [] [] [] []]; vm_compute; reflexivity. Qed.

Lemma high_not_lower (c : ascii) :
  high c = true -> negb (Str.is_lower_letter c) = true.
Proof. destruct c as [[] [] [] [] [] [] [] []]; vm_compute; congruence. Qed.

Lemma continuation_high (c : ascii) : Str.is_continuation c = true -> high c = true.
Proof. destruct c as [[] [] [] [] [] [] [] []]; vm_compute; congruence. Qed.

Lemma lead_high (c : ascii) (p : nat) : Str.width c - 1 = S p -> high c = true.
Proof.
  destruct c as [[] [] [] [] [] [] [] []]; vm_compute; intros; first [reflexivity | discriminate].
Qed.

Lemma all_chars_app (p : ascii -> bool) (a b : string) :
  all_chars p (a +:+ b) = all_chars p a && all_chars p b.
Proof.
  induction a as [|c a IH]; [reflexivity|].
  change (String c a +:+ b) with (String c (a +:+ b)). cbn [all_chars].
  rewrite IH. apply andb_assoc.
Qed.

Lemma high_group_ok (g : string) : all_chars high g = true -> group_ok g = true.
Proof. destruct g as [|c [|c' g]]; intros H; [exact H | reflexivity | exact H]. Qed.

(** [Str.chars] cuts a text into single bytes and groups of bytes beyond
    ASCII. *)
Lemma chars_from_groups (s : string) (pending : nat) (cur : string) :
  group_ok cur = true ->
  (pending <> 0 -> all_chars high cur = true) ->
  Forall (fun g => group_ok g = true) (Str.chars_from pending cur s).
Proof.
  revert pending cur. induction s as [|b rest IH]; intros pending cur Hok Hhigh.
  - cbn. constructor; [exact Hok | constructor].
  - assert (Hnew : Forall (fun g => group_ok g = true)
                     (cur :: Str.chars_from (Str.width b - 1) (String b EmptyString) rest)).
    { constructor; [exact Hok|]. apply IH; [reflexivity|].
      destruct (Str.width b - 1) as [|p] eqn:Hw; [congruence|]. intros _.
      cbn [all_chars]. rewrite (lead_high b p Hw). reflexivity. }
    cbn [Str.chars_from]. destruct pending as [|pending']; [exact Hnew|].
    destruct (Str.is_continuation b) eqn:Hb; [|exact Hnew].
    assert (Hall : all_chars high (cur +:+ String b EmptyString) = true).
    { rewrite all_chars_app, (Hhigh (Nat.neq_succ_0 _)). cbn [all_chars].
      rewrite (continuation_high b Hb). reflexivity. }
    apply IH; [apply high_group_ok; exact Hall | intros _; exact Hall].
Qed.

Lemma chars_groups (s : string) : Forall (fun g => group_ok g = true) (Str.chars s).
Proof.
  destruct s as [|b rest]; [constructor|].
  unfold Str.chars. apply chars_from_groups; [reflexivity|].
  destruct (Str.width b - 1) as [|p] eqn:Hw; [congruence|]. intros _.
  cbn [all_chars]. rewrite (lead_high b p Hw). reflexivity.
Qed.

Lemma assoc_forallb (q : string -> bool) (table : list (string * string))
    (key value : string) :
  forallb (fun entry => q entry.2) table = true ->
  Str.assoc key table = Some value ->
  q value = true.
Proof.
  induction table as [|[k v] table IH]; [discriminate|].
  cbn [forallb Str.assoc snd]. intros Hall Hfind. apply andb_prop in Hall as [Hv Hall].
  destruct (String.eqb key k); [inversion Hfind; subst; exact Hv | eauto].
Qed.

(** No uppercase listed in the table holds a lowercase ASCII letter. *)
Lemma upper_table_not_lower :
  forallb (fun entry => all_chars (fun c => negb (Str.is_lower_letter c)) entry.2)
          Str.upper_table = true.
Proof. vm_compute. reflexivity. Qed.

Lemma all_chars_impl (p q : ascii -> bool) (s : string) :
  (forall c, p c = true -> q c = true) -> all_chars p s = true -> all_chars q s = true.
Proof.
  intros Hpq. induction s as [|c s IH]; [reflexivity|].
  cbn [all_chars]. intros H. apply andb_prop in H as [Hc Hs].
  rewrite (Hpq c Hc), (IH Hs). reflexivity.
Qed.

Lemma upper_char_not_lower (g : string) :
  group_ok g = true ->
  all_chars (fun c => negb (Str.is_lower_letter c)) (Str.upper_char g) = true.
Proof.
  intros Hok.
  assert (Hlisted : all_chars high g = true ->
            all_chars (fun c => negb (Str.is_lower_letter c))
                      (default g (Str.assoc g Str.upper_table)) = true).
  { intros Hhigh. destruct (Str.assoc g Str.upper_table) as [u|] eqn:Hfind; cbn [default].
    - apply (assoc_forallb _ _ _ _ upper_table_not_lower Hfind).
    - apply (all_chars_impl high); [apply high_not_lower | exact Hhigh]. }
  destruct g as [|b [|b' g']].
  - apply Hlisted. reflexivity.
  - unfold Str.upper_char. cbn [all_chars]. rewrite upper_ascii_not_lower. reflexivity.
  - apply Hlisted. exact Hok.
Qed.

Lemma upper_not_lower (s : string) :
  all_chars (fun c => negb (Str.is_lower_letter c)) (Str.upper s) = true.
Proof.
  unfold Str.upper. induction (chars_groups s) as [|g gs Hg _ IH]; [reflexivity|].
  cbn [fmap list_fmap Str.join fold_right]. rewrite all_chars_app.
  rewrite (upper_char_not_lower g Hg). exact IH.
Qed.

(** X7: whatever the row, the state sent to the carrier holds no lowercase
    ASCII letter, also when the State cell holds characters beyond ASCII. *)
Theorem state_never_lowercase (row : Row) (address : ToAddress) :
  to_address_of_row row = Ok address ->
  all_chars (fun c => negb (Str.is_lower_letter c)) (ta_state address) = true.
Proof.
  intros H. destruct (to_address_state row address H) as (st & _ & -> & _).
  apply upper_not_lower.
Qed.

Lemma state_never_lowercase_witness :
  to_address_of_row Sample.row_sharp_s = Ok Sample.address_eva
  /\ ta_state Sample.address_eva = "SSA"
  /\ all_chars (fun c => negb (Str.is_lower_letter c)) (ta_state Sample.address_eva) = true.
Proof.
  split; [vm_compute; reflexivity|]. split; [reflexivity|].
  apply (state_never_lowercase Sample.row_sharp_s Sample.address_eva).
  vm_compute; reflexivity.
Defined.

(** ** The purchase stage (lines 63-83) *)

(** One purchase that completes, step by step. *)
Lemma purchase_one_done (env : Env) (index ref : nat) (w w' : World) :
  purchase_one env index ref tt w = (Ok tt, w') ->
  exists shipment rate code url data,
    heap w !! ref = Some shipment
    /\ lowest_rate env shipment = Ok rate
    /\ shipment_buy env ref shipment rate = Ok (code, url)
    /\ urlopen env url = Ok (Ok data)
    /\ heap w' = <[ref := bought shipment code url]> (heap w)
    /\ fs w' = <[label_path index (bought shipment code url) := Blob data]> (fs w)
    /\ events w' = events w ++ [EvBuy ref; EvUrlopen url]
    /\ stdout w' = stdout w ++ ["Purchasing postage to: " +:+ to_address_name shipment;
                                "Downloading label " +:+ url].
Proof.
  unfold purchase_one, bind, deref, print, lift, Shipment_buy, bind, emit, deref,
    urllib_urlopen, bind, emit, lift, open_wb, write, postage_label_url.
  cbn [heap fs stdout events set_heap set_fs add_stdout add_event].
  destruct (heap w !! ref) as [shipment|] eqn:Href; cbn [default from_option id].
  - destruct (lowest_rate env shipment) as [rate|e] eqn:Hrate; [|discriminate].
    destruct (shipment_buy env ref shipment rate) as [[code url]|e] eqn:Hbuy;
      [|discriminate].
    cbn [heap fs stdout events set_heap set_fs add_stdout add_event].
    rewrite list_lookup_insert_eq by (eapply lookup_lt_Some; exact Href).
    cbn [default from_option id label_url tracking_code].
    destruct (urlopen env url) as [response|e] eqn:Hurl; [|discriminate].
    cbn [heap fs stdout events set_heap set_fs add_stdout add_event].
    destruct (open_write env _) as [e|]; [discriminate|].
    destruct response as [data|e]; [|discriminate].
    intros H. inversion H; subst. clear H.
    exists shipment, rate, code, url, data.
    cbn [heap fs stdout events set_heap set_fs add_stdout add_event].
    rewrite insert_insert_eq, <- !app_assoc. repeat split; auto.
  - destruct (lowest_rate env blank_shipment) as [rate|e]; [|discriminate].
    destruct (shipment_buy env ref blank_shipment rate) as [[code url]|e];
      [|discriminate].
    cbn [heap fs stdout events set_heap set_fs add_stdout add_event].
    rewrite list_insert_ge by (apply lookup_ge_None; exact Href).
    rewrite Href. cbn. discriminate.
Qed.

Lemma purchase_one_heap_other (env : Env) (index ref : nat) (u : unit) (w : World)
    (r : nat) :
  r ≠ ref -> heap (purchase_one env index ref u w).2 !! r = heap w !! r.
Proof.
  intros Hr.
  unfold purchase_one, bind, deref, print, lift, Shipment_buy, bind, emit, deref,
    urllib_urlopen, bind, emit, lift, open_wb, write, postage_label_url.
  cbn.
  repeat (destruct_match; cbn [snd]);
    cbn [heap fs set_heap set_fs add_stdout add_event];
    rewrite ?list_lookup_insert_ne by congruence; reflexivity.
Qed.

Lemma purchase_one_fs_other (env : Env) (index ref : nat) (u : unit) (w : World)
    (path : string) :
  (forall shipment, path ≠ label_path index shipment) ->
  fs (purchase_one env index ref u w).2 !! path = fs w !! path.
Proof.
  intros Hpath.
  unfold purchase_one, bind, deref, print, lift, Shipment_buy, bind, emit, deref,
    urllib_urlopen, bind, emit, lift, open_wb, write, postage_label_url.
  cbn.
  repeat (destruct_match; cbn [snd]);
    cbn [heap fs set_heap set_fs add_stdout add_event];
    rewrite ?lookup_insert_ne by (intros Heq; eapply Hpath; symmetry; exact Heq);
    reflexivity.
Qed.

Lemma purchase_loop_heap_other (env : Env) (refs : list nat) (index : nat) (w : World)
    (r : nat) :
  r ∉ refs -> heap (for_enum (purchase_one env) index refs tt w).2 !! r = heap w !! r.
Proof.
  revert index w. induction refs as [|ref refs IH]; intros index w Hr; cbn [for_enum].
  - reflexivity.
  - apply not_elem_of_cons in Hr as [Hne Hr].
    pose proof (purchase_one_heap_other env index ref tt w r Hne) as H1.
    destruct (purchase_one env index ref tt w) as [[[]|e] w1]; cbn [snd] in *.
    + rewrite IH by exact Hr. exact H1.
    + exact H1.
Qed.

Lemma purchase_loop_fs_other (env : Env) (refs : list nat) (index : nat) (w : World)
    (path : string) :
  (forall j shipment, index <= j -> path ≠ label_path j shipment) ->
  fs (for_enum (purchase_one env) index refs tt w).2 !! path = fs w !! path.
Proof.
  revert index w. induction refs as [|ref refs IH]; intros index w Hpath; cbn [for_enum].
  - reflexivity.
  - pose proof (purchase_one_fs_other env index ref tt w path
                  (fun s => Hpath index s (le_n index))) as H1.
    destruct (purchase_one env index ref tt w) as [[[]|e] w1]; cbn [snd] in *.
    + rewrite IH; [exact H1|]. intros j s Hj. apply Hpath. lia.
    + exact H1.
Qed.

Lemma label_path_inj (i j : nat) (s s' : Shipment) :
  label_path i s = label_path j s' -> i = j.
Proof.
  unfold label_path. intros H. apply append_cancel_l in H.
  eapply zfill_index_inj. exact H.
Qed.

Lemma purchase_loop_done (env : Env) (refs : list nat) (index : nat) (w w' : World) :
  NoDup refs ->
  for_enum (purchase_one env) index refs tt w = (LoopDone tt, w') ->
  forall i ref,
    refs !! i = Some ref ->
    exists shipment rate code url data,
      heap w !! ref = Some shipment
      /\ lowest_rate env shipment = Ok rate
      /\ shipment_buy env ref shipment rate = Ok (code, url)
      /\ urlopen env url = Ok (Ok data)
      /\ heap w' !! ref = Some (bought shipment code url)
      /\ fs w' !! label_path (index + i) (bought shipment code url) = Some (Blob data).
Proof.
  revert index w. induction refs as [|ref0 refs IH]; intros index w Hnd Hloop i ref Hi.
  - inversion Hi.
  - cbn [for_enum] in Hloop. apply NoDup_cons in Hnd as [Hfresh Hnd].
    destruct (purchase_one env index ref0 tt w) as [[[]|e] w1] eqn:Hone;
      [|discriminate Hloop].
    destruct (purchase_one_done _ _ _ _ _ Hone)
      as (s & rate & code & url & data & Href & Hrate & Hbuy & Hurl & Hheap & Hfs & _).
    pose proof (purchase_loop_heap_other env refs (S index) w1 ref0 Hfresh) as Hkeep.
    pose proof (purchase_loop_fs_other env refs (S index) w1
                  (label_path index (bought s code url))) as Hfile.
    rewrite Hloop in Hkeep, Hfile. cbn [snd] in Hkeep, Hfile.
    destruct i as [|i]; cbn in Hi.
    + inversion Hi; subst ref. exists s, rate, code, url, data.
      rewrite Nat.add_0_r, Hkeep, Hfile, Hheap, Hfs.
      * repeat split; auto.
        -- apply list_lookup_insert_eq. eapply lookup_lt_Some. exact Href.
        -- apply lookup_insert_eq.
      * intros j s' Hj Heq. apply label_path_inj in Heq. lia.
    + destruct (IH (S index) w1 Hnd Hloop i ref Hi)
        as (s' & rate' & code' & url' & data' & Href' & Hrate' & Hbuy' & Hurl' & Hh' & Hf').
      exists s', rate', code', url', data'.
      replace (index + S i) with (S index + i) by lia.
      repeat split; auto.
      rewrite Hheap in Href'. rewrite list_lookup_insert_ne in Href'; [exact Href'|].
      intros ->. apply Hfresh. apply list_elem_of_lookup. eauto.
Qed.

Lemma refunds_of_allowed (allowed : Event -> bool) (evs : list Event) :
  (forall ev, allowed ev = true -> is_refund ev = false) ->
  forallb allowed evs = true -> refunds_of evs = [].
Proof.
  intros Hno. induction evs as [|ev evs IH]; cbn; [reflexivity|].
  intros H. apply andb_prop in H as [Hev Hevs]. apply Hno in Hev.
  destruct ev; try discriminate; cbn; auto.
Qed.

Lemma buys_of_allowed (allowed : Event -> bool) (evs : list Event) :
  (forall ref, allowed (EvBuy ref) = false) ->
  forallb allowed evs = true -> buys_of evs = [].
Proof.
  intros Hno. induction evs as [|ev evs IH]; cbn; [reflexivity|].
  intros H. apply andb_prop in H as [Hev Hevs].
  destruct ev; cbn; auto. rewrite Hno in Hev. discriminate.
Qed.

Lemma purchase_one_only (env : Env) (index ref : nat) (u : unit) (w : World) :
  only_events is_purchase_call w (purchase_one env index ref u w).2.
Proof.
  unfold purchase_one, bind, deref, print, lift, Shipment_buy, bind, emit, deref,
    urllib_urlopen, bind, emit, lift, open_wb, write, postage_label_url.
  cbn.
  repeat (destruct_match; cbn [snd]);
    first [ apply only_events_same; reflexivity
          | eapply only_events_one; reflexivity
          | eexists [EvBuy ref; EvUrlopen _]; cbn; rewrite <- app_assoc;
            split; reflexivity ].
Qed.

Lemma purchase_loop_only (env : Env) (refs : list nat) (index : nat) (w : World) :
  only_events is_purchase_call w (for_enum (purchase_one env) index refs tt w).2.
Proof.
  apply (for_enum_preserves (purchase_one env) (only_events is_purchase_call)).
  - apply only_events_refl.
  - apply only_events_trans.
  - apply purchase_one_only.
Qed.

(** X8: when the purchase loop completes on a list of distinct shipments,
    every shipment of the list was bought at the rate [lowest_rate] chose for
    it, its object now is purchased and carries the tracking code and label
    URL the carrier answered, and the label file named after its index and
    tracking code holds the bytes downloaded from that URL.  No refund is
    requested. *)
Theorem purchase_postage_completes (env : Env) (shipments : list nat) (w w' : World) :
  NoDup shipments ->
  for_enum (purchase_one env) 0 shipments tt w = (LoopDone tt, w') ->
  purchase_postage env shipments w = (Ok tt, w')
  /\ (exists evs, events w' = events w ++ evs
                  /\ buys_of evs = shipments /\ refunds_of evs = [])
  /\ forall i ref,
       shipments !! i = Some ref ->
       exists shipment rate code url data,
         heap w !! ref = Some shipment
         /\ lowest_rate env shipment = Ok rate
         /\ shipment_buy env ref shipment rate = Ok (code, url)
         /\ urlopen env url = Ok (Ok data)
         /\ heap w' !! ref = Some (bought shipment code url)
         /\ fs w' !! label_path i (bought shipment code url) = Some (Blob data).
Proof.
  intros Hnd Hloop. split; [unfold purchase_postage; rewrite Hloop; reflexivity|].
  split.
  - destruct (purchase_loop_events env shipments 0 w) as (evs & Hev & Hb).
    destruct (purchase_loop_only env shipments 0 w) as (evs' & Hev' & Hall).
    rewrite Hloop in Hev, Hb, Hev'. cbn [fst snd] in *.
    assert (evs' = evs) by (apply (app_inv_head (events w)); rewrite <- Hev, <- Hev'; reflexivity).
    subst evs'.
    exists evs. split; [exact Hev|]. split; [exact Hb|].
    eapply refunds_of_allowed; [|exact Hall]. intros ev Hok; destruct ev; cbn in *; congruence.
  - intros i ref Hi. apply (purchase_loop_done env shipments 0 w w' Hnd Hloop i ref Hi).
Qed.

Lemma purchase_postage_completes_witness :
  NoDup [0; 1; 2]
  /\ for_enum (purchase_one Demo.env_ok) 0 [0; 1; 2] tt Demo.w_created
     = (LoopDone tt, Sample.w_bought)
  /\ purchase_postage Demo.env_ok [0; 1; 2] Demo.w_created = (Ok tt, Sample.w_bought)
  /\ exists shipment,
       heap Sample.w_bought !! 1 = Some (bought shipment "TRK1" "https://label/1")
       /\ fs Sample.w_bought !! "labels/ROW_001_TRK1_LABEL.pdf"
          = Some (Blob "label https://label/1").
Proof.
  assert (Hnd : NoDup [0; 1; 2]) by (apply NoDup_seq with (j := 0) (n := 3)).
  split; [exact Hnd|]. split; [vm_compute; reflexivity|].
  destruct (purchase_postage_completes Demo.env_ok [0; 1; 2] Demo.w_created
              Sample.w_bought Hnd)
    as (Hrun & _ & Hat); [vm_compute; reflexivity|].
  split; [exact Hrun|].
  destruct (Hat 1 1 eq_refl) as (s & rate & code & url & data & Hs & _ & Hbuy & Hurl & Hh & Hf).
  vm_compute in Hs. inversion Hs; subst s. clear Hs.
  vm_compute in Hbuy. inversion Hbuy; subst code url. clear Hbuy.
  vm_compute in Hurl. inversion Hurl; subst data. clear Hurl.
  eexists. split; [exact Hh | exact Hf].
Defined.

(** X9: an exception of the purchase loop that is no [Exception] (an
    interrupt) is not handled: [purchase_postage] raises it, no refund is
    requested, and the postage bought so far, for the shipments before the
    failing index and possibly for the failing one, stays bought. *)
Theorem purchase_postage_interrupt (env : Env) (shipments : list nat) (w w1 : World)
    (k ref : nat) (e : exn) :
  for_enum (purchase_one env) 0 shipments tt w = (LoopRaised k ref e, w1) ->
  is_Exception e = false ->
  purchase_postage env shipments w = (Raise e, w1)
  /\ exists evs,
       events w1 = events w ++ evs
       /\ refunds_of evs = []
       /\ (buys_of evs = take k shipments \/ buys_of evs = take k shipments ++ [ref]).
Proof.
  intros Hloop Hexn. split; [unfold purchase_postage; rewrite Hloop, Hexn; reflexivity|].
  destruct (for_enum_raised _ _ _ _ _ _ _ _ _ Hloop) as (j & Hk & Hj).
  cbn in Hk. subst j.
  destruct (purchase_loop_events env shipments 0 w) as (evs & Hev & Hb).
  destruct (purchase_loop_only env shipments 0 w) as (evs' & Hev' & Hall).
  rewrite Hloop in Hev, Hb, Hev'. cbn [fst snd] in *. rewrite Nat.sub_0_r in Hb.
  assert (evs' = evs)
    by (apply (app_inv_head (events w)); rewrite <- Hev, <- Hev'; reflexivity).
  subst evs'. exists evs. split; [exact Hev|]. split.
  - eapply refunds_of_allowed; [|exact Hall].
    intros ev Hok; destruct ev; cbn in *; congruence.
  - destruct Hb as [Hb|Hb]; [left; exact Hb | right].
    rewrite Hb. apply take_S_r. exact Hj.
Qed.

Lemma purchase_postage_interrupt_witness :
  for_enum (purchase_one Sample.env_interrupted) 0 [0; 1; 2] tt Demo.w_created
  = (LoopRaised 1 1 Sample.keyboard_interrupt, Sample.w_interrupted)
  /\ is_Exception Sample.keyboard_interrupt = false
  /\ purchase_postage Sample.env_interrupted [0; 1; 2] Demo.w_created
     = (Raise Sample.keyboard_interrupt, Sample.w_interrupted).
Proof.
  split; [vm_compute; reflexivity|]. split; [reflexivity|].
  apply (purchase_postage_interrupt Sample.env_interrupted [0; 1; 2] Demo.w_created
           Sample.w_interrupted 1 1 Sample.keyboard_interrupt).
  - vm_compute; reflexivity.
  - reflexivity.
Defined.

(** ** What the refund sweep does to the shipments (lines 32-40) *)

Lemma refund_one_heap_other (env : Env) (index ref : nat) (w : World) (r : nat) :
  r ≠ ref -> heap (refund_one env index ref tt w).2 !! r = heap w !! r.
Proof.
  intros Hr. rewrite refund_one_eq. cbn zeta.
  destruct (shipment_refund env ref _); cbn; [reflexivity|].
  apply list_lookup_insert_ne. congruence.
Qed.

Lemma refund_one_heap_at (env : Env) (index ref : nat) (w : World) (shipment : Shipment) :
  heap w !! ref = Some shipment ->
  heap (refund_one env index ref tt w).2 !! ref
  = Some (match shipment_refund env ref shipment with
          | None => refunded shipment
          | Some _ => shipment
          end).
Proof.
  intros Href. rewrite refund_one_eq. cbn zeta. rewrite Href.
  cbn [default from_option id].
  destruct (shipment_refund env ref shipment); cbn; [exact Href|].
  apply list_lookup_insert_eq. eapply lookup_lt_Some. exact Href.
Qed.

Lemma refund_loop_heap_other (env : Env) (refs : list nat) (index : nat) (w : World)
    (r : nat) :
  r ∉ refs -> heap (for_enum (refund_one env) index refs tt w).2 !! r = heap w !! r.
Proof.
  revert index w. induction refs as [|ref refs IH]; intros index w Hr; cbn [for_enum].
  - reflexivity.
  - apply not_elem_of_cons in Hr as [Hne Hr].
    pose proof (refund_one_heap_other env index ref w r Hne) as H1.
    pose proof (refund_one_ok env index ref w) as Hok.
    destruct (refund_one env index ref tt w) as [[[]|e] w1]; cbn [fst snd] in *;
      [|discriminate Hok].
    rewrite IH by exact Hr. exact H1.
Qed.

Lemma refund_loop_heap_at (env : Env) (refs : list nat) (index : nat) (w : World)
    (ref : nat) (shipment : Shipment) :
  NoDup refs -> ref ∈ refs ->
  heap w !! ref = Some shipment ->
  heap (for_enum (refund_one env) index refs tt w).2 !! ref
  = Some (match shipment_refund env ref shipment with
          | None => refunded shipment
          | Some _ => shipment
          end).
Proof.
  revert index w. induction refs as [|ref0 refs IH]; intros index w Hnd Hin Href.
  - inversion Hin.
  - cbn [for_enum]. apply NoDup_cons in Hnd as [Hfresh Hnd].
    pose proof (refund_one_ok env index ref0 w) as Hok.
    destruct (decide (ref = ref0)) as [->|Hne].
    + pose proof (refund_one_heap_at env index ref0 w shipment Href) as Hat.
      pose proof (refund_loop_heap_other env refs (S index)
                    (refund_one env index ref0 tt w).2 ref0 Hfresh) as Hkeep.
      destruct (refund_one env index ref0 tt w) as [[[]|e] w1]; cbn [fst snd] in *;
        [|discriminate Hok].
      rewrite Hkeep. exact Hat.
    + apply elem_of_cons in Hin as [?|Hin]; [contradiction|].
      pose proof (refund_one_heap_other env index ref0 w ref Hne) as Hother.
      destruct (refund_one env index ref0 tt w) as [[[]|e] w1]; cbn [fst snd] in *;
        [|discriminate Hok].
      apply IH; [exact Hnd | exact Hin |]. rewrite Hother. exact Href.
Qed.

(** X10: after the refund sweep over a list of distinct shipments, every
    shipment of the list whose refund the carrier accepted is refunded, every
    one it refused is as before, and so is every shipment outside the list;
    no file is touched. *)
Theorem refund_sweep_effect (env : Env) (shipments : list nat) (w : World) :
  NoDup shipments ->
  (forall ref shipment,
      ref ∈ shipments -> heap w !! ref = Some shipment ->
      heap (refund_postage env shipments w).2 !! ref
      = Some (match shipment_refund env ref shipment with
              | None => refunded shipment
              | Some _ => shipment
              end))
  /\ (forall ref, ref ∉ shipments ->
                  heap (refund_postage env shipments w).2 !! ref = heap w !! ref)
  /\ fs (refund_postage env shipments w).2 = fs w.
Proof.
  intros Hnd.
  destruct (refund_loop env shipments 0 w) as (w' & Hloop & _ & Hfs & _).
  assert (Hw : (refund_postage env shipments w).2
               = (for_enum (refund_one env) 0 shipments tt w).2).
  { unfold refund_postage, for_each. rewrite Hloop. reflexivity. }
  rewrite Hw. split; [|split].
  - intros ref s Hin Href. apply refund_loop_heap_at; assumption.
  - intros ref Hout. apply refund_loop_heap_other. exact Hout.
  - rewrite Hloop. exact Hfs.
Qed.

Lemma refund_sweep_effect_witness :
  NoDup [0; 1; 2]
  /\ exists shipment,
       heap Demo.w_declined !! 0 = Some shipment
       /\ heap (refund_postage Demo.env_fail1 [0; 1; 2] Demo.w_declined).2 !! 0
          = Some (refunded shipment).
Proof.
  assert (Hnd : NoDup [0; 1; 2]) by (apply NoDup_seq with (j := 0) (n := 3)).
  split; [exact Hnd|].
  destruct (refund_sweep_effect Demo.env_fail1 [0; 1; 2] Demo.w_declined Hnd)
    as (Hat & _ & _).
  destruct (heap Demo.w_declined !! 0) as [shipment|] eqn:Hs;
    [|vm_compute in Hs; discriminate Hs].
  exists shipment. split; [reflexivity|].
  rewrite (Hat 0 shipment (list_elem_of_here 0 [1; 2]) Hs).
  vm_compute in Hs. inversion Hs; subst shipment. reflexivity.
Defined.

Lemma purchase_loop_raised_prefix (env : Env) (refs : list nat) (index : nat)
    (w w1 : World) (k ref : nat) (e : exn) :
  NoDup refs ->
  for_enum (purchase_one env) index refs tt w = (LoopRaised k ref e, w1) ->
  forall i r,
    index + i < k ->
    refs !! i = Some r ->
    exists shipment code url, heap w1 !! r = Some (bought shipment code url).
Proof.
  revert index w. induction refs as [|ref0 refs IH]; intros index w Hnd Hloop i r Hlt Hi.
  - inversion Hi.
  - cbn [for_enum] in Hloop. apply NoDup_cons in Hnd as [Hfresh Hnd].
    destruct (purchase_one env index ref0 tt w) as [[[]|e0] w'] eqn:Hone.
    + destruct i as [|i]; cbn in Hi.
      * inversion Hi; subst r.
        destruct (purchase_one_done _ _ _ _ _ Hone)
          as (s & rate & code & url & data & Href & _ & _ & _ & Hheap & _).
        pose proof (purchase_loop_heap_other env refs (S index) w' ref0 Hfresh) as Hkeep.
        rewrite Hloop in Hkeep. cbn [snd] in Hkeep.
        exists s, code, url. rewrite Hkeep, Hheap.
        apply list_lookup_insert_eq. eapply lookup_lt_Some. exact Href.
      * apply (IH (S index) w' Hnd Hloop i r); [lia | exact Hi].
    + inversion Hloop; subst. lia.
Qed.

(** X11: when [purchase_postage] handles a failure of its loop at index [k]
    on a list of distinct shipments, then, with a carrier that takes back
    purchased postage, every shipment before index [k] ends refunded: the
    postage bought before the failure is not left behind. *)
Theorem purchase_failure_unwinds (env : Env) (shipments : list nat) (w w1 : World)
    (k ref : nat) (e : exn) :
  NoDup shipments ->
  for_enum (purchase_one env) 0 shipments tt w = (LoopRaised k ref e, w1) ->
  is_Exception e = true ->
  (forall r shipment, state shipment = Purchased ->
                      shipment_refund env r shipment = None) ->
  forall i r,
    i < k ->
    shipments !! i = Some r ->
    exists shipment,
      heap (purchase_postage env shipments w).2 !! r = Some shipment
      /\ state shipment = Refunded
      /\ is_Some (tracking_code shipment).
Proof.
  intros Hnd Hloop Hexn Haccept i r Hlt Hi.
  destruct (purchase_loop_raised_prefix env shipments 0 w w1 k ref e Hnd Hloop i r Hlt Hi)
    as (s & code & url & Hr).
  assert (Hin : r ∈ shipments) by (apply list_elem_of_lookup; eauto).
  unfold purchase_postage. rewrite Hloop, Hexn. unfold bind, deref, print.
  match goal with
  | |- context [refund_postage env shipments ?w'] =>
      destruct (refund_loop env shipments 0 w') as (w2 & Hsweep & _);
      pose proof (refund_loop_heap_at env shipments 0 w' r _ Hnd Hin Hr) as Hat
  end.
  unfold refund_postage, for_each. rewrite Hsweep in *. cbn [snd] in *.
  rewrite (Haccept r (bought s code url) eq_refl) in Hat.
  eexists. split; [exact Hat|]. split; [reflexivity|]. cbn. eauto.
Qed.

Lemma purchase_failure_unwinds_witness :
  NoDup [0; 1; 2]
  /\ for_enum (purchase_one Demo.env_fail1) 0 [0; 1; 2] tt Demo.w_created
     = (LoopRaised 1 1 Demo.payment_failed, Demo.w_declined)
  /\ is_Exception Demo.payment_failed = true
  /\ (forall r shipment, state shipment = Purchased ->
                         shipment_refund Demo.env_fail1 r shipment = None)
  /\ 0 < 1
  /\ [0; 1; 2] !! 0 = Some 0
  /\ exists shipment,
       heap (purchase_postage Demo.env_fail1 [0; 1; 2] Demo.w_created).2 !! 0
       = Some shipment
       /\ state shipment = Refunded
       /\ is_Some (tracking_code shipment).
Proof.
  assert (Hnd : NoDup [0; 1; 2]) by (apply NoDup_seq with (j := 0) (n := 3)).
  assert (Haccept : forall r shipment, state shipment = Purchased ->
                                       shipment_refund Demo.env_fail1 r shipment = None)
    by (intros r shipment Hs; cbn; rewrite Hs; reflexivity).
  split; [exact Hnd|]. split; [vm_compute; reflexivity|]. split; [reflexivity|].
  split; [exact Haccept|]. split; [lia|]. split; [reflexivity|].
  assert (Hloop : for_enum (purchase_one Demo.env_fail1) 0 [0; 1; 2] tt Demo.w_created
                  = (LoopRaised 1 1 Demo.payment_failed, Demo.w_declined))
    by (vm_compute; reflexivity).
  apply (purchase_failure_unwinds Demo.env_fail1 [0; 1; 2] Demo.w_created
           Demo.w_declined 1 1 Demo.payment_failed Hnd Hloop eq_refl Haccept 0 0).
  - lia.
  - reflexivity.
Defined.

(** ** The notes (lines 86-106) *)

Lemma note_path_inj (i j : nat) (s s' : Shipment) :
  note_path i s = note_path j s' -> i = j.
Proof.
  unfold note_path. intros H. apply append_cancel_l in H.
  eapply zfill_index_inj. exact H.
Qed.

Lemma note_one_quiet (env : Env) (shipments : list nat) (index : nat) (row : Row)
    (u : unit) (w : World) :
  heap (note_one env shipments index row u w).2 = heap w
  /\ events (note_one env shipments index row u w).2 = events w.
Proof.
  unfold note_one, bind, deref, print, lift, drawString, raise, ret, open_wb, write,
    list_getitem, getitem.
  cbn.
  repeat (destruct_match; cbn [snd]); split; reflexivity.
Qed.

Lemma note_one_fs_other (env : Env) (shipments : list nat) (index : nat) (row : Row)
    (u : unit) (w : World) (path : string) :
  (forall shipment, path ≠ note_path index shipment) ->
  fs (note_one env shipments index row u w).2 !! path = fs w !! path.
Proof.
  intros Hpath.
  unfold note_one, bind, deref, print, lift, drawString, raise, ret, open_wb, write,
    list_getitem, getitem.
  cbn.
  repeat (destruct_match; cbn [snd]);
    cbn [heap fs set_heap set_fs add_stdout add_event];
    rewrite ?lookup_insert_ne by (intros Heq; eapply Hpath; symmetry; exact Heq);
    reflexivity.
Qed.

(** One note that is written, step by step. *)
Lemma note_one_done (env : Env) (shipments : list nat) (index : nat) (row : Row)
    (w w' : World) :
  note_one env shipments index row tt w = (Ok tt, w') ->
  exists ref cbi sending_from generic,
    shipments !! index = Some ref
    /\ fields row !! "CBI Message" = Some cbi
    /\ fields row !! "SendingFrom" = Some sending_from
    /\ fields row !! "Generic Message" = Some generic
    /\ fs w' = <[note_path index (default blank_shipment (heap w !! ref))
                 := Blob (canvas_pdf env cbi sending_from generic)]> (fs w)
    /\ stdout w'
       = stdout w ++ ["Generating note for: "
                        +:+ to_address_name (default blank_shipment (heap w !! ref))].
Proof.
  unfold note_one, bind, deref, print, lift, drawString, raise, ret, open_wb, write,
    list_getitem, getitem.
  cbn [heap fs stdout events set_heap set_fs add_stdout add_event].
  destruct (shipments !! index) as [ref|]; [|discriminate].
  destruct (fields row !! "CBI Message") as [cbi|]; [|discriminate].
  destruct (draw_string env cbi); [discriminate|].
  destruct (fields row !! "SendingFrom") as [sending_from|]; [|discriminate].
  destruct (draw_string env sending_from); [discriminate|].
  destruct (fields row !! "Generic Message") as [generic|]; [|discriminate].
  destruct (draw_string env generic); [discriminate|].
  destruct (open_write env _); [discriminate|].
  intros H. inversion H; subst. clear H.
  exists ref, cbi, sending_from, generic.
  cbn [heap fs stdout events set_heap set_fs add_stdout add_event].
  rewrite insert_insert_eq. repeat split; reflexivity.
Qed.

Lemma note_loop_quiet (env : Env) (shipments : list nat) (rows : list Row) (index : nat)
    (w : World) :
  heap (for_enum (note_one env shipments) index rows tt w).2 = heap w
  /\ events (for_enum (note_one env shipments) index rows tt w).2 = events w.
Proof.
  apply (for_enum_preserves (note_one env shipments)
           (fun w w' => heap w' = heap w /\ events w' = events w)).
  - intros ?. split; reflexivity.
  - intros w1 w2 w3 [H1 H2] [H3 H4]. split; congruence.
  - intros. apply note_one_quiet.
Qed.

Lemma note_loop_fs_other (env : Env) (shipments : list nat) (rows : list Row)
    (index : nat) (w : World) (path : string) :
  (forall j shipment, index <= j -> path ≠ note_path j shipment) ->
  fs (for_enum (note_one env shipments) index rows tt w).2 !! path = fs w !! path.
Proof.
  revert index w. induction rows as [|row rows IH]; intros index w Hpath; cbn [for_enum].
  - reflexivity.
  - pose proof (note_one_fs_other env shipments index row tt w path
                  (fun s => Hpath index s (le_n index))) as H1.
    destruct (note_one env shipments index row tt w) as [[[]|e] w1]; cbn [snd] in *.
    + rewrite IH; [exact H1|]. intros j s Hj. apply Hpath. lia.
    + exact H1.
Qed.

Lemma note_loop_done (env : Env) (shipments : list nat) (rows : list Row) (index : nat)
    (w w' : World) :
  for_enum (note_one env shipments) index rows tt w = (LoopDone tt, w') ->
  forall i row,
    rows !! i = Some row ->
    exists ref cbi sending_from generic,
      shipments !! (index + i) = Some ref
      /\ fields row !! "CBI Message" = Some cbi
      /\ fields row !! "SendingFrom" = Some sending_from
      /\ fields row !! "Generic Message" = Some generic
      /\ fs w' !! note_path (index + i) (default blank_shipment (heap w !! ref))
         = Some (Blob (canvas_pdf env cbi sending_from generic)).
Proof.
  revert index w. induction rows as [|row0 rows IH]; intros index w Hloop i row Hi.
  - inversion Hi.
  - cbn [for_enum] in Hloop.
    pose proof (note_one_quiet env shipments index row0 tt w) as [Hheap _].
    destruct (note_one env shipments index row0 tt w) as [[[]|e] w1] eqn:Hone;
      [|discriminate Hloop].
    cbn [snd] in Hheap.
    destruct i as [|i]; cbn in Hi.
    + inversion Hi; subst row0.
      destruct (note_one_done _ _ _ _ _ _ Hone)
        as (ref & cbi & sf & gen & Href & Hc & Hs & Hg & Hfs & _).
      exists ref, cbi, sf, gen. rewrite Nat.add_0_r. repeat split; auto.
      pose proof (note_loop_fs_other env shipments rows (S index) w1
                    (note_path index (default blank_shipment (heap w !! ref)))) as Hkeep.
      rewrite Hloop in Hkeep. cbn [snd] in Hkeep. rewrite Hkeep.
      * rewrite Hfs. apply lookup_insert_eq.
      * intros j s Hj Heq. apply note_path_inj in Heq. lia.
    + destruct (IH (S index) w1 Hloop i row Hi)
        as (ref & cbi & sf & gen & Href & Hc & Hs & Hg & Hfile).
      exists ref, cbi, sf, gen. replace (index + S i) with (S index + i) by lia.
      rewrite <- Hheap. repeat split; auto.
Qed.

Lemma note_loop_length (env : Env) (shipments : list nat) (rows : list Row)
    (w w' : World) :
  for_enum (note_one env shipments) 0 rows tt w = (LoopDone tt, w') ->
  length rows <= length shipments.
Proof.
  intros Hloop. pose proof (note_loop_done env shipments rows 0 w w' Hloop) as Hrows.
  destruct (decide (rows = [])) as [->|Hne]; [cbn; lia|].
  destruct (exists_last Hne) as (rows' & r & ->).
  destruct (Hrows (length rows') r) as (ref & _ & _ & _ & Href & _).
  { rewrite lookup_app_r by lia. rewrite Nat.sub_diag. reflexivity. }
  apply lookup_lt_Some in Href. rewrite length_app. cbn in *. lia.
Qed.

(** X12: when [generate_notes] completes, there is a shipment for every row,
    every row has the three message columns, and the note file named after
    the row's index and the tracking code of the shipment at that index holds
    the rendering of that row's three messages. *)
Theorem generate_notes_completes (env : Env) (shipments : list nat) (csv_path : string)
    (w w' : World) :
  generate_notes env shipments csv_path w = (Ok tt, w') ->
  exists rows,
    (iterate_csv env csv_path w).1 = Ok rows
    /\ length rows <= length shipments
    /\ forall i row,
         rows !! i = Some row ->
         exists ref cbi sending_from generic,
           shipments !! i = Some ref
           /\ fields row !! "CBI Message" = Some cbi
           /\ fields row !! "SendingFrom" = Some sending_from
           /\ fields row !! "Generic Message" = Some generic
           /\ fs w' !! note_path i (default blank_shipment (heap w !! ref))
              = Some (Blob (canvas_pdf env cbi sending_from generic)).
Proof.
  unfold generate_notes. intros Hrun.
  destruct (for_rows_done _ _ _ _ _ _ _ Hrun) as (rows & Hrows & H).
  unfold for_each in H.
  destruct (for_enum _ 0 rows tt w) as [[[]|k x e] w1] eqn:Hloop; [|discriminate].
  inversion H; subst w1. clear H.
  exists rows. split; [exact Hrows|].
  split; [eapply note_loop_length; exact Hloop|].
  exact (note_loop_done env shipments rows 0 w w' Hloop).
Qed.

Lemma generate_notes_completes_witness :
  generate_notes Demo.env_ok [0; 1; 2] "in.csv" Demo.w_run2 = (Ok tt, Demo.w_run3)
  /\ exists rows,
       (iterate_csv Demo.env_ok "in.csv" Demo.w_run2).1 = Ok rows
       /\ length rows <= length [0; 1; 2].
Proof.
  split; [vm_compute; reflexivity|].
  destruct (generate_notes_completes Demo.env_ok [0; 1; 2] "in.csv" Demo.w_run2
              Demo.w_run3) as (rows & Hrows & Hlen & _).
  - vm_compute; reflexivity.
  - exists rows. auto.
Defined.

(** X13: whether it completes or fails, [generate_notes] calls neither the
    carrier nor any tool, leaves every shipment object as it was, and writes
    no file other than notes. *)
Theorem generate_notes_only_writes_notes (env : Env) (shipments : list nat)
    (csv_path : string) (w : World) :
  heap (generate_notes env shipments csv_path w).2 = heap w
  /\ events (generate_notes env shipments csv_path w).2 = events w
  /\ forall path,
       starts_with "notes/ROW_" path = false ->
       fs (generate_notes env shipments csv_path w).2 !! path = fs w !! path.
Proof.
  unfold generate_notes. rewrite for_rows_world. unfold for_each.
  set (rows := rows_read env csv_path w).
  pose proof (note_loop_quiet env shipments rows 0 w) as [Hheap Hev].
  pose proof (note_loop_fs_other env shipments rows 0 w) as Hfs.
  destruct (for_enum _ 0 rows tt w) as [[[]|k x e] w1]; cbn [snd] in *.
  all: split; [exact Hheap|]; split; [exact Hev|].
  all: intros path Hpath; apply Hfs; intros j s _ ->; discriminate Hpath.
Qed.

(** X14: when the input has more rows than there are shipments,
    [generate_notes] raises. *)
Theorem generate_notes_needs_a_shipment_per_row (env : Env) (shipments : list nat)
    (csv_path : string) (w : World) (rows : list Row) :
  (iterate_csv env csv_path w).1 = Ok rows ->
  length shipments < length rows ->
  exists e, (generate_notes env shipments csv_path w).1 = Raise e.
Proof.
  intros Hrows Hlen. unfold generate_notes.
  rewrite (for_rows_ok _ _ _ _ _ _ Hrows). unfold for_each.
  destruct (for_enum _ 0 rows tt w) as [[[]|k x e] w1] eqn:Hloop.
  - apply note_loop_length in Hloop. lia.
  - exists e. reflexivity.
Qed.

Lemma generate_notes_needs_a_shipment_per_row_witness :
  (iterate_csv Demo.env_ok "in.csv" Demo.w_run2).1 = Ok (DictReader (records_of (Some Demo.recipients)))
  /\ length [0; 1] < length (DictReader (records_of (Some Demo.recipients)))
  /\ exists e, (generate_notes Demo.env_ok [0; 1] "in.csv" Demo.w_run2).1 = Raise e.
Proof.
  split; [vm_compute; reflexivity|]. split; [vm_compute; lia|].
  apply (generate_notes_needs_a_shipment_per_row Demo.env_ok [0; 1] "in.csv" Demo.w_run2
           (DictReader (records_of (Some Demo.recipients)))).
  - vm_compute; reflexivity.
  - vm_compute; lia.
Defined.

(** ** The merge (lines 109-123) *)

Lemma label_note_path_inj (i j : nat) (s s' : Shipment) :
  label_note_path i s = label_note_path j s' -> i = j.
Proof.
  unfold label_note_path. intros H. apply append_cancel_l in H.
  eapply zfill_index_inj. exact H.
Qed.

(** One call of the tool, whatever its outcome. *)
Lemma merge_one_eq (env : Env) (index ref : nat) (w : World) :
  merge_one env index ref tt w =
  let shipment := default blank_shipment (heap w !! ref) in
  let w1 := add_event (pdfjam_call (heap w) index ref)
              (add_stdout ("Merging label and note for: " +:+ to_address_name shipment) w) in
  match pdfjam env (fs w !! label_path index shipment) (fs w !! note_path index shipment) with
  | Ok data => (Ok tt, set_fs (<[label_note_path index shipment := Blob data]> (fs w)) w1)
  | Raise e => (Raise e, w1)
  end.
Proof.
  unfold merge_one, bind, deref, print, check_output_pdfjam, bind, emit. cbn.
  destruct (pdfjam env _ _); reflexivity.
Qed.

Lemma merge_one_frame (env : Env) (index ref : nat) (w : World) :
  heap (merge_one env index ref tt w).2 = heap w
  /\ events (merge_one env index ref tt w).2
     = events w ++ [pdfjam_call (heap w) index ref]
  /\ forall path,
       (forall shipment, path ≠ label_note_path index shipment) ->
       fs (merge_one env index ref tt w).2 !! path = fs w !! path.
Proof.
  rewrite merge_one_eq. cbn zeta.
  destruct (pdfjam env _ _); cbn; repeat split; auto.
  intros path Hpath. apply lookup_insert_ne. intros Heq. eapply Hpath. symmetry. exact Heq.
Qed.

Lemma imap_shift {A B : Type} (f : nat -> A -> B) (index : nat) (x : A) (xs : list A) :
  imap (fun i => f (index + i)) (x :: xs)
  = f index x :: imap (fun i => f (S index + i)) xs.
Proof.
  cbn. rewrite Nat.add_0_r. f_equal. apply imap_ext. intros i y _. cbn.
  replace (index + S i) with (S (index + i)) by lia. reflexivity.
Qed.

Lemma merge_loop_frame (env : Env) (refs : list nat) (index : nat) (w : World) :
  heap (for_enum (merge_one env) index refs tt w).2 = heap w
  /\ forall path,
       (forall j shipment, index <= j -> path ≠ label_note_path j shipment) ->
       fs (for_enum (merge_one env) index refs tt w).2 !! path = fs w !! path.
Proof.
  revert index w. induction refs as [|ref refs IH]; intros index w; cbn [for_enum].
  - split; reflexivity.
  - destruct (merge_one_frame env index ref w) as (Hheap & _ & Hfs).
    destruct (merge_one env index ref tt w) as [[[]|e] w1]; cbn [snd] in *.
    + destruct (IH (S index) w1) as (Hheap' & Hfs'). split; [congruence|].
      intros path Hpath. rewrite Hfs' by (intros j s Hj; apply Hpath; lia).
      apply Hfs. intros s. apply Hpath. lia.
    + split; [exact Hheap|]. intros path Hpath. apply Hfs. intros s. apply Hpath. lia.
Qed.

Lemma merge_inputs_kept (env : Env) (refs : list nat) (index : nat) (w : World)
    (i : nat) (s : Shipment) :
  fs (for_enum (merge_one env) index refs tt w).2 !! label_path i s = fs w !! label_path i s
  /\ fs (for_enum (merge_one env) index refs tt w).2 !! note_path i s = fs w !! note_path i s.
Proof.
  destruct (merge_loop_frame env refs index w) as [_ Hfs].
  split; apply Hfs; intros j s' _ H; discriminate H.
Qed.

Lemma merge_loop_done (env : Env) (refs : list nat) (index : nat) (w w' : World) :
  for_enum (merge_one env) index refs tt w = (LoopDone tt, w') ->
  events w' = events w ++ imap (fun i => pdfjam_call (heap w) (index + i)) refs
  /\ forall i ref,
       refs !! i = Some ref ->
       exists data,
         pdfjam env
           (fs w !! label_path (index + i) (default blank_shipment (heap w !! ref)))
           (fs w !! note_path (index + i) (default blank_shipment (heap w !! ref)))
         = Ok data
         /\ fs w' !! label_note_path (index + i) (default blank_shipment (heap w !! ref))
            = Some (Blob data).
Proof.
  revert index w. induction refs as [|ref0 refs IH]; intros index w Hloop.
  - inversion Hloop; subst. cbn. rewrite app_nil_r. split; [reflexivity|].
    intros i ref Hi. inversion Hi.
  - cbn [for_enum] in Hloop.
    destruct (merge_one_frame env index ref0 w) as (Hheap & Hev & Hfs).
    pose proof (merge_one_eq env index ref0 w) as Heq. cbn zeta in Heq.
    destruct (merge_one env index ref0 tt w) as [[[]|e] w1] eqn:Hone;
      [|discriminate Hloop].
    cbn [snd] in *.
    destruct (IH (S index) w1 Hloop) as (Hev' & Hdone).
    split.
    + rewrite Hev', Hev, Hheap, <- app_assoc, imap_shift. reflexivity.
    + intros [|i] ref Hi; cbn in Hi.
      * inversion Hi; subst ref0. rewrite Nat.add_0_r.
        destruct (pdfjam env _ _) as [data|e] eqn:Hjam; [|discriminate Heq].
        inversion Heq as [Hw1]. exists data. split; [reflexivity|].
        destruct (merge_loop_frame env refs (S index) w1) as [_ Hkeep].
        rewrite Hloop in Hkeep. cbn [snd] in Hkeep. rewrite Hkeep.
        -- rewrite Hw1. cbn [fs set_fs]. apply lookup_insert_eq.
        -- intros j s Hj H. apply label_note_path_inj in H. lia.
      * destruct (Hdone i ref Hi) as (data & Hjam & Hfile).
        rewrite Hheap in Hjam, Hfile.
        rewrite !Hfs in Hjam by (intros s H; discriminate H).
        exists data. replace (index + S i) with (S index + i) by lia. auto.
Qed.

(** X15: when [merge_labels_and_notes] completes, it has called [pdfjam]
    once per shipment, in order, on the label and the note named after the
    shipment's index and tracking code; each merged document holds what the
    tool made of the label and the note as they were before the stage, and
    no shipment object has changed. *)
Theorem merge_completes (env : Env) (shipments : list nat) (w w' : World) :
  merge_labels_and_notes env shipments w = (Ok tt, w') ->
  heap w' = heap w
  /\ events w' = events w ++ imap (pdfjam_call (heap w)) shipments
  /\ forall i ref,
       shipments !! i = Some ref ->
       exists data,
         pdfjam env
           (fs w !! label_path i (default blank_shipment (heap w !! ref)))
           (fs w !! note_path i (default blank_shipment (heap w !! ref)))
         = Ok data
         /\ fs w' !! label_note_path i (default blank_shipment (heap w !! ref))
            = Some (Blob data).
Proof.
  unfold merge_labels_and_notes, for_each.
  destruct (merge_loop_frame env shipments 0 w) as [Hheap _].
  destruct (for_enum (merge_one env) 0 shipments tt w) as [[[]|k x e] w1] eqn:Hloop;
    [|discriminate].
  intros H. inversion H; subst w1. cbn [snd] in Hheap.
  destruct (merge_loop_done env shipments 0 w w' Hloop) as [Hev Hdone].
  split; [exact Hheap|]. split; [exact Hev|]. exact Hdone.
Qed.

Lemma merge_completes_witness :
  merge_labels_and_notes Demo.env_ok [0; 1; 2] Demo.w_run3 = (Ok tt, Demo.w_run4)
  /\ heap Demo.w_run4 = heap Demo.w_run3
  /\ events Demo.w_run4
     = events Demo.w_run3 ++ imap (pdfjam_call (heap Demo.w_run3)) [0; 1; 2].
Proof.
  split; [vm_compute; reflexivity|].
  destruct (merge_completes Demo.env_ok [0; 1; 2] Demo.w_run3 Demo.w_run4)
    as (Hheap & Hev & _).
  - vm_compute; reflexivity.
  - auto.
Defined.

Lemma merge_loop_raised (env : Env) (refs : list nat) (index : nat) (w w' : World)
    (k ref : nat) (e : exn) :
  for_enum (merge_one env) index refs tt w = (LoopRaised k ref e, w') ->
  exists j,
    k = index + j
    /\ refs !! j = Some ref
    /\ events w' = events w ++ imap (fun i => pdfjam_call (heap w) (index + i))
                                    (take (S j) refs)
    /\ pdfjam env
         (fs w !! label_path k (default blank_shipment (heap w !! ref)))
         (fs w !! note_path k (default blank_shipment (heap w !! ref)))
       = Raise e
    /\ fs w' !! label_note_path k (default blank_shipment (heap w !! ref))
       = fs w !! label_note_path k (default blank_shipment (heap w !! ref)).
Proof.
  revert index w. induction refs as [|ref0 refs IH]; intros index w Hloop;
    cbn [for_enum] in Hloop.
  - discriminate Hloop.
  - destruct (merge_one_frame env index ref0 w) as (Hheap & Hev & Hfs).
    pose proof (merge_one_eq env index ref0 w) as Heq. cbn zeta in Heq.
    destruct (merge_one env index ref0 tt w) as [[[]|e0] w1] eqn:Hone; cbn [snd] in *.
    + destruct (IH (S index) w1 Hloop) as (j & -> & Hj & Hev' & Hjam & Hfile).
      exists (S j). split; [lia|]. split; [exact Hj|].
      rewrite Hheap in Hev', Hjam, Hfile.
      rewrite !Hfs in Hjam by (intros s H; discriminate H).
      split; [|split; [exact Hjam|]].
      * rewrite Hev', Hev, <- app_assoc.
        change (take (S (S j)) (ref0 :: refs)) with (ref0 :: take (S j) refs).
        rewrite imap_shift. reflexivity.
      * rewrite Hfile. apply Hfs. intros s H. apply label_note_path_inj in H. lia.
    + inversion Hloop; subst. exists 0. rewrite Nat.add_0_r.
      split; [reflexivity|]. split; [reflexivity|].
      destruct (pdfjam env _ _) as [data|e0] eqn:Hjam; [discriminate Heq|].
      inversion Heq; subst. cbn. rewrite Nat.add_0_r. auto.
Qed.

(** X16: when [merge_labels_and_notes] raises, it stopped at the first
    shipment for which [pdfjam] failed: the tool was called for the
    shipments up to that one and for none after it, the merged document of
    the failing shipment was not written, and the exception is the tool's. *)
Theorem merge_stops_at_first_failure (env : Env) (shipments : list nat) (w w' : World)
    (e : exn) :
  merge_labels_and_notes env shipments w = (Raise e, w') ->
  exists k ref,
    shipments !! k = Some ref
    /\ events w' = events w ++ imap (pdfjam_call (heap w)) (take (S k) shipments)
    /\ pdfjam env
         (fs w !! label_path k (default blank_shipment (heap w !! ref)))
         (fs w !! note_path k (default blank_shipment (heap w !! ref)))
       = Raise e
    /\ fs w' !! label_note_path k (default blank_shipment (heap w !! ref))
       = fs w !! label_note_path k (default blank_shipment (heap w !! ref)).
Proof.
  unfold merge_labels_and_notes, for_each.
  destruct (for_enum (merge_one env) 0 shipments tt w) as [[[]|k ref e0] w1] eqn:Hloop;
    [discriminate|].
  intros H. inversion H; subst.
  destruct (merge_loop_raised env shipments 0 w w' k ref e Hloop)
    as (j & Hk & Hj & Hev & Hjam & Hfile).
  cbn in Hk. subst j. exists k, ref. auto.
Qed.

Lemma merge_stops_at_first_failure_witness :
  merge_labels_and_notes Demo.env_fail1 [0; 1; 2] Sample.w_notes_after_decline
  = (Raise (Exn StandardError "CalledProcessError"), Sample.w_merge_failed)
  /\ exists k ref,
       [0; 1; 2] !! k = Some ref
       /\ events Sample.w_merge_failed
          = events Sample.w_notes_after_decline
            ++ imap (pdfjam_call (heap Sample.w_notes_after_decline)) (take (S k) [0; 1; 2]).
Proof.
  split; [vm_compute; reflexivity|].
  destruct (merge_stops_at_first_failure Demo.env_fail1 [0; 1; 2]
              Sample.w_notes_after_decline Sample.w_merge_failed
              (Exn StandardError "CalledProcessError"))
    as (k & ref & Hk & Hev & _).
  - vm_compute; reflexivity.
  - exists k, ref. auto.
Defined.

(** ** The report (lines 126-141) *)

Lemma write_one_frame (env : Env) (shipments : list nat) (index : nat) (row : Row)
    (writer : option (list (option string))) (w : World) :
  heap (write_one env shipments index row writer w).2 = heap w
  /\ events (write_one env shipments index row writer w).2 = events w
  /\ stdout (write_one env shipments index row writer w).2 = stdout w
  /\ forall path, path ≠ results_path ->
                  fs (write_one env shipments index row writer w).2 !! path = fs w !! path.
Proof.
  unfold write_one, bind, ret, raise, lift, deref, append_record, list_getitem.
  destruct (Nat.eqb index 0); cbn.
  all: repeat (destruct_match; cbn [snd]);
    cbn [heap fs stdout events set_heap set_fs add_stdout add_event];
    repeat split; auto; intros path Hpath;
    rewrite ?lookup_insert_ne by congruence; reflexivity.
Qed.

Lemma write_loop_frame (env : Env) (shipments : list nat) (rows : list Row) (index : nat)
    (writer : option (list (option string))) (w : World) :
  heap (for_enum (write_one env shipments) index rows writer w).2 = heap w
  /\ events (for_enum (write_one env shipments) index rows writer w).2 = events w
  /\ stdout (for_enum (write_one env shipments) index rows writer w).2 = stdout w
  /\ forall path, path ≠ results_path ->
                  fs (for_enum (write_one env shipments) index rows writer w).2 !! path
                  = fs w !! path.
Proof.
  apply (for_enum_preserves (write_one env shipments)
           (fun w w' => heap w' = heap w /\ events w' = events w /\ stdout w' = stdout w
                        /\ forall path, path ≠ results_path ->
                                        fs w' !! path = fs w !! path)).
  - intros ?. repeat split; reflexivity.
  - intros w1 w2 w3 (H1 & H2 & H3 & H4) (H1' & H2' & H3' & H4').
    repeat split; try congruence. intros path Hpath. rewrite H4', H4 by exact Hpath.
    reflexivity.
  - intros. apply write_one_frame.
Qed.

(** The world [write_results] leaves: that of its loop over the rows read
    from the input, started on the report file just opened. *)
Lemma write_results_world (env : Env) (shipments : list nat) (csv_path : string)
    (w : World) :
  open_write env results_path = None ->
  let w1 := set_fs (<[results_path := Sheet []]> (fs w))
                   (add_stdout "Writing CSV results to " w) in
  (write_results env shipments csv_path w).2
  = (for_enum (write_one env shipments) 0 (rows_read env csv_path w1) None w1).2.
Proof.
  intros Hopen w1. unfold write_results, bind at 1 2, print, open_w. rewrite Hopen.
  change (set_fs (<[results_path := Sheet []]> (fs (add_stdout "Writing CSV results to " w)))
                 (add_stdout "Writing CSV results to " w)) with w1.
  unfold bind, ret.
  pose proof (for_rows_world env (write_one env shipments) csv_path None w1) as Hw.
  destruct (for_rows env (write_one env shipments) csv_path None w1) as [[s|e] w2];
    cbn [snd] in *; subst w2; unfold for_each;
    destruct (for_enum (write_one env shipments) 0 (rows_read env csv_path w1) None w1)
      as [[s'|k x e'] w2]; reflexivity.
Qed.

Lemma write_results_closed (env : Env) (shipments : list nat) (csv_path : string)
    (w : World) (e : exn) :
  open_write env results_path = Some e ->
  write_results env shipments csv_path w
  = (Raise e, add_stdout "Writing CSV results to " w).
Proof.
  intros Hopen. unfold write_results, bind at 1 2, print, open_w. rewrite Hopen.
  reflexivity.
Qed.

Lemma write_results_touches_only_report_frame (env : Env) (shipments : list nat)
    (csv_path : string) (w : World) :
  heap (write_results env shipments csv_path w).2 = heap w
  /\ forall path, path ≠ results_path ->
                  fs (write_results env shipments csv_path w).2 !! path = fs w !! path.
Proof.
  destruct (open_write env results_path) as [e|] eqn:Hopen.
  - rewrite (write_results_closed _ _ _ _ _ Hopen). cbn. auto.
  - rewrite (write_results_world _ _ _ _ Hopen). cbv zeta.
    match goal with
    | |- context [for_enum _ 0 ?rows None ?w1] =>
        destruct (write_loop_frame env shipments rows 0 None w1) as (Hh & _ & _ & Hf)
    end.
    rewrite Hh. split; [reflexivity|].
    intros path Hpath. rewrite Hf by exact Hpath. cbn.
    apply lookup_insert_ne. congruence.
Qed.

(** X17: whether it completes or fails, [write_results] calls neither the
    carrier nor any tool, leaves every shipment object as it was, prints its
    one line, and touches no file other than [results/compiled_results.csv]. *)
Theorem write_results_touches_only_report (env : Env) (shipments : list nat)
    (csv_path : string) (w : World) :
  heap (write_results env shipments csv_path w).2 = heap w
  /\ events (write_results env shipments csv_path w).2 = events w
  /\ stdout (write_results env shipments csv_path w).2
     = stdout w ++ ["Writing CSV results to "]
  /\ forall path, path ≠ results_path ->
                  fs (write_results env shipments csv_path w).2 !! path = fs w !! path.
Proof.
  destruct (open_write env results_path) as [e|] eqn:Hopen.
  - rewrite (write_results_closed _ _ _ _ _ Hopen). cbn. auto.
  - rewrite (write_results_world _ _ _ _ Hopen). cbv zeta.
    match goal with
    | |- context [for_enum _ 0 ?rows None ?w1] =>
        destruct (write_loop_frame env shipments rows 0 None w1) as (Hh & He & Ho & Hf)
    end.
    rewrite Hh, He, Ho. repeat split.
    intros path Hpath. rewrite Hf by exact Hpath. cbn.
    apply lookup_insert_ne. congruence.
Qed.

Lemma write_results_rows_le (env : Env) (shipments : list nat) (csv_path : string)
    (w w' : World) (rows : list Row) :
  csv_path ≠ results_path ->
  (iterate_csv env csv_path w).1 = Ok rows ->
  write_results env shipments csv_path w = (Ok tt, w') ->
  length rows <= length shipments.
Proof.
  intros Hpath Hrows Hrun.
  destruct (write_results_spec _ _ _ _ _ Hpath Hrun) as (rows' & Hrows' & _ & Hreport).
  rewrite Hrows in Hrows'. inversion Hrows'; subst rows'. clear Hrows'.
  destruct (decide (rows = [])) as [->|Hne]; [cbn; lia|].
  destruct rows as [|row0 rest] eqn:E; [congruence|]. rewrite <- E in *.
  destruct Hreport as (sorted & data & _ & _ & _ & Hdata).
  destruct (exists_last Hne) as (rows' & r & Hlast).
  destruct (Hdata (length rows') r) as (cells & _ & ref & Href & _).
  { rewrite Hlast, lookup_app_r by lia. rewrite Nat.sub_diag. reflexivity. }
  apply lookup_lt_Some in Href. rewrite Hlast, length_app. cbn. lia.
Qed.

(** X18: when the input has more rows than there are shipments,
    [write_results] raises. *)
Theorem write_results_needs_a_shipment_per_row (env : Env) (shipments : list nat)
    (csv_path : string) (w : World) (rows : list Row) :
  csv_path ≠ results_path ->
  (iterate_csv env csv_path w).1 = Ok rows ->
  length shipments < length rows ->
  exists e, (write_results env shipments csv_path w).1 = Raise e.
Proof.
  intros Hpath Hrows Hlen.
  destruct (write_results env shipments csv_path w) as [[[]|e] w'] eqn:Hrun.
  - pose proof (write_results_rows_le _ _ _ _ _ _ Hpath Hrows Hrun). lia.
  - exists e. reflexivity.
Qed.

Lemma write_results_needs_a_shipment_per_row_witness :
  "in.csv" ≠ results_path
  /\ (iterate_csv Demo.env_ok "in.csv" Demo.w_run4).1
     = Ok (DictReader (records_of (Some Demo.recipients)))
  /\ length [0; 1] < length (DictReader (records_of (Some Demo.recipients)))
  /\ exists e, (write_results Demo.env_ok [0; 1] "in.csv" Demo.w_run4).1 = Raise e.
Proof.
  split; [discriminate|]. split; [vm_compute; reflexivity|]. split; [vm_compute; lia|].
  apply (write_results_needs_a_shipment_per_row Demo.env_ok [0; 1] "in.csv" Demo.w_run4
           (DictReader (records_of (Some Demo.recipients)))).
  - discriminate.
  - vm_compute; reflexivity.
  - vm_compute; lia.
Defined.

(** X19: when the header of the input names at least one column and some
    data record has more cells than the header has names, [write_results]
    raises: the surplus cells cannot be written under any field name. *)
Theorem write_results_rejects_long_record (env : Env) (shipments : list nat)
    (csv_path : string) (w : World) (f : File) (header : list string)
    (body : list (list string)) (record : list string) :
  csv_path ≠ results_path ->
  fs w !! csv_path = Some f ->
  read_records env f = Ok (header :: body) ->
  header ≠ [] ->
  record ∈ body ->
  length header < length record ->
  exists e, (write_results env shipments csv_path w).1 = Raise e.
Proof.
  intros Hpath Hfile Hread Hheader Hin Hlong.
  destruct (write_results env shipments csv_path w) as [[[]|e] w'] eqn:Hrun;
    [exfalso | exists e; reflexivity].
  destruct (write_results_spec _ _ _ _ _ Hpath Hrun) as (rows & Hrows & _ & Hreport).
  assert (Hrows' : rows = DictReader (header :: body)).
  { unfold iterate_csv in Hrows. rewrite Hfile, Hread in Hrows. cbn in Hrows.
    inversion Hrows. reflexivity. }
  set (row := dict_row header record).
  assert (Hrow : row ∈ rows).
  { rewrite Hrows'. cbn. apply list_elem_of_fmap. exists record. split; [reflexivity|].
    apply list_elem_of_filter. split; [|exact Hin].
    intros ->. cbn in Hlong. lia. }
  apply list_elem_of_lookup in Hrow as (j & Hj).
  destruct rows as [|row0 rest] eqn:E; [inversion Hj|]. rewrite <- E in *.
  destruct Hreport as (sorted & data & Hsorted & _ & _ & Hdata).
  destruct (Hdata j row Hj) as (cells & _ & Hwritten).
  destruct (row_written_cells _ _ _ _ _ _ _ Hwritten) as (ref & _ & _ & Hsub).
  assert (Hrest : restkey row = Some (drop (length header) record)).
  { unfold row. rewrite dict_row_restkey.
    destruct (Nat.ltb_spec (length header) (length record)); [reflexivity | lia]. }
  assert (Hnone : None ∈ sorted).
  { specialize (Hsub None). unfold keys, row_update in Hsub. cbn [restkey] in Hsub.
    rewrite Hrest in Hsub.
    assert (Hin' : None ∈ sorted ++ [Some "Tracking Code"; Some "Label And Note"]).
    { apply Hsub. apply elem_of_app. right. apply list_elem_of_singleton. reflexivity. }
    apply elem_of_app in Hin' as [?|Hin']; [assumption|].
    repeat (apply elem_of_cons in Hin' as [Hin'|Hin']; [discriminate|]). inversion Hin'. }
  assert (Hrow0 : row0 ∈ DictReader (header :: body)).
  { rewrite <- Hrows', E. apply list_elem_of_here. }
  destruct (DictReader_rows _ _ Hrow0) as (h' & b' & r0 & Heq & _ & ->).
  inversion Heq; subst h' b'.
  unfold sorted_keys in Hsorted.
  destruct (restkey (dict_row header r0)).
  - destruct (decide (fields (dict_row header r0) = ∅)) as [Hempty|]; [|discriminate].
    apply (f_equal dom) in Hempty. rewrite dict_row_dom, dom_empty_L in Hempty.
    destruct header as [|name names]; [congruence|]. set_solver.
  - inversion Hsorted; subst sorted.
    apply list_elem_of_fmap in Hnone as (? & ? & _). discriminate.
Qed.

Lemma write_results_rejects_long_record_witness :
  "in.csv" ≠ results_path
  /\ fs Sample.w_long !! "in.csv" = Some Sample.sheet_long
  /\ read_records Demo.env_ok Sample.sheet_long
     = Ok (["SendTo"; "State"] :: [["Ann"; "ny"]; ["Bob"; "nj"; "surplus"]])
  /\ ["SendTo"; "State"] ≠ []
  /\ ["Bob"; "nj"; "surplus"] ∈ [["Ann"; "ny"]; ["Bob"; "nj"; "surplus"]]
  /\ length ["SendTo"; "State"] < length ["Bob"; "nj"; "surplus"]
  /\ exists e, (write_results Demo.env_ok [0; 1] "in.csv" Sample.w_long).1 = Raise e.
Proof.
  split; [discriminate|]. split; [vm_compute; reflexivity|]. split; [reflexivity|].
  split; [discriminate|].
  split; [apply list_elem_of_further, list_elem_of_here|]. split; [cbn; lia|].
  apply (write_results_rejects_long_record Demo.env_ok [0; 1] "in.csv" Sample.w_long
           Sample.sheet_long ["SendTo"; "State"] [["Ann"; "ny"]; ["Bob"; "nj"; "surplus"]]
           ["Bob"; "nj"; "surplus"]).
  - discriminate.
  - vm_compute; reflexivity.
  - reflexivity.
  - discriminate.
  - apply list_elem_of_further, list_elem_of_here.
  - cbn; lia.
Defined.

(** ** The whole run (lines 144-166) *)

Lemma purchase_postage_outcome (env : Env) (shipments : list nat) (w : World) :
  (purchase_postage env shipments w).1 = Ok tt
  \/ exists e, (purchase_postage env shipments w).1 = Raise e /\ is_Exception e = false.
Proof.
  unfold purchase_postage.
  destruct (for_enum (purchase_one env) 0 shipments tt w) as [[[]|k ref e] w1];
    [left; reflexivity|].
  destruct (is_Exception e) eqn:Hexn.
  - left. unfold bind, deref, print.
    match goal with
    | |- context [refund_postage env shipments ?w'] =>
        destruct (refund_postage_ok env shipments w') as (w2 & Hrun & _)
    end.
    rewrite Hrun. reflexivity.
  - right. exists e. auto.
Qed.

(** X20: once the shipments are created, no [Exception] of a later stage
    reaches the caller of [run]: whatever fails in the purchases, the notes,
    the merge or the report, [run] returns normally; only an interrupt
    passes through. *)
Theorem run_failures_swallowed (env : Env)
    (from_address_id parcel_id csv_path address parcel : string)
    (shipments : list nat) (w w1 : World) :
  address_retrieve env from_address_id = Ok address ->
  parcel_retrieve env parcel_id = Ok parcel ->
  is_Some (fs w !! csv_path) ->
  generate_shipments env address parcel csv_path
    (after_lookups from_address_id parcel_id csv_path w) = (Ok shipments, w1) ->
  (run env from_address_id parcel_id csv_path w).1 = Ok tt
  \/ exists e, (run env from_address_id parcel_id csv_path w).1 = Raise e
               /\ is_Exception e = false.
Proof.
  intros Ha Hp Hfile Hgen.
  remember (run env from_address_id parcel_id csv_path w) as r eqn:Hr.
  rewrite (run_after_lookups env _ _ _ w address parcel Ha Hp Hfile) in Hr.
  unfold bind at 1 in Hr. rewrite Hgen in Hr. unfold bind at 1 in Hr.
  destruct (purchase_postage_outcome env shipments w1) as [Hok | (e & Hraise & Hexn)].
  - destruct (purchase_postage env shipments w1) as [[[]|e] w2]; [|discriminate Hok].
    unfold try_except in Hr.
    destruct (after_purchase env shipments csv_path w2) as [[[]|e] w3];
      [left; subst r; reflexivity|].
    destruct (is_Exception e) eqn:Hexn.
    + left. unfold bind, print in Hr.
      match type of Hr with
      | context [refund_postage env shipments ?w'] =>
          destruct (refund_postage_ok env shipments w') as (w4 & Hrun & _)
      end.
      rewrite Hrun in Hr. subst r. reflexivity.
    + right. exists e. subst r. split; [reflexivity | exact Hexn].
  - destruct (purchase_postage env shipments w1) as [[[]|e'] w2]; [discriminate Hraise|].
    cbn in Hraise. inversion Hraise; subst e'. right. exists e. subst r. auto.
Qed.

Lemma run_failures_swallowed_witness :
  address_retrieve Demo.env_fail1 "adr_1" = Ok "address adr_1"
  /\ parcel_retrieve Demo.env_fail1 "pcl_1" = Ok "parcel pcl_1"
  /\ is_Some (fs Demo.w0 !! "in.csv")
  /\ generate_shipments Demo.env_fail1 "address adr_1" "parcel pcl_1" "in.csv"
       (after_lookups "adr_1" "pcl_1" "in.csv" Demo.w0) = (Ok [0; 1; 2], Demo.w_run1)
  /\ ((run Demo.env_fail1 "adr_1" "pcl_1" "in.csv" Demo.w0).1 = Ok tt
      \/ exists e, (run Demo.env_fail1 "adr_1" "pcl_1" "in.csv" Demo.w0).1 = Raise e
                   /\ is_Exception e = false).
Proof.
  split; [reflexivity|]. split; [reflexivity|].
  split; [eexists; vm_compute; reflexivity|]. split; [vm_compute; reflexivity|].
  apply (run_failures_swallowed Demo.env_fail1 "adr_1" "pcl_1" "in.csv"
           "address adr_1" "parcel pcl_1" [0; 1; 2] Demo.w0 Demo.w_run1).
  - reflexivity.
  - reflexivity.
  - eexists; vm_compute; reflexivity.
  - vm_compute; reflexivity.
Defined.

Lemma generate_notes_quiet (env : Env) (shipments : list nat) (csv_path : string)
    (w : World) :
  heap (generate_notes env shipments csv_path w).2 = heap w
  /\ events (generate_notes env shipments csv_path w).2 = events w.
Proof.
  unfold generate_notes. rewrite for_rows_world. unfold for_each.
  pose proof (note_loop_quiet env shipments (rows_read env csv_path w) 0 w) as H.
  destruct (for_enum _ 0 _ tt w) as [[[]|k x e] w1]; exact H.
Qed.

Lemma write_results_quiet (env : Env) (shipments : list nat) (csv_path : string)
    (w : World) :
  events (write_results env shipments csv_path w).2 = events w.
Proof.
  destruct (open_write env results_path) as [e|] eqn:Hopen.
  - rewrite (write_results_closed _ _ _ _ _ Hopen). reflexivity.
  - rewrite (write_results_world _ _ _ _ Hopen). cbv zeta.
    match goal with
    | |- context [for_enum _ 0 ?rows None ?w1] =>
        destruct (write_loop_frame env shipments rows 0 None w1) as (_ & He & _)
    end.
    rewrite He. reflexivity.
Qed.

Lemma merge_one_only (env : Env) (index ref : nat) (u : unit) (w : World) :
  only_events is_pdfjam w (merge_one env index ref u w).2.
Proof.
  destruct u. destruct (merge_one_frame env index ref w) as (_ & Hev & _).
  eapply only_events_one; [exact Hev | reflexivity].
Qed.

Lemma after_purchase_only (env : Env) (shipments : list nat) (csv_path : string)
    (w : World) :
  only_events is_pdfjam w (after_purchase env shipments csv_path w).2.
Proof.
  unfold after_purchase, bind.
  destruct (generate_notes_quiet env shipments csv_path w) as [_ Hn].
  destruct (generate_notes env shipments csv_path w) as [[[]|e] w1]; cbn [snd] in *;
    [|apply only_events_same; exact Hn].
  eapply only_events_trans; [apply only_events_same; exact Hn|].
  assert (Hm : only_events is_pdfjam w1 (merge_labels_and_notes env shipments w1).2).
  { unfold merge_labels_and_notes, for_each.
    pose proof (for_enum_preserves (merge_one env) (only_events is_pdfjam)
                  (only_events_refl _) (only_events_trans _)
                  (merge_one_only env) shipments 0 tt w1) as H.
    destruct (for_enum (merge_one env) 0 shipments tt w1) as [[[]|k x e] w2]; exact H. }
  destruct (merge_labels_and_notes env shipments w1) as [[[]|e] w2]; cbn [snd] in *;
    [|exact Hm].
  eapply only_events_trans; [exact Hm|].
  apply only_events_same. apply write_results_quiet.
Qed.

Lemma creates_of_allowed (allowed : Event -> bool) (evs : list Event) :
  (forall req, allowed (EvShipmentCreate req) = false) ->
  forallb allowed evs = true -> creates_of evs = [].
Proof.
  intros Hno. induction evs as [|ev evs IH]; cbn; [reflexivity|].
  intros H. apply andb_prop in H as [Hev Hevs].
  destruct ev; cbn; auto. rewrite Hno in Hev. discriminate.
Qed.

Lemma creates_of_creates (reqs : list ShipmentRequest) :
  creates_of (EvShipmentCreate <$> reqs) = reqs
  /\ buys_of (EvShipmentCreate <$> reqs) = []
  /\ refunds_of (EvShipmentCreate <$> reqs) = [].
Proof.
  induction reqs as [|req reqs (IH1 & IH2 & IH3)]; cbn; [auto|].
  unfold creates_of, buys_of, refunds_of in *. cbn. rewrite IH1, IH2, IH3. auto.
Qed.

Lemma refunds_of_app (a b : list Event) :
  refunds_of (a ++ b) = refunds_of a ++ refunds_of b.
Proof. apply omap_app. Qed.

Lemma buys_of_app (a b : list Event) : buys_of (a ++ b) = buys_of a ++ buys_of b.
Proof. apply omap_app. Qed.

Lemma creates_of_app (a b : list Event) :
  creates_of (a ++ b) = creates_of a ++ creates_of b.
Proof. apply omap_app. Qed.

(** The trace of a run up to the end of its [try] block, when every
    purchase went through. *)
Lemma run_trace (env : Env) (from_address_id parcel_id csv_path address parcel : string)
    (shipments : list nat) (w w1 w2 : World) :
  generate_shipments env address parcel csv_path
    (after_lookups from_address_id parcel_id csv_path w) = (Ok shipments, w1) ->
  for_enum (purchase_one env) 0 shipments tt w1 = (LoopDone tt, w2) ->
  exists evs,
    events (after_purchase env shipments csv_path w2).2 = events w ++ evs
    /\ refunds_of evs = []
    /\ buys_of evs = shipments
    /\ length (creates_of evs) = length shipments.
Proof.
  intros Hgen Hbuy.
  assert (Hcreate : exists reqs,
             events w1 = events (after_lookups from_address_id parcel_id csv_path w)
                         ++ (EvShipmentCreate <$> reqs)
             /\ length reqs = length shipments).
  { unfold generate_shipments in Hgen.
    destruct (for_rows_done _ _ _ _ _ _ _ Hgen) as (rows & _ & Hfor).
    unfold for_each in Hfor.
    destruct (for_enum _ 0 rows [] _) as [[res|k x e] w1'] eqn:Hloop; [|discriminate Hfor].
    inversion Hfor; subst res w1'.
    destruct (create_loop_done _ _ _ _ _ _ _ _ _ Hloop)
      as (created & _ & Hres & _ & Hall & _ & Hev & _).
    exists (request <$> created). split; [exact Hev|].
    rewrite length_fmap, Hres. cbn. rewrite length_seq.
    symmetry. eapply Forall2_length. exact Hall. }
  destruct Hcreate as (reqs & Hev1 & Hlen).
  destruct (purchase_loop_events env shipments 0 w1) as (evsP & Hev2 & Hb).
  destruct (purchase_loop_only env shipments 0 w1) as (evsP' & Hev2' & HallP).
  rewrite Hbuy in Hev2, Hb, Hev2'. cbn [fst snd] in *.
  assert (evsP' = evsP)
    by (apply (app_inv_head (events w1)); rewrite <- Hev2, <- Hev2'; reflexivity).
  subst evsP'.
  destruct (after_purchase_only env shipments csv_path w2) as (evsJ & Hev3 & HallJ).
  destruct (creates_of_creates reqs) as (Hc1 & Hc2 & Hc3).
  exists ([EvAddressRetrieve from_address_id; EvParcelRetrieve parcel_id;
           EvPathExists csv_path] ++ (EvShipmentCreate <$> reqs) ++ evsP ++ evsJ).
  split.
  - rewrite Hev3, Hev2, Hev1. unfold after_lookups, add_event. cbn [events].
    rewrite <- !app_assoc. reflexivity.
  - rewrite !refunds_of_app, !buys_of_app, !creates_of_app.
    rewrite Hc1, Hc2, Hc3, Hb.
    rewrite (refunds_of_allowed is_purchase_call evsP)
      by (auto; intros ev Hok; destruct ev; cbn in *; congruence).
    rewrite (refunds_of_allowed is_pdfjam evsJ)
      by (auto; intros ev Hok; destruct ev; cbn in *; congruence).
    rewrite (buys_of_allowed is_pdfjam evsJ) by auto.
    rewrite (creates_of_allowed is_purchase_call evsP) by auto.
    rewrite (creates_of_allowed is_pdfjam evsJ) by auto.
    cbn. rewrite !app_nil_r. auto.
Qed.

(** X21: in a run in which every purchase and every later stage succeeds,
    the carrier is asked to create one shipment per shipment of the batch and
    to buy each of them once, in order, and is never asked for a refund. *)
Theorem run_success_requests_no_refund (env : Env)
    (from_address_id parcel_id csv_path address parcel : string)
    (shipments : list nat) (w w1 w2 w3 : World) :
  address_retrieve env from_address_id = Ok address ->
  parcel_retrieve env parcel_id = Ok parcel ->
  is_Some (fs w !! csv_path) ->
  generate_shipments env address parcel csv_path
    (after_lookups from_address_id parcel_id csv_path w) = (Ok shipments, w1) ->
  for_enum (purchase_one env) 0 shipments tt w1 = (LoopDone tt, w2) ->
  after_purchase env shipments csv_path w2 = (Ok tt, w3) ->
  run env from_address_id parcel_id csv_path w = (Ok tt, w3)
  /\ exists evs,
       events w3 = events w ++ evs
       /\ refunds_of evs = []
       /\ buys_of evs = shipments
       /\ length (creates_of evs) = length shipments.
Proof.
  intros Ha Hp Hfile Hgen Hbuy Hafter. split.
  - rewrite (run_after_lookups env _ _ _ w address parcel Ha Hp Hfile).
    unfold bind at 1. rewrite Hgen. unfold bind at 1, purchase_postage. rewrite Hbuy.
    unfold try_except. rewrite Hafter. reflexivity.
  - pose proof (run_trace env _ _ csv_path _ _ shipments w w1 w2 Hgen Hbuy) as H.
    rewrite Hafter in H. exact H.
Qed.

Lemma run_success_requests_no_refund_witness :
  address_retrieve Demo.env_ok "adr_1" = Ok "address adr_1"
  /\ parcel_retrieve Demo.env_ok "pcl_1" = Ok "parcel pcl_1"
  /\ is_Some (fs Demo.w0 !! "in.csv")
  /\ generate_shipments Demo.env_ok "address adr_1" "parcel pcl_1" "in.csv"
       (after_lookups "adr_1" "pcl_1" "in.csv" Demo.w0) = (Ok [0; 1; 2], Demo.w_run1)
  /\ for_enum (purchase_one Demo.env_ok) 0 [0; 1; 2] tt Demo.w_run1
     = (LoopDone tt, Demo.w_run2)
  /\ after_purchase Demo.env_ok [0; 1; 2] "in.csv" Demo.w_run2 = (Ok tt, Demo.w_run5)
  /\ run Demo.env_ok "adr_1" "pcl_1" "in.csv" Demo.w0 = (Ok tt, Demo.w_run5).
Proof.
  split; [reflexivity|]. split; [reflexivity|].
  split; [eexists; vm_compute; reflexivity|]. split; [vm_compute; reflexivity|].
  split; [vm_compute; reflexivity|]. split; [vm_compute; reflexivity|].
  apply (run_success_requests_no_refund Demo.env_ok "adr_1" "pcl_1" "in.csv"
           "address adr_1" "parcel pcl_1" [0; 1; 2]
           Demo.w0 Demo.w_run1 Demo.w_run2 Demo.w_run5).
  - reflexivity.
  - reflexivity.
  - eexists; vm_compute; reflexivity.
  - vm_compute; reflexivity.
  - vm_compute; reflexivity.
  - vm_compute; reflexivity.
Defined.

(** X22: an exception of the notes, the merge or the report that is no
    [Exception] (an interrupt) is not handled: [run] raises it and requests
    no refund, although every shipment of the batch has been bought. *)
Theorem run_interrupt_leaves_postage_bought (env : Env)
    (from_address_id parcel_id csv_path address parcel : string)
    (shipments : list nat) (w w1 w2 w3 : World) (e : exn) :
  address_retrieve env from_address_id = Ok address ->
  parcel_retrieve env parcel_id = Ok parcel ->
  is_Some (fs w !! csv_path) ->
  generate_shipments env address parcel csv_path
    (after_lookups from_address_id parcel_id csv_path w) = (Ok shipments, w1) ->
  for_enum (purchase_one env) 0 shipments tt w1 = (LoopDone tt, w2) ->
  after_purchase env shipments csv_path w2 = (Raise e, w3) ->
  is_Exception e = false ->
  run env from_address_id parcel_id csv_path w = (Raise e, w3)
  /\ exists evs,
       events w3 = events w ++ evs
       /\ refunds_of evs = []
       /\ buys_of evs = shipments.
Proof.
  intros Ha Hp Hfile Hgen Hbuy Hafter Hexn. split.
  - rewrite (run_after_lookups env _ _ _ w address parcel Ha Hp Hfile).
    unfold bind at 1. rewrite Hgen. unfold bind at 1, purchase_postage. rewrite Hbuy.
    unfold try_except. rewrite Hafter, Hexn. reflexivity.
  - destruct (run_trace env _ _ csv_path _ _ shipments w w1 w2 Hgen Hbuy)
      as (evs & Hev & Hr & Hb & _).
    rewrite Hafter in Hev. exists evs. auto.
Qed.

Lemma run_interrupt_leaves_postage_bought_witness :
  address_retrieve Sample.env_note_interrupted "adr_1" = Ok "address adr_1"
  /\ parcel_retrieve Sample.env_note_interrupted "pcl_1" = Ok "parcel pcl_1"
  /\ is_Some (fs Demo.w0 !! "in.csv")
  /\ generate_shipments Sample.env_note_interrupted "address adr_1" "parcel pcl_1" "in.csv"
       (after_lookups "adr_1" "pcl_1" "in.csv" Demo.w0) = (Ok [0; 1; 2], Demo.w_run1)
  /\ for_enum (purchase_one Sample.env_note_interrupted) 0 [0; 1; 2] tt Demo.w_run1
     = (LoopDone tt, Demo.w_run2)
  /\ after_purchase Sample.env_note_interrupted [0; 1; 2] "in.csv" Demo.w_run2
     = (Raise Sample.keyboard_interrupt, Sample.w_note_interrupted)
  /\ is_Exception Sample.keyboard_interrupt = false
  /\ run Sample.env_note_interrupted "adr_1" "pcl_1" "in.csv" Demo.w0
     = (Raise Sample.keyboard_interrupt, Sample.w_note_interrupted).
Proof.
  split; [reflexivity|]. split; [reflexivity|].
  split; [eexists; vm_compute; reflexivity|]. split; [vm_compute; reflexivity|].
  split; [vm_compute; reflexivity|]. split; [vm_compute; reflexivity|].
  split; [reflexivity|].
  apply (run_interrupt_leaves_postage_bought Sample.env_note_interrupted
           "adr_1" "pcl_1" "in.csv" "address adr_1" "parcel pcl_1" [0; 1; 2]
           Demo.w0 Demo.w_run1 Demo.w_run2 Sample.w_note_interrupted
           Sample.keyboard_interrupt).
  - reflexivity.
  - reflexivity.
  - eexists; vm_compute; reflexivity.
  - vm_compute; reflexivity.
  - vm_compute; reflexivity.
  - vm_compute; reflexivity.
  - reflexivity.
Defined.

Lemma iterate_csv_eq (env : Env) (csv_path : string) (w w' : World) (rows : list Row) :
  (iterate_csv env csv_path w).1 = Ok rows ->
  fs w' !! csv_path = fs w !! csv_path ->
  iterate_csv env csv_path w' = (Ok rows, w').
Proof.
  intros Hrows Hfile.
  pose proof (iterate_csv_same_file env csv_path w w' Hfile) as Hsame.
  pose proof (iterate_csv_world env csv_path w') as Hw.
  destruct (iterate_csv env csv_path w') as [o w'']. cbn [fst snd] in *.
  congruence.
Qed.

(** X23: on an input without data rows, when the report file can be opened,
    [run] returns normally: beyond the two resolutions the carrier is not
    called, no shipment is created, nothing is printed but the line of the
    report writer, and the only file written is an empty report. *)
Theorem run_empty_input (env : Env)
    (from_address_id parcel_id csv_path address parcel : string) (w : World) :
  address_retrieve env from_address_id = Ok address ->
  parcel_retrieve env parcel_id = Ok parcel ->
  is_Some (fs w !! csv_path) ->
  (iterate_csv env csv_path w).1 = Ok [] ->
  open_write env results_path = None ->
  run env from_address_id parcel_id csv_path w
  = (Ok tt,
     mkWorld (heap w) (<[results_path := Sheet []]> (fs w))
             (stdout w ++ ["Writing CSV results to "])
             (events w ++ [EvAddressRetrieve from_address_id;
                           EvParcelRetrieve parcel_id;
                           EvPathExists csv_path])).
Proof.
  intros Ha Hp Hfile Hrows Hopen.
  rewrite (run_after_lookups env _ _ _ w address parcel Ha Hp Hfile).
  set (w0 := after_lookups from_address_id parcel_id csv_path w).
  assert (Hread0 : iterate_csv env csv_path w0 = (Ok [], w0))
    by (apply (iterate_csv_eq env csv_path w); [exact Hrows | reflexivity]).
  assert (Hgen : generate_shipments env address parcel csv_path w0 = (Ok [], w0)).
  { unfold generate_shipments.
    rewrite (for_rows_ok _ _ _ _ _ _ (f_equal fst Hread0)). reflexivity. }
  assert (Hnotes : generate_notes env [] csv_path w0 = (Ok tt, w0)).
  { unfold generate_notes.
    rewrite (for_rows_ok _ _ _ _ _ _ (f_equal fst Hread0)). reflexivity. }
  set (w1 := add_stdout "Writing CSV results to " w0).
  assert (Hread1 : iterate_csv env csv_path
                     (set_fs (<[results_path := Sheet []]> (fs w1)) w1)
                   = (Ok [], set_fs (<[results_path := Sheet []]> (fs w1)) w1)).
  { apply iterate_csv_after_open.
    rewrite <- Hrows. symmetry. apply iterate_csv_same_file. reflexivity. }
  assert (Hwrite : write_results env [] csv_path w0
                   = (Ok tt, set_fs (<[results_path := Sheet []]> (fs w1)) w1)).
  { unfold write_results, bind at 1 2, print, open_w. fold w1. rewrite Hopen.
    unfold bind at 1.
    rewrite (for_rows_ok _ _ _ _ _ _ (f_equal fst Hread1)). reflexivity. }
  unfold bind at 1. rewrite Hgen. unfold bind at 1.
  unfold try_except, after_purchase, bind. cbn [purchase_postage for_enum].
  rewrite Hnotes. cbn [merge_labels_and_notes for_each for_enum]. rewrite Hwrite.
  subst w1 w0. unfold after_lookups, add_event, add_stdout, set_fs. cbn.
  rewrite <- !app_assoc. reflexivity.
Qed.

Lemma run_empty_input_witness :
  address_retrieve Demo.env_ok "adr_1" = Ok "address adr_1"
  /\ parcel_retrieve Demo.env_ok "pcl_1" = Ok "parcel pcl_1"
  /\ is_Some (fs Demo.w_empty !! "in.csv")
  /\ (iterate_csv Demo.env_ok "in.csv" Demo.w_empty).1 = Ok []
  /\ open_write Demo.env_ok results_path = None
  /\ run Demo.env_ok "adr_1" "pcl_1" "in.csv" Demo.w_empty
     = (Ok tt,
        mkWorld (heap Demo.w_empty) (<[results_path := Sheet []]> (fs Demo.w_empty))
                (stdout Demo.w_empty ++ ["Writing CSV results to "])
                (events Demo.w_empty ++ [EvAddressRetrieve "adr_1";
                                         EvParcelRetrieve "pcl_1";
                                         EvPathExists "in.csv"])).
Proof.
  split; [reflexivity|]. split; [reflexivity|].
  split; [eexists; vm_compute; reflexivity|]. split; [vm_compute; reflexivity|].
  split; [reflexivity|].
  apply (run_empty_input Demo.env_ok "adr_1" "pcl_1" "in.csv"
           "address adr_1" "parcel pcl_1" Demo.w_empty).
  - reflexivity.
  - reflexivity.
  - eexists; vm_compute; reflexivity.
  - vm_compute; reflexivity.
  - reflexivity.
Defined.

(** ** The row source (lines 18-22) *)

(** X24: the rows of a readable input are one per non-blank record after
    the header, in file order, and every row has exactly the field names of
    the header as its keys (under the key [None] it keeps only the cells a
    record has beyond the header). *)
Theorem iterate_csv_rows_follow_header (env : Env) (csv_path : string) (w : World)
    (f : File) (header : list string) (body : list (list string)) :
  fs w !! csv_path = Some f ->
  read_records env f = Ok (header :: body) ->
  exists rows,
    iterate_csv env csv_path w = (Ok rows, w)
    /\ rows = dict_row header <$> filter (fun record => record ≠ []) body
    /\ forall row,
         row ∈ rows ->
         dom (fields row) = list_to_set header
         /\ exists record,
              record ∈ body
              /\ restkey row
                 = if Nat.ltb (length header) (length record)
                   then Some (drop (length header) record) else None.
Proof.
  intros Hfile Hread. eexists. split; [|split; [reflexivity|]].
  - unfold iterate_csv. rewrite Hfile, Hread. reflexivity.
  - intros row Hrow. apply list_elem_of_fmap in Hrow as (record & -> & Hin).
    apply list_elem_of_filter in Hin as [_ Hin].
    split; [apply dict_row_dom|]. exists record. split; [exact Hin|].
    apply dict_row_restkey.
Qed.

Lemma iterate_csv_rows_follow_header_witness :
  fs Demo.w0 !! "in.csv" = Some Demo.recipients
  /\ read_records Demo.env_ok Demo.recipients
     = Ok (Demo.header :: tl (records_of (Some Demo.recipients)))
  /\ exists rows,
       iterate_csv Demo.env_ok "in.csv" Demo.w0 = (Ok rows, Demo.w0)
       /\ length rows = 3.
Proof.
  split; [vm_compute; reflexivity|]. split; [reflexivity|].
  destruct (iterate_csv_rows_follow_header Demo.env_ok "in.csv" Demo.w0 Demo.recipients
              Demo.header (tl (records_of (Some Demo.recipients))))
    as (rows & Hread & -> & _).
  - vm_compute; reflexivity.
  - reflexivity.
  - eexists. split; [exact Hread | reflexivity].
Defined.

Lemma zip_dict_keep_acc (pairs : list (string * string))
    (d : gmap string (option string)) (name : string) :
  name ∉ pairs.*1 ->
  foldl (fun d kv => <[kv.1 := Some kv.2]> d) d pairs !! name = d !! name.
Proof.
  revert d. induction pairs as [|[k v] pairs IH]; intros d Hout; [reflexivity|].
  cbn in Hout. apply not_elem_of_cons in Hout as [Hne Hout]. cbn [foldl].
  rewrite IH by exact Hout. apply lookup_insert_ne. cbn. congruence.
Qed.

Lemma zip_dict_lookup_acc (pairs : list (string * string)) (d : gmap string (option string))
    (i : nat) (name cell0 : string) :
  NoDup pairs.*1 ->
  pairs !! i = Some (name, cell0) ->
  foldl (fun d kv => <[kv.1 := Some kv.2]> d) d pairs !! name = Some (Some cell0).
Proof.
  revert d i. induction pairs as [|[k v] pairs IH]; intros d i Hnd Hi; [inversion Hi|].
  cbn in Hnd. apply NoDup_cons in Hnd as [Hfresh Hnd]. cbn [foldl].
  destruct i as [|i]; cbn in Hi.
  - inversion Hi; subst k v.
    rewrite zip_dict_keep_acc by exact Hfresh. apply lookup_insert_eq.
  - eapply IH; eauto.
Qed.

(** X25: when the header names no column twice, the cell at position [i] of
    a data record is found in its row under the [i]-th name of the header. *)
Theorem row_cell_under_header_name (header record : list string) (i : nat)
    (name cell0 : string) :
  NoDup header ->
  header !! i = Some name ->
  record !! i = Some cell0 ->
  fields (dict_row header record) !! name = Some (Some cell0).
Proof.
  intros Hnd Hname Hcell.
  assert (Hzip : zip_dict header record !! name = Some (Some cell0)).
  { unfold zip_dict. apply (zip_dict_lookup_acc _ _ i).
    - rewrite fst_zip_take. apply sublist_NoDup with header; [exact Hnd | apply sublist_take].
    - rewrite lookup_zip_with, Hname, Hcell. reflexivity. }
  unfold dict_row.
  destruct (Nat.ltb (length header) (length record)); [exact Hzip|].
  destruct (Nat.ltb_spec (length record) (length header)) as [Hshort|_]; [|exact Hzip].
  cbn [fields]. unfold fill_restval.
  assert (Hout : name ∉ drop (length record) header).
  { intros Hin. apply list_elem_of_lookup in Hin as (j & Hj).
    rewrite lookup_drop in Hj.
    pose proof (NoDup_lookup header i (length record + j) name Hnd Hname Hj) as Heq.
    apply lookup_lt_Some in Hcell. lia. }
  revert Hout. generalize (drop (length record) header) as names.
  generalize (zip_dict header record) as d, Hzip.
  intros d Hd names. revert d Hd.
  induction names as [|k names IH]; intros d Hd Hout; [exact Hd|].
  apply not_elem_of_cons in Hout as [Hne Hout]. cbn [foldl]. apply IH; [|exact Hout].
  rewrite lookup_insert_ne by congruence. exact Hd.
Qed.

Lemma row_cell_under_header_name_witness :
  NoDup Demo.header
  /\ Demo.header !! 4 = Some "State"
  /\ ["Ann"; "1 Main St"; EmptyString; "Albany"; "ny"; "12207";
      "Happy Purim"; "The Cohens"; "Chag sameach"] !! 4 = Some "ny"
  /\ fields Demo.row_ann !! "State" = Some (Some "ny").
Proof.
  assert (Hnd : NoDup Demo.header) by (refine (bool_decide_unpack _ _); vm_compute; exact I).
  split; [exact Hnd|]. split; [reflexivity|]. split; [reflexivity|].
  apply (row_cell_under_header_name Demo.header
           ["Ann"; "1 Main St"; EmptyString; "Albany"; "ny"; "12207";
            "Happy Purim"; "The Cohens"; "Chag sameach"] 4 "State" "ny" Hnd);
    reflexivity.
Defined.

(** ** The helper that is never called (lines 25-29) *)

(** X26: [remote_tempfile] never raises.  When the path exists and the
    operating system lets it go, the file is gone afterwards; otherwise
    nothing changes.  In both cases every other file, the shipments, the
    output and the trace stay as they were. *)
Theorem remote_tempfile_best_effort (remove_error : string -> option exn)
    (path : string) (w : World) :
  (remote_tempfile remove_error path w).1 = Ok tt
  /\ fs (remote_tempfile remove_error path w).2
     = (if remove_error path is None then delete path (fs w) else fs w)
  /\ heap (remote_tempfile remove_error path w).2 = heap w
  /\ stdout (remote_tempfile remove_error path w).2 = stdout w
  /\ events (remote_tempfile remove_error path w).2 = events w.
Proof.
  unfold remote_tempfile, try_except, os_remove, ret.
  destruct (fs w !! path) as [f|] eqn:Hfile.
  - destruct (remove_error path); cbn; repeat split; reflexivity.
  - cbn. repeat split; try reflexivity.
    destruct (remove_error path); [reflexivity|].
    symmetry. apply delete_id. exact Hfile.
Qed.

(** ** Compensation and consistency across stages *)

Lemma after_purchase_heap (env : Env) (shipments : list nat) (csv_path : string)
    (w : World) :
  heap (after_purchase env shipments csv_path w).2 = heap w.
Proof.
  unfold after_purchase, bind.
  destruct (generate_notes_quiet env shipments csv_path w) as [Hn _].
  destruct (generate_notes env shipments csv_path w) as [[[]|e] w1]; cbn [snd] in *;
    [|exact Hn].
  assert (Hm : heap (merge_labels_and_notes env shipments w1).2 = heap w1).
  { unfold merge_labels_and_notes, for_each.
    destruct (merge_loop_frame env shipments 0 w1) as [H _].
    destruct (for_enum (merge_one env) 0 shipments tt w1) as [[[]|k x e] w2]; exact H. }
  destruct (merge_labels_and_notes env shipments w1) as [[[]|e] w2]; cbn [snd] in *;
    [|congruence].
  destruct (write_results_touches_only_report_frame env shipments csv_path w2) as [Hw _].
  congruence.
Qed.

(** X27: when every purchase of a batch went through and a later stage fails
    with an [Exception], then, with a carrier that takes back purchased
    postage, every shipment of the batch is refunded when [run] returns: no
    paid postage is left behind. *)
Theorem run_failure_refunds_whole_batch (env : Env)
    (from_address_id parcel_id csv_path address parcel : string)
    (shipments : list nat) (w0 w1 w2 w3 : World) (e : exn) :
  address_retrieve env from_address_id = Ok address ->
  parcel_retrieve env parcel_id = Ok parcel ->
  is_Some (fs w0 !! csv_path) ->
  generate_shipments env address parcel csv_path
    (after_lookups from_address_id parcel_id csv_path w0) = (Ok shipments, w1) ->
  for_enum (purchase_one env) 0 shipments tt w1 = (LoopDone tt, w2) ->
  after_purchase env shipments csv_path w2 = (Raise e, w3) ->
  is_Exception e = true ->
  (forall ref shipment, state shipment = Purchased ->
                        shipment_refund env ref shipment = None) ->
  (run env from_address_id parcel_id csv_path w0).1 = Ok tt
  /\ forall ref,
       ref ∈ shipments ->
       exists shipment,
         heap (run env from_address_id parcel_id csv_path w0).2 !! ref = Some shipment
         /\ state shipment = Refunded
         /\ is_Some (tracking_code shipment).
Proof.
  intros Ha Hp Hfile Hgen Hbuy Hafter Hexn Haccept.
  assert (Hnd : NoDup shipments).
  { destruct (generate_shipments_spec _ _ _ _ _ _ _ Hgen) as (rows & ? & _ & _ & -> & _).
    apply NoDup_seq. }
  pose proof (after_purchase_heap env shipments csv_path w2) as Hheap.
  rewrite Hafter in Hheap. cbn [snd] in Hheap.
  set (w3' := add_stdout ("Failure: " +:+ exn_message e) w3).
  destruct (refund_loop env shipments 0 w3') as (w4 & Hsweep & _).
  assert (Hrun : run env from_address_id parcel_id csv_path w0 = (Ok tt, w4)).
  { rewrite (run_after_lookups env _ _ _ w0 address parcel Ha Hp Hfile).
    unfold bind at 1. rewrite Hgen. unfold bind at 1, purchase_postage. rewrite Hbuy.
    unfold try_except. rewrite Hafter, Hexn. unfold bind, print. fold w3'.
    unfold refund_postage, for_each. rewrite Hsweep. reflexivity. }
  rewrite Hrun. cbn [fst snd]. split; [reflexivity|].
  intros ref Hin. apply list_elem_of_lookup in Hin as Hi. destruct Hi as (i & Hi).
  destruct (purchase_loop_done env shipments 0 w1 w2 Hnd Hbuy i ref Hi)
    as (s & rate & code & url & data & _ & _ & _ & _ & Hs2 & _).
  rewrite <- Hheap in Hs2.
  pose proof (refund_loop_heap_at env shipments 0 w3' ref _ Hnd Hin Hs2) as Hat.
  rewrite Hsweep in Hat. cbn [snd] in Hat.
  rewrite (Haccept ref (bought s code url) eq_refl) in Hat.
  eexists. split; [exact Hat|]. split; [reflexivity|]. cbn. eauto.
Qed.

Lemma run_failure_refunds_whole_batch_witness :
  address_retrieve Demo.env_ok "adr_1" = Ok "address adr_1"
  /\ parcel_retrieve Demo.env_ok "pcl_1" = Ok "parcel pcl_1"
  /\ is_Some (fs Demo.w_plain !! "in.csv")
  /\ generate_shipments Demo.env_ok "address adr_1" "parcel pcl_1" "in.csv"
       (after_lookups "adr_1" "pcl_1" "in.csv" Demo.w_plain) = (Ok [0; 1], Demo.w_plain1)
  /\ for_enum (purchase_one Demo.env_ok) 0 [0; 1] tt Demo.w_plain1
     = (LoopDone tt, Demo.w_plain2)
  /\ after_purchase Demo.env_ok [0; 1] "in.csv" Demo.w_plain2
     = (Raise (KeyError "Generic Message"), Demo.w_plain3)
  /\ is_Exception (KeyError "Generic Message") = true
  /\ (forall ref shipment, state shipment = Purchased ->
                           shipment_refund Demo.env_ok ref shipment = None)
  /\ (run Demo.env_ok "adr_1" "pcl_1" "in.csv" Demo.w_plain).1 = Ok tt.
Proof.
  assert (Haccept : forall ref shipment, state shipment = Purchased ->
                                         shipment_refund Demo.env_ok ref shipment = None)
    by (intros ref shipment Hs; cbn; rewrite Hs; reflexivity).
  split; [reflexivity|]. split; [reflexivity|].
  split; [eexists; vm_compute; reflexivity|]. split; [vm_compute; reflexivity|].
  split; [vm_compute; reflexivity|]. split; [vm_compute; reflexivity|].
  split; [reflexivity|]. split; [exact Haccept|].
  apply (run_failure_refunds_whole_batch Demo.env_ok "adr_1" "pcl_1" "in.csv"
           "address adr_1" "parcel pcl_1" [0; 1]
           Demo.w_plain Demo.w_plain1 Demo.w_plain2 Demo.w_plain3
           (KeyError "Generic Message")).
  - reflexivity.
  - reflexivity.
  - eexists; vm_compute; reflexivity.
  - vm_compute; reflexivity.
  - vm_compute; reflexivity.
  - vm_compute; reflexivity.
  - reflexivity.
  - exact Haccept.
Defined.

(** X28: when the merge and then the report complete, every data record of
    the report ends with the path of a merged document that exists: the
    report names no file the merge did not write. *)
Theorem report_paths_exist (env : Env) (shipments : list nat) (csv_path : string)
    (w3 w4 w5 : World) :
  csv_path ≠ results_path ->
  merge_labels_and_notes env shipments w3 = (Ok tt, w4) ->
  write_results env shipments csv_path w4 = (Ok tt, w5) ->
  exists header data,
    fs w5 !! results_path = Some (Sheet (header ++ data))
    /\ length header <= 1
    /\ forall i cells,
         data !! i = Some cells ->
         exists merged,
           last cells = Some merged /\ is_Some (fs w5 !! merged).
Proof.
  intros Hpath Hmerge Hwrite.
  destruct (write_results_spec _ _ _ _ _ Hpath Hwrite) as (rows & Hrows & _ & Hreport).
  unfold merge_labels_and_notes, for_each in Hmerge.
  destruct (merge_loop_frame env shipments 0 w3) as [Hheap _].
  destruct (for_enum (merge_one env) 0 shipments tt w3) as [[[]|k x e] w4'] eqn:Hloop;
    [|discriminate Hmerge].
  inversion Hmerge; subst w4'. cbn [snd] in Hheap.
  destruct (merge_loop_done env shipments 0 w3 w4 Hloop) as [_ Hdone].
  destruct (write_results_touches_only_report_frame env shipments csv_path w4)
    as (_ & Hkeep).
  rewrite Hwrite in Hkeep. cbn [snd] in Hkeep.
  destruct rows as [|row0 rest] eqn:E.
  - exists [], []. split; [exact Hreport|]. split; [cbn; lia|].
    intros i cells Hi. inversion Hi.
  - rewrite <- E in *.
    destruct Hreport as (sorted & data & _ & Hfile & Hlen & Hdata).
    exists [header_cell <$> (sorted ++ [Some "Tracking Code"; Some "Label And Note"])], data.
    split; [exact Hfile|]. split; [cbn; lia|].
    intros i cells Hi.
    assert (Hrow : is_Some (rows !! i)).
    { apply lookup_lt_is_Some. rewrite <- Hlen. eapply lookup_lt_Some. exact Hi. }
    destruct Hrow as (row & Hrow).
    destruct (Hdata i row Hrow) as (cells' & Hcells' & Hwritten).
    rewrite Hi in Hcells'. inversion Hcells'; subst cells'. clear Hcells'.
    destruct (row_written_cells _ _ _ _ _ _ _ Hwritten) as (ref & Href & -> & _).
    destruct (Hdone i ref Href) as (merged & _ & Hexists).
    eexists. split.
    { match goal with
      | |- last (?pre ++ [?a; ?b]) = _ =>
          change (pre ++ [a; b]) with (pre ++ ([a] ++ [b]))
      end.
      rewrite app_assoc. apply last_snoc. }
    rewrite Hkeep by (intros H; discriminate H).
    rewrite Hheap. exists (Blob merged). exact Hexists.
Qed.

Lemma report_paths_exist_witness :
  "in.csv" ≠ results_path
  /\ merge_labels_and_notes Demo.env_ok [0; 1; 2] Demo.w_run3 = (Ok tt, Demo.w_run4)
  /\ write_results Demo.env_ok [0; 1; 2] "in.csv" Demo.w_run4 = (Ok tt, Demo.w_run5)
  /\ exists header data,
       fs Demo.w_run5 !! results_path = Some (Sheet (header ++ data))
       /\ length header <= 1.
Proof.
  split; [discriminate|]. split; [vm_compute; reflexivity|].
  split; [vm_compute; reflexivity|].
  destruct (report_paths_exist Demo.env_ok [0; 1; 2] "in.csv"
              Demo.w_run3 Demo.w_run4 Demo.w_run5)
    as (header & data & Hfile & Hlen & _).
  - discriminate.
  - vm_compute; reflexivity.
  - vm_compute; reflexivity.
  - exists header, data. auto.
Defined.
